(** * VMX enablement and guest execution engine (kernel/arch/x86/hypervisor.cpp)

    A shallow embedding of the x86 hypervisor core: the VMCS control helper,
    the per-CPU VMXON bring-up, the scoped VMCS load, VMCS construction, guest
    entry and the VM-exit handlers, with the properties the specification
    states about them.

    Integers of the source are modelled as [Z] with their width written out:
    a [uint32_t] is a [Z] in [0, 2^32), a [uint64_t] a [Z] in [0, 2^64), and
    every operation that can leave the range is wrapped explicitly. *)

From Stdlib Require Import ZArith List Bool Lia.
Import ListNotations.
Local Open Scope Z_scope.

(* ================================================================== *)
(** ** Machine integers *)

Definition mask8  : Z := 0xFF.
Definition mask16 : Z := 0xFFFF.
Definition mask32 : Z := 0xFFFFFFFF.
Definition mask64 : Z := 0xFFFFFFFFFFFFFFFF.

(** [static_cast<uintN_t>] and unsigned wrap-around. *)
Definition wrap8  (x : Z) : Z := Z.land x mask8.
Definition wrap16 (x : Z) : Z := Z.land x mask16.
Definition wrap32 (x : Z) : Z := Z.land x mask32.
Definition wrap64 (x : Z) : Z := Z.land x mask64.

(** The C operator [~] on a [uint32_t] and on a [uint64_t]. *)
Definition not32 (x : Z) : Z := Z.land (Z.lnot x) mask32.
Definition not64 (x : Z) : Z := Z.land (Z.lnot x) mask64.

Definition is_u32 (x : Z) : Prop := 0 <= x < 2 ^ 32.
Definition is_u64 (x : Z) : Prop := 0 <= x < 2 ^ 64.

(** A C integer used as a condition. *)
Definition nonzero (x : Z) : bool := negb (x =? 0).

(** Modelled from the spec: the macros of <bits.h>, which is not part of the
    sources at hand.  The spec reads [BITS(x, 31, 0)] as "bits [31:0]",
    [BITS_SHIFT(x, 63, 32)] as "bits [63:32]" and [BIT_SHIFT(x, 3)] as
    "bit 3": [BITS] keeps the bits [high..low] of [x] where they are,
    [BITS_SHIFT] moves them down to bit 0, [BIT_SHIFT] is one bit moved down
    to bit 0. *)
Definition BITS (x high low : Z) : Z :=
  Z.land x (Z.land (Z.ones (high + 1)) (Z.lnot (Z.ones low))).

Definition BITS_SHIFT (x high low : Z) : Z :=
  Z.land (Z.shiftr x low) (Z.ones (high - low + 1)).

Definition BIT_SHIFT (x bit : Z) : Z :=
  Z.land (Z.shiftr x bit) 1.

(** The value [set_vmcs_control] computes in lines 477 to 480, over the two
    halves of the true MSR. *)
Definition control_value (allowed_0 allowed_1 old_msr set clear : Z) : Z :=
  Z.lor (Z.lor allowed_0
           (Z.land (Z.land (Z.lxor allowed_0 allowed_1) (not32 (Z.lor set clear)))
              (wrap32 old_msr)))
    set.

(** Modelled from the spec: PAGE_SIZE of <arch/defines.h>, which is not part
    of the sources at hand; the spec fixes the frame size at 4 KiB. *)
Definition PAGE_SIZE : Z := 4096.

Definition IS_PAGE_ALIGNED (x : Z) : bool := Z.land x (PAGE_SIZE - 1) =? 0.

(** [status_t], restricted to the codes this file returns
    (<magenta/errors.h>). *)
Inductive status_t : Type :=
| NO_ERROR
| ERR_INTERNAL
| ERR_NOT_SUPPORTED
| ERR_NO_MEMORY
| ERR_INVALID_ARGS
| ERR_BAD_STATE.

Definition status_eqb (a b : status_t) : bool :=
  match a, b with
  | NO_ERROR, NO_ERROR
  | ERR_INTERNAL, ERR_INTERNAL
  | ERR_NOT_SUPPORTED, ERR_NOT_SUPPORTED
  | ERR_NO_MEMORY, ERR_NO_MEMORY
  | ERR_INVALID_ARGS, ERR_INVALID_ARGS
  | ERR_BAD_STATE, ERR_BAD_STATE => true
  | _, _ => false
  end.

(* ================================================================== *)
(** ** IoInfo: the exit qualification of an I/O exit *)

Module IoInfo.

Record t : Type := mk {
  bytes : Z;       (* uint8_t *)
  input : bool;
  string : bool;
  repeat : bool;
  port : Z         (* uint16_t *)
}.

(** [IoInfo::IoInfo(uint64_t qualification)]. *)
Definition IoInfo (qualification : Z) : t :=
  {| bytes := wrap8 (BITS qualification 2 0 + 1);
     input := nonzero (BIT_SHIFT qualification 3);
     string := nonzero (BIT_SHIFT qualification 4);
     repeat := nonzero (BIT_SHIFT qualification 5);
     port := wrap16 (BITS_SHIFT qualification 31 16) |}.

End IoInfo.

(* ================================================================== *)
(** ** Registers and VMCS fields named by the source *)

(** The model-specific registers the source reads or writes, by name
    (X86_MSR_* of <arch/x86/registers.h>). *)
Inductive Msr : Type :=
| X86_MSR_IA32_FEATURE_CONTROL
| X86_MSR_IA32_VMX_BASIC
| X86_MSR_IA32_VMX_MISC
| X86_MSR_IA32_VMX_EPT_VPID_CAP
| X86_MSR_IA32_VMX_CR0_FIXED0
| X86_MSR_IA32_VMX_CR0_FIXED1
| X86_MSR_IA32_VMX_CR4_FIXED0
| X86_MSR_IA32_VMX_CR4_FIXED1
| X86_MSR_IA32_VMX_PROCBASED_CTLS2
| X86_MSR_IA32_VMX_TRUE_PINBASED_CTLS
| X86_MSR_IA32_VMX_PINBASED_CTLS
| X86_MSR_IA32_VMX_TRUE_PROCBASED_CTLS
| X86_MSR_IA32_VMX_PROCBASED_CTLS
| X86_MSR_IA32_VMX_TRUE_EXIT_CTLS
| X86_MSR_IA32_VMX_EXIT_CTLS
| X86_MSR_IA32_VMX_TRUE_ENTRY_CTLS
| X86_MSR_IA32_VMX_ENTRY_CTLS
| X86_MSR_IA32_PAT
| X86_MSR_IA32_EFER
| X86_MSR_IA32_STAR
| X86_MSR_IA32_LSTAR
| X86_MSR_IA32_FMASK
| X86_MSR_IA32_FS_BASE
| X86_MSR_IA32_GS_BASE
| X86_MSR_IA32_KERNEL_GS_BASE.

Definition Msr_eq_dec (a b : Msr) : {a = b} + {a <> b}.
Proof. decide equality. Defined.

(** The four [enum class]es of VMCS field encodings, one per access width. *)
Module VmcsField16.
Inductive t : Type :=
| VPID
| HOST_ES_SELECTOR | HOST_CS_SELECTOR | HOST_SS_SELECTOR | HOST_DS_SELECTOR
| HOST_FS_SELECTOR | HOST_GS_SELECTOR | HOST_TR_SELECTOR.
Definition eq_dec (a b : t) : {a = b} + {a <> b}.
Proof. decide equality. Defined.
End VmcsField16.

Module VmcsField32.
Inductive t : Type :=
| PINBASED_CTLS | PROCBASED_CTLS | PROCBASED_CTLS2 | EXIT_CTLS | ENTRY_CTLS
| EXCEPTION_BITMAP | PAGEFAULT_ERRORCODE_MASK | PAGEFAULT_ERRORCODE_MATCH
| EXIT_MSR_STORE_COUNT | EXIT_MSR_LOAD_COUNT | ENTRY_MSR_LOAD_COUNT
| VM_INSTRUCTION_ERROR | EXIT_REASON
| INTERRUPTION_INFORMATION | INTERRUPTION_ERROR_CODE
| INSTRUCTION_LENGTH | INSTRUCTION_INFORMATION
| HOST_IA32_SYSENTER_CS
| GUEST_ES_ACCESS_RIGHTS | GUEST_CS_ACCESS_RIGHTS | GUEST_SS_ACCESS_RIGHTS
| GUEST_DS_ACCESS_RIGHTS | GUEST_FS_ACCESS_RIGHTS | GUEST_GS_ACCESS_RIGHTS
| GUEST_LDTR_ACCESS_RIGHTS | GUEST_TR_ACCESS_RIGHTS
| GUEST_GDTR_LIMIT | GUEST_IDTR_LIMIT
| GUEST_INTERRUPTIBILITY_STATE | GUEST_ACTIVITY_STATE
| GUEST_IA32_SYSENTER_CS.
Definition eq_dec (a b : t) : {a = b} + {a <> b}.
Proof. decide equality. Defined.
End VmcsField32.

Module VmcsField64.
Inductive t : Type :=
| MSR_BITMAPS_ADDRESS
| EXIT_MSR_STORE_ADDRESS | EXIT_MSR_LOAD_ADDRESS | ENTRY_MSR_LOAD_ADDRESS
| EPT_POINTER | GUEST_PHYSICAL_ADDRESS | LINK_POINTER
| GUEST_IA32_PAT | GUEST_IA32_EFER | HOST_IA32_PAT | HOST_IA32_EFER.
Definition eq_dec (a b : t) : {a = b} + {a <> b}.
Proof. decide equality. Defined.
End VmcsField64.

Module VmcsFieldXX.
Inductive t : Type :=
| EXIT_QUALIFICATION | GUEST_LINEAR_ADDRESS
| GUEST_CR0 | GUEST_CR3 | GUEST_CR4
| GUEST_GDTR_BASE | GUEST_IDTR_BASE
| GUEST_PENDING_DEBUG_EXCEPTIONS
| GUEST_RSP | GUEST_RIP | GUEST_RFLAGS
| GUEST_IA32_SYSENTER_ESP | GUEST_IA32_SYSENTER_EIP
| HOST_CR0 | HOST_CR3 | HOST_CR4
| HOST_FS_BASE | HOST_GS_BASE | HOST_TR_BASE
| HOST_GDTR_BASE | HOST_IDTR_BASE
| HOST_IA32_SYSENTER_ESP | HOST_IA32_SYSENTER_EIP
| HOST_RSP | HOST_RIP.
Definition eq_dec (a b : t) : {a = b} + {a <> b}.
Proof. decide equality. Defined.
End VmcsFieldXX.

(** [static_cast<uint64_t>(field)]: the encoding handed to VMREAD and
    VMWRITE.  The numeric encodings are not needed; the four classes are
    kept apart. *)
Inductive Field : Type :=
| F16 (f : VmcsField16.t)
| F32 (f : VmcsField32.t)
| F64 (f : VmcsField64.t)
| FXX (f : VmcsFieldXX.t).

Definition Field_eq_dec (a b : Field) : {a = b} + {a <> b}.
Proof.
  decide equality;
    [ apply VmcsField16.eq_dec | apply VmcsField32.eq_dec
    | apply VmcsField64.eq_dec | apply VmcsFieldXX.eq_dec ].
Defined.

(** [enum class ExitReason]: the reasons the dispatcher names; every other
    value of the exit-reason field takes the [default] arm. *)
Module ExitReason.
Inductive t : Type :=
| EXTERNAL_INTERRUPT
| CPUID
| IO_INSTRUCTION
| WRMSR
| OTHER.
End ExitReason.

(* ================================================================== *)
(** ** Saved guest registers and MSR lists *)

(** [GuestState] of <arch/x86/hypervisor_state.h>: the saved guest
    registers.  The handlers touch [rax], [rbx], [rcx] and [rdx] only. *)
Record GuestState : Type := mkGuestState {
  rax : Z;
  rbx : Z;
  rcx : Z;
  rdx : Z
}.

(** [VmxState]: the block shared with the trampoline; the host save slots
    are opaque to this file. *)
Record VmxState : Type := mkVmxState {
  guest_state : GuestState
}.

Record MsrListEntry : Type := mkMsrListEntry {
  msr : Z;        (* uint32_t *)
  reserved : Z;   (* uint32_t *)
  value : Z       (* uint64_t *)
}.

(* ================================================================== *)
(** ** What the source takes from headers and from the hardware *)

(** Constants of headers that are not part of the sources at hand, and the
    behaviour of the hardware and of the external collaborators (the VMX
    instructions, the trampoline, CPUID, the serial FIFO).  The code is
    verified for every choice of them. *)
Class Platform : Type := {
  (* <arch/x86/registers.h> *)
  X86_MSR_IA32_FEATURE_CONTROL_LOCK : Z;
  X86_MSR_IA32_FEATURE_CONTROL_VMXON : Z;
  X86_CR0_PE : Z;
  X86_CR0_PG : Z;
  X86_CR0_NE : Z;
  X86_CR4_PAE : Z;
  X86_CR4_VMXE : Z;
  X86_FLAGS_RESERVED_ONES : Z;
  msr_number : Msr -> Z;
  (* "hypervisor_priv.h" *)
  VMX_MEMORY_TYPE_WRITE_BACK : Z;
  PROCBASED_CTLS2_EPT : Z;
  PROCBASED_CTLS2_RDTSCP : Z;
  PROCBASED_CTLS2_VPID : Z;
  PROCBASED_CTLS2_XSAVES_XRSTORS : Z;
  PINBASED_CTLS_EXTINT_EXITING : Z;
  PINBASED_CTLS_NMI_EXITING : Z;
  PROCBASED_CTLS_IO_EXITING : Z;
  PROCBASED_CTLS_MSR_BITMAPS : Z;
  PROCBASED_CTLS_PROCBASED_CTLS2 : Z;
  PROCBASED_CTLS_CR3_LOAD_EXITING : Z;
  PROCBASED_CTLS_CR3_STORE_EXITING : Z;
  EXIT_CTLS_64BIT_MODE : Z;
  EXIT_CTLS_SAVE_IA32_PAT : Z;
  EXIT_CTLS_LOAD_IA32_PAT : Z;
  EXIT_CTLS_SAVE_IA32_EFER : Z;
  EXIT_CTLS_LOAD_IA32_EFER : Z;
  ENTRY_CTLS_IA32E_MODE : Z;
  ENTRY_CTLS_LOAD_IA32_PAT : Z;
  ENTRY_CTLS_LOAD_IA32_EFER : Z;
  EXCEPTION_BITMAP_ALL_EXCEPTIONS : Z;
  LINK_POINTER_INVALIDATE : Z;
  GUEST_XX_ACCESS_RIGHTS_UNUSABLE : Z;
  GUEST_XX_ACCESS_RIGHTS_TYPE_A : Z;
  GUEST_XX_ACCESS_RIGHTS_TYPE_W : Z;
  GUEST_XX_ACCESS_RIGHTS_TYPE_E : Z;
  GUEST_XX_ACCESS_RIGHTS_TYPE_CODE : Z;
  GUEST_XX_ACCESS_RIGHTS_S : Z;
  GUEST_XX_ACCESS_RIGHTS_P : Z;
  GUEST_XX_ACCESS_RIGHTS_L : Z;
  GUEST_TR_ACCESS_RIGHTS_TSS_BUSY : Z;
  (** [static_cast<ExitReason>] of the 32-bit exit-reason field. *)
  ExitReason_of : Z -> ExitReason.t;
  (* <arch/x86/descriptor.h>, <arch/x86/idt.h>, per-CPU data *)
  CODE_64_SELECTOR : Z;
  DATA_SELECTOR : Z;
  TSS_SELECTOR : Z -> Z;
  cpu_num : Z;                 (* percpu->cpu_num, arch_curr_cpu_num() *)
  default_tss_address : Z;     (* &percpu->default_tss *)
  gdt_address : Z;             (* _gdt *)
  idt_readonly_address : Z;    (* idt_get_readonly() *)
  vmx_exit_entry_address : Z;  (* vmx_exit_entry *)
  vmx_state_address : Z;       (* &vmx_state_ *)
  (** What the rest of the machine is in: everything the VMX instructions
      and the guest depend on that this file does not see. *)
  World : Type;
  (** The VMX instructions: [true] is the error flag of VMX_ERR_CHECK
      (CF or ZF set). *)
  insn_vmxon : World -> Z -> bool * World;
  insn_vmxoff : World -> bool * World;
  insn_vmptrld : World -> Z -> bool * World;
  insn_vmclear : World -> Z -> bool * World;
  (** The instruction CPUID of the host: leaf to (eax, ebx, ecx, edx). *)
  insn_cpuid : Z -> Z * Z * Z * Z;
  (** The trampoline [vmx_enter(&vmx_state_, do_resume_)]: VMLAUNCH or
      VMRESUME, the guest runs, a VM exit comes back.  It leaves a status,
      the saved guest registers and the exit fields of the VMCS; it returns
      with interrupts as they were. *)
  asm_vmx_enter : World -> VmxState -> (Field -> Z) -> bool ->
                  status_t * World * VmxState * (Field -> Z);
  (** The serial FIFO and [FifoDispatcher::Write(data, len, &actual)]. *)
  FifoDispatcher : Type;
  FifoDispatcher_Write : FifoDispatcher -> list Z -> status_t * Z * FifoDispatcher;
  (** The build switch WITH_LIB_MAGENTA. *)
  WITH_LIB_MAGENTA : bool
}.

(* ================================================================== *)
(** ** Capability descriptors *)

Module VmxInfo.
Record t : Type := mk {
  revision_id : Z;     (* uint32_t *)
  region_size : Z;     (* uint16_t *)
  write_back : bool;
  io_exit_info : bool;
  vmx_controls : bool
}.
(** The body of [VmxInfo::VmxInfo()], from the value of IA32_VMX_BASIC. *)
Definition decode `{Platform} (basic_info : Z) : t :=
  {| revision_id := wrap32 (BITS basic_info 30 0);
     region_size := wrap16 (BITS_SHIFT basic_info 44 32);
     write_back := BITS_SHIFT basic_info 53 50 =? VMX_MEMORY_TYPE_WRITE_BACK;
     io_exit_info := nonzero (BIT_SHIFT basic_info 54);
     vmx_controls := nonzero (BIT_SHIFT basic_info 55) |}.
End VmxInfo.

Module MiscInfo.
Record t : Type := mk {
  wait_for_sipi : bool;
  msr_list_limit : Z   (* uint32_t *)
}.
(** The body of [MiscInfo::MiscInfo()], from the value of IA32_VMX_MISC. *)
Definition decode (misc_info : Z) : t :=
  {| wait_for_sipi := nonzero (BIT_SHIFT misc_info 8);
     msr_list_limit := wrap32 (wrap32 (BITS_SHIFT misc_info 27 25 + 1) * 512) |}.
End MiscInfo.

Module EptInfo.
Record t : Type := mk {
  page_walk_4 : bool;
  write_back : bool;
  pde_2mb_page : bool;
  pdpe_1gb_page : bool;
  ept_flags : bool;
  exit_info : bool;
  invept : bool
}.
(** The body of [EptInfo::EptInfo()], from the value of
    IA32_VMX_EPT_VPID_CAP. *)
Definition decode (ept_info : Z) : t :=
  {| page_walk_4 := nonzero (BIT_SHIFT ept_info 6);
     write_back := nonzero (BIT_SHIFT ept_info 14);
     pde_2mb_page := nonzero (BIT_SHIFT ept_info 16);
     pdpe_1gb_page := nonzero (BIT_SHIFT ept_info 17);
     ept_flags := nonzero (BIT_SHIFT ept_info 21);
     exit_info := nonzero (BIT_SHIFT ept_info 22);
     invept :=
       nonzero (BIT_SHIFT ept_info 20) &&
       nonzero (BIT_SHIFT ept_info 25) &&
       nonzero (BIT_SHIFT ept_info 26) |}.
End EptInfo.

(** [ExitInfo]: the snapshot read after a VM exit. *)
Record ExitInfo : Type := mkExitInfo {
  exit_reason : ExitReason.t;
  exit_qualification : Z;
  interruption_information : Z;
  interruption_error_code : Z;
  instruction_length : Z;
  instruction_information : Z;
  guest_physical_address : Z;
  guest_linear_address : Z;
  guest_interruptibility_state : Z;
  guest_rip : Z
}.

(** [VmxPage]: the physical address of the frame it owns, 0 when it owns
    none. *)
Record VmxPage : Type := mkVmxPage {
  pa_ : Z
}.

(** Modelled from the spec: [VmxPage::IsAllocated] of
    <arch/x86/hypervisor.h>, which is not part of the sources at hand; the
    spec has a page unallocated exactly when its physical address is 0. *)
Definition IsAllocated (p : VmxPage) : bool := negb (pa_ p =? 0).

(** The part of [VmcsContext] that [set_cr3], [set_entry] and [Enter] use:
    the size of the guest physical address space ([gpas_->size()]) and the
    two fields the caller programs. *)
Record VmcsContext : Type := mkVmcsContext {
  gpas_size : Z;   (* size_t *)
  cr3_ : Z;        (* uintptr_t *)
  entry_ : Z       (* uintptr_t *)
}.

(* ================================================================== *)
(** ** What the code does to the machine, in the order it does it *)

(** Newest event first. *)
Inductive Event : Type :=
| EvWriteMsr (m : Msr) (v : Z)
| EvSetCr4 (v : Z)
| EvDisableInts
| EvEnableInts
| EvVmxon (pa : Z)
| EvVmxoff
| EvVmclear (pa : Z)
| EvVmptrld (pa : Z) (ints_off : bool)  (* with the interrupt flag it ran under *)
| EvVmwrite (f : Field) (v : Z)
| EvVmxEnter (resume : bool) (status : status_t)  (* VMLAUNCH or VMRESUME *)
| EvCpuid (leaf : Z)
| EvFifoWrite (data : list Z).

(* ================================================================== *)
(** ** A state monad with assertion failure *)

(** A computation over a state [S]: [None] is a failed [ASSERT] or
    [DEBUG_ASSERT] (the kernel panics), [Some (a, s)] a return. *)
Definition StateErr (S A : Type) : Type := S -> option (A * S).

Definition ret {S A} (a : A) : StateErr S A := fun s => Some (a, s).

Definition bind {S A B} (m : StateErr S A) (k : A -> StateErr S B) : StateErr S B :=
  fun s => match m s with
           | Some (a, s') => k a s'
           | None => None
           end.

Definition gets {S A} (f : S -> A) : StateErr S A := fun s => Some (f s, s).

Definition modify {S} (f : S -> S) : StateErr S unit := fun s => Some (tt, f s).

Definition DEBUG_ASSERT {S} (b : bool) : StateErr S unit :=
  fun s => if b then Some (tt, s) else None.

Notation "x <- m ;; k" := (bind m (fun x => k))
  (at level 61, m at next level, right associativity).
Notation "m ;; k" := (bind m (fun _ => k))
  (at level 61, right associativity).

(* ================================================================== *)
(** ** The model *)

Section Model.

Context `{Platform}.

(** One logical processor with the objects of this file that live on it:
    its registers and current VMCS, the [VmxonPerCpu] and [VmcsPerCpu] of
    the contexts, and the serial FIFO. *)
Record State : Type := mkState {
  msrs : Msr -> Z;   (* model-specific registers of this CPU *)
  cr0 : Z;
  cr3 : Z;
  cr4 : Z;
  ints_disabled : bool;   (* arch_ints_disabled() *)
  vmcs : Field -> Z;   (* the fields of the current VMCS *)
  world : World;
  vmxon_page_ : VmxPage;   (* VmxonPerCpu::page_ *)
  is_on_ : bool;   (* VmxonPerCpu::is_on_ *)
  page_ : VmxPage;   (* VmcsPerCpu::page_ *)
  msr_bitmaps_page_ : VmxPage;
  host_msr_page_ : VmxPage;
  guest_msr_page_ : VmxPage;
  msr_bitmaps : Z -> Z;   (* bytes of the MSR bitmaps page *)
  host_msr_list : Z -> MsrListEntry;   (* entries of the host MSR page *)
  guest_msr_list : Z -> MsrListEntry;   (* entries of the guest MSR page *)
  vmx_state_ : VmxState;
  do_resume_ : bool;
  serial_fifo : FifoDispatcher;
  trace : list Event
}.

Definition set_msrs (v : Msr -> Z) (s : State) : State :=
  mkState v (s.(cr0)) (s.(cr3)) (s.(cr4)) (s.(ints_disabled)) (s.(vmcs))
    (s.(world)) (s.(vmxon_page_)) (s.(is_on_)) (s.(page_))
    (s.(msr_bitmaps_page_)) (s.(host_msr_page_)) (s.(guest_msr_page_))
    (s.(msr_bitmaps)) (s.(host_msr_list)) (s.(guest_msr_list))
    (s.(vmx_state_)) (s.(do_resume_)) (s.(serial_fifo)) (s.(trace)).

Definition set_cr4 (v : Z) (s : State) : State :=
  mkState (s.(msrs)) (s.(cr0)) (s.(cr3)) v (s.(ints_disabled)) (s.(vmcs))
    (s.(world)) (s.(vmxon_page_)) (s.(is_on_)) (s.(page_))
    (s.(msr_bitmaps_page_)) (s.(host_msr_page_)) (s.(guest_msr_page_))
    (s.(msr_bitmaps)) (s.(host_msr_list)) (s.(guest_msr_list))
    (s.(vmx_state_)) (s.(do_resume_)) (s.(serial_fifo)) (s.(trace)).

Definition set_ints_disabled (v : bool) (s : State) : State :=
  mkState (s.(msrs)) (s.(cr0)) (s.(cr3)) (s.(cr4)) v (s.(vmcs)) (s.(world))
    (s.(vmxon_page_)) (s.(is_on_)) (s.(page_)) (s.(msr_bitmaps_page_))
    (s.(host_msr_page_)) (s.(guest_msr_page_)) (s.(msr_bitmaps))
    (s.(host_msr_list)) (s.(guest_msr_list)) (s.(vmx_state_)) (s.(do_resume_))
    (s.(serial_fifo)) (s.(trace)).

Definition set_vmcs (v : Field -> Z) (s : State) : State :=
  mkState (s.(msrs)) (s.(cr0)) (s.(cr3)) (s.(cr4)) (s.(ints_disabled)) v
    (s.(world)) (s.(vmxon_page_)) (s.(is_on_)) (s.(page_))
    (s.(msr_bitmaps_page_)) (s.(host_msr_page_)) (s.(guest_msr_page_))
    (s.(msr_bitmaps)) (s.(host_msr_list)) (s.(guest_msr_list))
    (s.(vmx_state_)) (s.(do_resume_)) (s.(serial_fifo)) (s.(trace)).

Definition set_world (v : World) (s : State) : State :=
  mkState (s.(msrs)) (s.(cr0)) (s.(cr3)) (s.(cr4)) (s.(ints_disabled))
    (s.(vmcs)) v (s.(vmxon_page_)) (s.(is_on_)) (s.(page_))
    (s.(msr_bitmaps_page_)) (s.(host_msr_page_)) (s.(guest_msr_page_))
    (s.(msr_bitmaps)) (s.(host_msr_list)) (s.(guest_msr_list))
    (s.(vmx_state_)) (s.(do_resume_)) (s.(serial_fifo)) (s.(trace)).

Definition set_is_on_ (v : bool) (s : State) : State :=
  mkState (s.(msrs)) (s.(cr0)) (s.(cr3)) (s.(cr4)) (s.(ints_disabled))
    (s.(vmcs)) (s.(world)) (s.(vmxon_page_)) v (s.(page_))
    (s.(msr_bitmaps_page_)) (s.(host_msr_page_)) (s.(guest_msr_page_))
    (s.(msr_bitmaps)) (s.(host_msr_list)) (s.(guest_msr_list))
    (s.(vmx_state_)) (s.(do_resume_)) (s.(serial_fifo)) (s.(trace)).

Definition set_msr_bitmaps (v : Z -> Z) (s : State) : State :=
  mkState (s.(msrs)) (s.(cr0)) (s.(cr3)) (s.(cr4)) (s.(ints_disabled))
    (s.(vmcs)) (s.(world)) (s.(vmxon_page_)) (s.(is_on_)) (s.(page_))
    (s.(msr_bitmaps_page_)) (s.(host_msr_page_)) (s.(guest_msr_page_)) v
    (s.(host_msr_list)) (s.(guest_msr_list)) (s.(vmx_state_)) (s.(do_resume_))
    (s.(serial_fifo)) (s.(trace)).

Definition set_host_msr_list (v : Z -> MsrListEntry) (s : State) : State :=
  mkState (s.(msrs)) (s.(cr0)) (s.(cr3)) (s.(cr4)) (s.(ints_disabled))
    (s.(vmcs)) (s.(world)) (s.(vmxon_page_)) (s.(is_on_)) (s.(page_))
    (s.(msr_bitmaps_page_)) (s.(host_msr_page_)) (s.(guest_msr_page_))
    (s.(msr_bitmaps)) v (s.(guest_msr_list)) (s.(vmx_state_)) (s.(do_resume_))
    (s.(serial_fifo)) (s.(trace)).

Definition set_guest_msr_list (v : Z -> MsrListEntry) (s : State) : State :=
  mkState (s.(msrs)) (s.(cr0)) (s.(cr3)) (s.(cr4)) (s.(ints_disabled))
    (s.(vmcs)) (s.(world)) (s.(vmxon_page_)) (s.(is_on_)) (s.(page_))
    (s.(msr_bitmaps_page_)) (s.(host_msr_page_)) (s.(guest_msr_page_))
    (s.(msr_bitmaps)) (s.(host_msr_list)) v (s.(vmx_state_)) (s.(do_resume_))
    (s.(serial_fifo)) (s.(trace)).

Definition set_vmx_state_ (v : VmxState) (s : State) : State :=
  mkState (s.(msrs)) (s.(cr0)) (s.(cr3)) (s.(cr4)) (s.(ints_disabled))
    (s.(vmcs)) (s.(world)) (s.(vmxon_page_)) (s.(is_on_)) (s.(page_))
    (s.(msr_bitmaps_page_)) (s.(host_msr_page_)) (s.(guest_msr_page_))
    (s.(msr_bitmaps)) (s.(host_msr_list)) (s.(guest_msr_list)) v
    (s.(do_resume_)) (s.(serial_fifo)) (s.(trace)).

Definition set_do_resume_ (v : bool) (s : State) : State :=
  mkState (s.(msrs)) (s.(cr0)) (s.(cr3)) (s.(cr4)) (s.(ints_disabled))
    (s.(vmcs)) (s.(world)) (s.(vmxon_page_)) (s.(is_on_)) (s.(page_))
    (s.(msr_bitmaps_page_)) (s.(host_msr_page_)) (s.(guest_msr_page_))
    (s.(msr_bitmaps)) (s.(host_msr_list)) (s.(guest_msr_list))
    (s.(vmx_state_)) v (s.(serial_fifo)) (s.(trace)).

Definition set_serial_fifo (v : FifoDispatcher) (s : State) : State :=
  mkState (s.(msrs)) (s.(cr0)) (s.(cr3)) (s.(cr4)) (s.(ints_disabled))
    (s.(vmcs)) (s.(world)) (s.(vmxon_page_)) (s.(is_on_)) (s.(page_))
    (s.(msr_bitmaps_page_)) (s.(host_msr_page_)) (s.(guest_msr_page_))
    (s.(msr_bitmaps)) (s.(host_msr_list)) (s.(guest_msr_list))
    (s.(vmx_state_)) (s.(do_resume_)) v (s.(trace)).

Definition set_trace (v : list Event) (s : State) : State :=
  mkState (s.(msrs)) (s.(cr0)) (s.(cr3)) (s.(cr4)) (s.(ints_disabled))
    (s.(vmcs)) (s.(world)) (s.(vmxon_page_)) (s.(is_on_)) (s.(page_))
    (s.(msr_bitmaps_page_)) (s.(host_msr_page_)) (s.(guest_msr_page_))
    (s.(msr_bitmaps)) (s.(host_msr_list)) (s.(guest_msr_list))
    (s.(vmx_state_)) (s.(do_resume_)) (s.(serial_fifo)) v.
Definition add_event (e : Event) (s : State) : State :=
  set_trace (e :: s.(trace)) s.

Definition M (A : Type) : Type := StateErr State A.

(** *** Registers and interrupts (external primitives) *)

Definition read_msr (m : Msr) : M Z := gets (fun s => s.(msrs) m).

Definition write_msr (m : Msr) (val : Z) : M unit :=
  modify (fun s =>
    add_event (EvWriteMsr m val)
      (set_msrs (fun m' => if Msr_eq_dec m' m then val else s.(msrs) m') s)).

Definition x86_get_cr0 : M Z := gets cr0.
Definition x86_get_cr3 : M Z := gets cr3.
Definition x86_get_cr4 : M Z := gets cr4.

Definition x86_set_cr4 (val : Z) : M unit :=
  modify (fun s => add_event (EvSetCr4 val) (set_cr4 val s)).

Definition arch_ints_disabled : M bool := gets ints_disabled.

Definition arch_disable_ints : M unit :=
  modify (fun s => add_event EvDisableInts (set_ints_disabled true s)).

Definition arch_enable_ints : M unit :=
  modify (fun s => add_event EvEnableInts (set_ints_disabled false s)).

(** *** The VMX instructions *)

Definition err_status (err : bool) : status_t :=
  if err then ERR_INTERNAL else NO_ERROR.

Definition vmxon (pa : Z) : M status_t :=
  fun s =>
    let (err, w) := insn_vmxon s.(world) pa in
    Some (err_status err, add_event (EvVmxon pa) (set_world w s)).

Definition vmxoff : M status_t :=
  fun s =>
    let (err, w) := insn_vmxoff s.(world) in
    Some (err_status err, add_event EvVmxoff (set_world w s)).

Definition vmptrld (pa : Z) : M status_t :=
  fun s =>
    let (err, w) := insn_vmptrld s.(world) pa in
    Some (err_status err,
          add_event (EvVmptrld pa s.(ints_disabled)) (set_world w s)).

Definition vmclear (pa : Z) : M status_t :=
  fun s =>
    let (err, w) := insn_vmclear s.(world) pa in
    Some (err_status err, add_event (EvVmclear pa) (set_world w s)).

(** [vmread] and [vmwrite]: their [DEBUG_ASSERT(err == NO_ERROR)] is taken
    to hold, every field named by the source exists in the current VMCS. *)
Definition vmread (field : Field) : M Z := gets (fun s => s.(vmcs) field).

Definition vmwrite (field : Field) (val : Z) : M unit :=
  modify (fun s =>
    add_event (EvVmwrite field val)
      (set_vmcs (fun f => if Field_eq_dec f field then val else s.(vmcs) f) s)).

(** The four overloads of [vmcs_read] and of [vmcs_write]. *)
Definition vmcs_read16 (field : VmcsField16.t) : M Z :=
  v <- vmread (F16 field);; ret (wrap16 v).
Definition vmcs_read32 (field : VmcsField32.t) : M Z :=
  v <- vmread (F32 field);; ret (wrap32 v).
Definition vmcs_read64 (field : VmcsField64.t) : M Z :=
  vmread (F64 field).
Definition vmcs_readXX (field : VmcsFieldXX.t) : M Z :=
  vmread (FXX field).

Definition vmcs_write16 (field : VmcsField16.t) (val : Z) : M unit :=
  vmwrite (F16 field) (wrap16 val).
Definition vmcs_write32 (field : VmcsField32.t) (val : Z) : M unit :=
  vmwrite (F32 field) (wrap32 val).
Definition vmcs_write64 (field : VmcsField64.t) (val : Z) : M unit :=
  vmwrite (F64 field) (wrap64 val).
Definition vmcs_writeXX (field : VmcsFieldXX.t) (val : Z) : M unit :=
  vmwrite (FXX field) (wrap64 val).

(** *** Capability probe *)

Definition VmxInfo_ctor : M VmxInfo.t :=
  basic_info <- read_msr X86_MSR_IA32_VMX_BASIC;;
  ret (VmxInfo.decode basic_info).

Definition MiscInfo_ctor : M MiscInfo.t :=
  misc_info <- read_msr X86_MSR_IA32_VMX_MISC;;
  ret (MiscInfo.decode misc_info).

Definition EptInfo_ctor : M EptInfo.t :=
  ept_info <- read_msr X86_MSR_IA32_VMX_EPT_VPID_CAP;;
  ret (EptInfo.decode ept_info).

Definition ExitInfo_ctor : M ExitInfo :=
  reason <- vmcs_read32 VmcsField32.EXIT_REASON;;
  qualification <- vmcs_readXX VmcsFieldXX.EXIT_QUALIFICATION;;
  int_info <- vmcs_read32 VmcsField32.INTERRUPTION_INFORMATION;;
  int_error <- vmcs_read32 VmcsField32.INTERRUPTION_ERROR_CODE;;
  insn_length <- vmcs_read32 VmcsField32.INSTRUCTION_LENGTH;;
  insn_info <- vmcs_read32 VmcsField32.INSTRUCTION_INFORMATION;;
  gpa <- vmcs_read64 VmcsField64.GUEST_PHYSICAL_ADDRESS;;
  gla <- vmcs_readXX VmcsFieldXX.GUEST_LINEAR_ADDRESS;;
  int_state <- vmcs_read32 VmcsField32.GUEST_INTERRUPTIBILITY_STATE;;
  rip <- vmcs_readXX VmcsFieldXX.GUEST_RIP;;
  ret (mkExitInfo (ExitReason_of reason) qualification int_info int_error
         insn_length insn_info gpa gla int_state rip).

(** *** VmxPage *)

Definition PhysicalAddress (p : VmxPage) : M Z :=
  DEBUG_ASSERT (negb (pa_ p =? 0));;
  ret (pa_ p).

(** [VirtualAddress] is used for its assertion; the contents of the pages
    are held in the state. *)
Definition VirtualAddress (p : VmxPage) : M unit :=
  DEBUG_ASSERT (negb (pa_ p =? 0)).

(** *** Host enablement *)

Definition cr_is_invalid (cr_value : Z) (fixed0_msr fixed1_msr : Msr) : M bool :=
  fixed0 <- read_msr fixed0_msr;;
  fixed1 <- read_msr fixed1_msr;;
  ret (nonzero (not64 (Z.lor cr_value (not64 fixed0))) ||
       nonzero (not64 (Z.lor (not64 cr_value) fixed1))).

Definition VmxOn : M status_t :=
  page <- gets vmxon_page_;;
  pa <- PhysicalAddress page;;
  status <- vmxon pa;;
  modify (set_is_on_ (status_eqb status NO_ERROR));;
  ret status.

Definition VmxOff : M status_t :=
  is_on <- gets is_on_;;
  if is_on then vmxoff else ret NO_ERROR.

Definition vmx_disable : M status_t :=
  status <- VmxOff;;
  if negb (status_eqb status NO_ERROR) then ret status else
  cr4 <- x86_get_cr4;;
  x86_set_cr4 (Z.land cr4 (not64 X86_CR4_VMXE));;
  ret NO_ERROR.

(** [vmx_enable], lines 329 to 343: the control registers, CR4.VMXE and
    VMXON. *)
Definition vmx_enable_control_registers : M status_t :=
  cr0 <- x86_get_cr0;;
  invalid0 <- cr_is_invalid cr0 X86_MSR_IA32_VMX_CR0_FIXED0 X86_MSR_IA32_VMX_CR0_FIXED1;;
  if invalid0 then ret ERR_BAD_STATE else
  cr4 <- x86_get_cr4;;
  let cr4 := Z.lor cr4 X86_CR4_VMXE in
  invalid4 <- cr_is_invalid cr4 X86_MSR_IA32_VMX_CR4_FIXED0 X86_MSR_IA32_VMX_CR4_FIXED1;;
  if invalid4 then ret ERR_BAD_STATE else
  x86_set_cr4 cr4;;
  VmxOn.

(** [vmx_enable], lines 315 to 326: the feature-control MSR, then the rest
    of the bring-up. *)
Definition vmx_enable_feature_control : M status_t :=
  feature_control <- read_msr X86_MSR_IA32_FEATURE_CONTROL;;
  let lock := nonzero (Z.land feature_control X86_MSR_IA32_FEATURE_CONTROL_LOCK) in
  let vmxon_bit := nonzero (Z.land feature_control X86_MSR_IA32_FEATURE_CONTROL_VMXON) in
  if negb lock || negb vmxon_bit then
    if lock && negb vmxon_bit then ret ERR_NOT_SUPPORTED else
    let feature_control := Z.lor feature_control X86_MSR_IA32_FEATURE_CONTROL_LOCK in
    let feature_control := Z.lor feature_control X86_MSR_IA32_FEATURE_CONTROL_VMXON in
    write_msr X86_MSR_IA32_FEATURE_CONTROL feature_control;;
    vmx_enable_control_registers
  else
    vmx_enable_control_registers.

Definition vmx_enable : M status_t :=
  vmx_info <- VmxInfo_ctor;;
  if negb (VmxInfo.io_exit_info vmx_info) then ret ERR_NOT_SUPPORTED else
  if negb (VmxInfo.vmx_controls vmx_info) then ret ERR_NOT_SUPPORTED else
  ept_info <- EptInfo_ctor;;
  if negb (EptInfo.page_walk_4 ept_info) then ret ERR_NOT_SUPPORTED else
  if negb (EptInfo.write_back ept_info) then ret ERR_NOT_SUPPORTED else
  if negb (EptInfo.ept_flags ept_info) then ret ERR_NOT_SUPPORTED else
  if negb (EptInfo.invept ept_info) then ret ERR_NOT_SUPPORTED else
  misc_info <- MiscInfo_ctor;;
  if negb (MiscInfo.wait_for_sipi misc_info) then ret ERR_NOT_SUPPORTED else
  vmx_enable_feature_control.

(** The seven capability checks of [vmx_enable], lines 284 to 313, on the
    MSRs of a state: all of them pass. *)
Definition vmx_capabilities (s : State) : bool :=
  let vmx_info := VmxInfo.decode (s.(msrs) X86_MSR_IA32_VMX_BASIC) in
  let ept_info := EptInfo.decode (s.(msrs) X86_MSR_IA32_VMX_EPT_VPID_CAP) in
  let misc_info := MiscInfo.decode (s.(msrs) X86_MSR_IA32_VMX_MISC) in
  VmxInfo.io_exit_info vmx_info && VmxInfo.vmx_controls vmx_info &&
  EptInfo.page_walk_4 ept_info && EptInfo.write_back ept_info &&
  EptInfo.ept_flags ept_info && EptInfo.invept ept_info &&
  MiscInfo.wait_for_sipi misc_info.

(** *** The scoped VMCS load *)

(** [AutoVmcsLoad::AutoVmcsLoad(VmxPage* page)]. *)
Definition AutoVmcsLoad_ctor (page : VmxPage) : M unit :=
  disabled <- arch_ints_disabled;;
  DEBUG_ASSERT (negb disabled);;
  arch_disable_ints;;
  pa <- PhysicalAddress page;;
  status <- vmptrld pa;;
  DEBUG_ASSERT (status_eqb status NO_ERROR).

(** [AutoVmcsLoad::~AutoVmcsLoad()]. *)
Definition AutoVmcsLoad_dtor : M unit :=
  disabled <- arch_ints_disabled;;
  DEBUG_ASSERT disabled;;
  arch_enable_ints.

(** A block with a local [AutoVmcsLoad vmcs_load(page)]: the constructor,
    the rest of the block, and the destructor on every return from it. *)
Definition AutoVmcsLoad {A : Type} (page : VmxPage) (body : M A) : M A :=
  AutoVmcsLoad_ctor page;;
  r <- body;;
  AutoVmcsLoad_dtor;;
  ret r.

(** *** VMCS builder *)

(** [status = m; if (status != NO_ERROR) return status;] *)
Notation "'check' m ;; k" :=
  (bind m (fun status => if status_eqb status NO_ERROR then k else ret status))
  (at level 61, m at next level, right associativity).

Definition Clear : M status_t :=
  page <- gets page_;;
  if IsAllocated page then
    pa <- PhysicalAddress page;;
    vmclear pa
  else ret NO_ERROR.

Definition set_vmcs_control (controls : VmcsField32.t)
    (true_msr old_msr set clear : Z) : M status_t :=
  (* the parameters [uint32_t set, uint32_t clear] *)
  let set := wrap32 set in
  let clear := wrap32 clear in
  let allowed_0 := wrap32 (BITS true_msr 31 0) in
  let allowed_1 := wrap32 (BITS_SHIFT true_msr 63 32) in
  if negb (Z.land allowed_1 set =? set) then ret ERR_NOT_SUPPORTED else
  if negb (Z.land (not32 allowed_0) clear =? clear) then ret ERR_NOT_SUPPORTED else
  if negb (Z.land set clear =? 0) then ret ERR_INVALID_ARGS else
  let flexible := Z.lxor allowed_0 allowed_1 in
  let unknown := Z.land flexible (not32 (Z.lor set clear)) in
  let defaults := wrap32 (Z.land unknown (BITS old_msr 31 0)) in
  vmcs_write32 controls (Z.lor (Z.lor allowed_0 defaults) set);;
  ret NO_ERROR.

Definition ept_pointer (pml4_address : Z) : M Z :=
  DEBUG_ASSERT (IS_PAGE_ALIGNED pml4_address);;
  ret (Z.lor (Z.lor (Z.lor pml4_address
                       (Z.shiftl VMX_MEMORY_TYPE_WRITE_BACK 0))
                 (Z.shiftl 3 3))
          (Z.shiftl 1 6)).

Definition ignore_msr (msr_bitmaps_page : VmxPage) (msr : Z) : M unit :=
  VirtualAddress msr_bitmaps_page;;
  (* [base]: how far the pointer [msr_bitmaps] is into the page *)
  let base := if 0xc0000000 <=? msr then Z.shiftl 1 10 else 0 in
  let msr_low := wrap16 (Z.land msr 0x1fff) in
  let msr_byte := wrap16 (msr_low / 8) in
  let msr_bit := wrap8 (msr_low mod 8) in
  let and_not_bit (at_ : Z) (s : State) : State :=
    set_msr_bitmaps
      (fun i => if i =? at_
                then Z.land (s.(msr_bitmaps) i) (wrap8 (Z.lnot (Z.shiftl 1 msr_bit)))
                else s.(msr_bitmaps) i) s in
  modify (and_not_bit (base + msr_byte));;
  let base := base + Z.shiftl 2 10 in
  modify (and_not_bit (base + msr_byte)).

(** The two MSR list pages [edit_msr_list] is called on. *)
Inductive MsrListPage : Type :=
| HostMsrPage
| GuestMsrPage.

Definition edit_entry (index msr value : Z) (l : Z -> MsrListEntry) : Z -> MsrListEntry :=
  fun i => if i =? index
           then mkMsrListEntry msr (l i).(reserved) value
           else l i.

Definition edit_msr_list (msr_list_page : MsrListPage) (index msr value : Z) : M unit :=
  (* sizeof(MsrListEntry) is 16: the struct is packed *)
  DEBUG_ASSERT (index <? 512 / 16);;
  match msr_list_page with
  | HostMsrPage =>
      page <- gets host_msr_page_;;
      VirtualAddress page;;
      modify (fun s => set_host_msr_list (edit_entry index msr value s.(host_msr_list)) s)
  | GuestMsrPage =>
      page <- gets guest_msr_page_;;
      VirtualAddress page;;
      modify (fun s => set_guest_msr_list (edit_entry index msr value s.(guest_msr_list)) s)
  end.

(** [VmcsPerCpu::Setup], the five calls of the control helper. *)
Definition Setup_controls : M status_t :=
  true_msr <- read_msr X86_MSR_IA32_VMX_PROCBASED_CTLS2;;
  check set_vmcs_control VmcsField32.PROCBASED_CTLS2 true_msr 0
    (Z.lor (Z.lor (Z.lor PROCBASED_CTLS2_EPT PROCBASED_CTLS2_RDTSCP)
              PROCBASED_CTLS2_VPID) PROCBASED_CTLS2_XSAVES_XRSTORS)
    0;;
  true_msr <- read_msr X86_MSR_IA32_VMX_TRUE_PINBASED_CTLS;;
  old_msr <- read_msr X86_MSR_IA32_VMX_PINBASED_CTLS;;
  check set_vmcs_control VmcsField32.PINBASED_CTLS true_msr old_msr
    (Z.lor PINBASED_CTLS_EXTINT_EXITING PINBASED_CTLS_NMI_EXITING)
    0;;
  true_msr <- read_msr X86_MSR_IA32_VMX_TRUE_PROCBASED_CTLS;;
  old_msr <- read_msr X86_MSR_IA32_VMX_PROCBASED_CTLS;;
  check set_vmcs_control VmcsField32.PROCBASED_CTLS true_msr old_msr
    (Z.lor (Z.lor PROCBASED_CTLS_IO_EXITING PROCBASED_CTLS_MSR_BITMAPS)
       PROCBASED_CTLS_PROCBASED_CTLS2)
    (Z.lor PROCBASED_CTLS_CR3_LOAD_EXITING PROCBASED_CTLS_CR3_STORE_EXITING);;
  true_msr <- read_msr X86_MSR_IA32_VMX_TRUE_EXIT_CTLS;;
  old_msr <- read_msr X86_MSR_IA32_VMX_EXIT_CTLS;;
  check set_vmcs_control VmcsField32.EXIT_CTLS true_msr old_msr
    (Z.lor (Z.lor (Z.lor (Z.lor EXIT_CTLS_64BIT_MODE EXIT_CTLS_SAVE_IA32_PAT)
                     EXIT_CTLS_LOAD_IA32_PAT) EXIT_CTLS_SAVE_IA32_EFER)
       EXIT_CTLS_LOAD_IA32_EFER)
    0;;
  true_msr <- read_msr X86_MSR_IA32_VMX_TRUE_ENTRY_CTLS;;
  old_msr <- read_msr X86_MSR_IA32_VMX_ENTRY_CTLS;;
  set_vmcs_control VmcsField32.ENTRY_CTLS true_msr old_msr
    (Z.lor (Z.lor ENTRY_CTLS_IA32E_MODE ENTRY_CTLS_LOAD_IA32_PAT)
       ENTRY_CTLS_LOAD_IA32_EFER)
    0.

(** [VmcsPerCpu::Setup], lines 639 to 685: exception bitmap, VPID, EPT
    pointer and MSR handling. *)
Definition Setup_execution (pml4_address : Z) : M unit :=
  vmcs_write32 VmcsField32.EXCEPTION_BITMAP EXCEPTION_BITMAP_ALL_EXCEPTIONS;;
  vmcs_write32 VmcsField32.PAGEFAULT_ERRORCODE_MASK 0;;
  vmcs_write32 VmcsField32.PAGEFAULT_ERRORCODE_MATCH 0;;
  vmcs_write16 VmcsField16.VPID (wrap16 (cpu_num + 1));;
  eptp <- ept_pointer pml4_address;;
  vmcs_write64 VmcsField64.EPT_POINTER eptp;;
  bitmaps <- gets msr_bitmaps_page_;;
  ignore_msr bitmaps (msr_number X86_MSR_IA32_GS_BASE);;
  ignore_msr bitmaps (msr_number X86_MSR_IA32_KERNEL_GS_BASE);;
  pa <- PhysicalAddress bitmaps;;
  vmcs_write64 VmcsField64.MSR_BITMAPS_ADDRESS pa;;
  v <- read_msr X86_MSR_IA32_STAR;;
  edit_msr_list HostMsrPage 0 (msr_number X86_MSR_IA32_STAR) v;;
  v <- read_msr X86_MSR_IA32_LSTAR;;
  edit_msr_list HostMsrPage 1 (msr_number X86_MSR_IA32_LSTAR) v;;
  v <- read_msr X86_MSR_IA32_FMASK;;
  edit_msr_list HostMsrPage 2 (msr_number X86_MSR_IA32_FMASK) v;;
  host_page <- gets host_msr_page_;;
  pa <- PhysicalAddress host_page;;
  vmcs_write64 VmcsField64.EXIT_MSR_LOAD_ADDRESS pa;;
  vmcs_write32 VmcsField32.EXIT_MSR_LOAD_COUNT 4;;
  edit_msr_list GuestMsrPage 0 (msr_number X86_MSR_IA32_KERNEL_GS_BASE) 0;;
  guest_page <- gets guest_msr_page_;;
  pa <- PhysicalAddress guest_page;;
  vmcs_write64 VmcsField64.EXIT_MSR_STORE_ADDRESS pa;;
  vmcs_write32 VmcsField32.EXIT_MSR_STORE_COUNT 1;;
  pa <- PhysicalAddress guest_page;;
  vmcs_write64 VmcsField64.ENTRY_MSR_LOAD_ADDRESS pa;;
  vmcs_write32 VmcsField32.ENTRY_MSR_LOAD_COUNT 1.

(** [VmcsPerCpu::Setup], lines 691 to 711: the host state. *)
Definition Setup_host_state : M unit :=
  v <- read_msr X86_MSR_IA32_PAT;;
  vmcs_write64 VmcsField64.HOST_IA32_PAT v;;
  v <- read_msr X86_MSR_IA32_EFER;;
  vmcs_write64 VmcsField64.HOST_IA32_EFER v;;
  v <- x86_get_cr0;;
  vmcs_writeXX VmcsFieldXX.HOST_CR0 v;;
  v <- x86_get_cr4;;
  vmcs_writeXX VmcsFieldXX.HOST_CR4 v;;
  vmcs_write16 VmcsField16.HOST_ES_SELECTOR 0;;
  vmcs_write16 VmcsField16.HOST_CS_SELECTOR CODE_64_SELECTOR;;
  vmcs_write16 VmcsField16.HOST_SS_SELECTOR DATA_SELECTOR;;
  vmcs_write16 VmcsField16.HOST_DS_SELECTOR 0;;
  vmcs_write16 VmcsField16.HOST_FS_SELECTOR 0;;
  vmcs_write16 VmcsField16.HOST_GS_SELECTOR 0;;
  vmcs_write16 VmcsField16.HOST_TR_SELECTOR (TSS_SELECTOR cpu_num);;
  v <- read_msr X86_MSR_IA32_FS_BASE;;
  vmcs_writeXX VmcsFieldXX.HOST_FS_BASE v;;
  v <- read_msr X86_MSR_IA32_GS_BASE;;
  vmcs_writeXX VmcsFieldXX.HOST_GS_BASE v;;
  vmcs_writeXX VmcsFieldXX.HOST_TR_BASE default_tss_address;;
  vmcs_writeXX VmcsFieldXX.HOST_GDTR_BASE gdt_address;;
  vmcs_writeXX VmcsFieldXX.HOST_IDTR_BASE idt_readonly_address;;
  vmcs_writeXX VmcsFieldXX.HOST_IA32_SYSENTER_ESP 0;;
  vmcs_writeXX VmcsFieldXX.HOST_IA32_SYSENTER_EIP 0;;
  vmcs_write32 VmcsField32.HOST_IA32_SYSENTER_CS 0;;
  vmcs_writeXX VmcsFieldXX.HOST_RSP vmx_state_address;;
  vmcs_writeXX VmcsFieldXX.HOST_RIP vmx_exit_entry_address.

(** [VmcsPerCpu::Setup], lines 730 to 781: the guest state after CR0 and
    CR4. *)
Definition Setup_guest_rest : M status_t :=
  v <- read_msr X86_MSR_IA32_PAT;;
  vmcs_write64 VmcsField64.GUEST_IA32_PAT v;;
  v <- read_msr X86_MSR_IA32_EFER;;
  vmcs_write64 VmcsField64.GUEST_IA32_EFER v;;
  vmcs_write32 VmcsField32.GUEST_CS_ACCESS_RIGHTS
    (Z.lor (Z.lor (Z.lor (Z.lor (Z.lor (Z.lor
       GUEST_XX_ACCESS_RIGHTS_TYPE_A
       GUEST_XX_ACCESS_RIGHTS_TYPE_W)
       GUEST_XX_ACCESS_RIGHTS_TYPE_E)
       GUEST_XX_ACCESS_RIGHTS_TYPE_CODE)
       GUEST_XX_ACCESS_RIGHTS_S)
       GUEST_XX_ACCESS_RIGHTS_P)
       GUEST_XX_ACCESS_RIGHTS_L);;
  vmcs_write32 VmcsField32.GUEST_TR_ACCESS_RIGHTS
    (Z.lor GUEST_TR_ACCESS_RIGHTS_TSS_BUSY GUEST_XX_ACCESS_RIGHTS_P);;
  vmcs_write32 VmcsField32.GUEST_SS_ACCESS_RIGHTS GUEST_XX_ACCESS_RIGHTS_UNUSABLE;;
  vmcs_write32 VmcsField32.GUEST_DS_ACCESS_RIGHTS GUEST_XX_ACCESS_RIGHTS_UNUSABLE;;
  vmcs_write32 VmcsField32.GUEST_ES_ACCESS_RIGHTS GUEST_XX_ACCESS_RIGHTS_UNUSABLE;;
  vmcs_write32 VmcsField32.GUEST_FS_ACCESS_RIGHTS GUEST_XX_ACCESS_RIGHTS_UNUSABLE;;
  vmcs_write32 VmcsField32.GUEST_GS_ACCESS_RIGHTS GUEST_XX_ACCESS_RIGHTS_UNUSABLE;;
  vmcs_write32 VmcsField32.GUEST_LDTR_ACCESS_RIGHTS GUEST_XX_ACCESS_RIGHTS_UNUSABLE;;
  vmcs_writeXX VmcsFieldXX.GUEST_GDTR_BASE 0;;
  vmcs_write32 VmcsField32.GUEST_GDTR_LIMIT 0;;
  vmcs_writeXX VmcsFieldXX.GUEST_IDTR_BASE 0;;
  vmcs_write32 VmcsField32.GUEST_IDTR_LIMIT 0;;
  vmcs_writeXX VmcsFieldXX.GUEST_RFLAGS X86_FLAGS_RESERVED_ONES;;
  vmcs_write32 VmcsField32.GUEST_ACTIVITY_STATE 0;;
  vmcs_write32 VmcsField32.GUEST_INTERRUPTIBILITY_STATE 0;;
  vmcs_writeXX VmcsFieldXX.GUEST_PENDING_DEBUG_EXCEPTIONS 0;;
  vmcs_writeXX VmcsFieldXX.GUEST_IA32_SYSENTER_ESP 0;;
  vmcs_writeXX VmcsFieldXX.GUEST_IA32_SYSENTER_EIP 0;;
  vmcs_write32 VmcsField32.GUEST_IA32_SYSENTER_CS 0;;
  vmcs_writeXX VmcsFieldXX.GUEST_RSP 0;;
  vmcs_write64 VmcsField64.LINK_POINTER LINK_POINTER_INVALIDATE;;
  ret NO_ERROR.

(** [VmcsPerCpu::Setup], lines 715 to 728: guest CR0 and CR4, then the
    rest of the guest state. *)
Definition Setup_guest_state : M status_t :=
  let cr0 := Z.lor (Z.lor X86_CR0_PE X86_CR0_PG) X86_CR0_NE in
  invalid0 <- cr_is_invalid cr0 X86_MSR_IA32_VMX_CR0_FIXED0 X86_MSR_IA32_VMX_CR0_FIXED1;;
  if invalid0 then ret ERR_BAD_STATE else
  vmcs_writeXX VmcsFieldXX.GUEST_CR0 cr0;;
  let cr4 := Z.lor X86_CR4_PAE X86_CR4_VMXE in
  invalid4 <- cr_is_invalid cr4 X86_MSR_IA32_VMX_CR4_FIXED0 X86_MSR_IA32_VMX_CR4_FIXED1;;
  if invalid4 then ret ERR_BAD_STATE else
  vmcs_writeXX VmcsFieldXX.GUEST_CR4 cr4;;
  Setup_guest_rest.

(** The block of [VmcsPerCpu::Setup] under the scoped VMCS load. *)
Definition Setup_body (pml4_address : Z) : M status_t :=
  check Setup_controls;;
  Setup_execution pml4_address;;
  Setup_host_state;;
  Setup_guest_state.

Definition Setup (pml4_address : Z) : M status_t :=
  check Clear;;
  page <- gets page_;;
  AutoVmcsLoad page (Setup_body pml4_address).

(** *** Exit dispatcher *)

(** Modelled from the spec: X86_CPUID_BASE of <arch/x86/feature.h>, which is
    not part of the sources at hand; the spec has it as CPUID leaf 0. *)
Definition X86_CPUID_BASE : Z := 0.

Definition kUartIoPort : Z := 0x3f8.

Definition modify_guest_state (f : GuestState -> GuestState) : M unit :=
  modify (fun s => set_vmx_state_ (mkVmxState (f s.(vmx_state_).(guest_state))) s).

Definition next_rip (exit_info : ExitInfo) : M unit :=
  vmcs_writeXX VmcsFieldXX.GUEST_RIP
    (wrap64 (exit_info.(guest_rip) + exit_info.(instruction_length))).

(** A store through [(uint32_t* )&slot], [slot] a [uint64_t] of a
    little-endian machine: the low half is replaced, the high half stays. *)
Definition store_u32 (slot val : Z) : Z :=
  Z.lor (Z.land slot (Z.shiftl mask32 32)) (wrap32 val).

(** [cpuid(sel, a, b, c, d)] of <arch/x86.h>: executes CPUID; the four
    stores are done by the caller below. *)
Definition cpuid (sel : Z) : M (Z * Z * Z * Z) :=
  fun s => Some (insn_cpuid sel, add_event (EvCpuid sel) s).

Definition handle_cpuid (exit_info : ExitInfo) : M status_t :=
  g <- gets (fun s => s.(vmx_state_).(guest_state));;
  if g.(rax) =? X86_CPUID_BASE then
    next_rip exit_info;;
    r <- cpuid X86_CPUID_BASE;;
    let '(a, b, c, d) := r in
    modify_guest_state (fun g =>
      mkGuestState (store_u32 g.(rax) a) (store_u32 g.(rbx) b)
                   (store_u32 g.(rcx) c) (store_u32 g.(rdx) d));;
    modify_guest_state (fun g => mkGuestState 0 g.(rbx) g.(rcx) g.(rdx));;
    ret NO_ERROR
  else
    ret ERR_NOT_SUPPORTED.

(** The first [len] bytes at [reinterpret_cast<uint8_t*>(&slot)], [slot] a
    [uint64_t] of a little-endian machine. *)
Definition bytes_of (slot : Z) (len : Z) : list Z :=
  map (fun i => Z.land (Z.shiftr slot (8 * Z.of_nat i)) 0xFF)
      (seq 0 (Z.to_nat len)).

(** [serial_fifo->Write(data, len, &actual)]. *)
Definition serial_fifo_Write (data : list Z) : M status_t :=
  fun s =>
    let '(status, actual, fifo) := FifoDispatcher_Write s.(serial_fifo) data in
    Some (status, add_event (EvFifoWrite data) (set_serial_fifo fifo s)).

Definition vmexit_handler : M status_t :=
  exit_info <- ExitInfo_ctor;;
  match exit_info.(exit_reason) with
  | ExitReason.EXTERNAL_INTERRUPT =>
      disabled <- arch_ints_disabled;;
      DEBUG_ASSERT disabled;;
      arch_enable_ints;;
      arch_disable_ints;;
      ret NO_ERROR
  | ExitReason.CPUID =>
      handle_cpuid exit_info
  | ExitReason.IO_INSTRUCTION =>
      next_rip exit_info;;
      if WITH_LIB_MAGENTA then
        let io_info := IoInfo.IoInfo exit_info.(exit_qualification) in
        if io_info.(IoInfo.input) || io_info.(IoInfo.string) ||
           io_info.(IoInfo.repeat) || negb (io_info.(IoInfo.port) =? kUartIoPort)
        then ret NO_ERROR
        else
          g <- gets (fun s => s.(vmx_state_).(guest_state));;
          serial_fifo_Write (bytes_of g.(rax) io_info.(IoInfo.bytes))
      else
        ret NO_ERROR
  | ExitReason.WRMSR =>
      ret ERR_NOT_SUPPORTED
  | ExitReason.OTHER =>
      ret ERR_NOT_SUPPORTED
  end.

(** *** Guest execution *)

(** [vmx_enter(&vmx_state_, do_resume_)]. *)
Definition vmx_enter (resume : bool) : M status_t :=
  fun s =>
    let '(status, w, st, v) := asm_vmx_enter s.(world) s.(vmx_state_) s.(vmcs) resume in
    Some (status,
          add_event (EvVmxEnter resume status)
            (set_vmcs v (set_vmx_state_ st (set_world w s)))).

(** [VmcsPerCpu::Enter], lines 856 to 868: what is programmed before the
    guest is entered. *)
Definition Enter_prepare (context : VmcsContext) : M unit :=
  v <- read_msr X86_MSR_IA32_FS_BASE;;
  vmcs_writeXX VmcsFieldXX.HOST_FS_BASE v;;
  v <- x86_get_cr3;;
  vmcs_writeXX VmcsFieldXX.HOST_CR3 v;;
  v <- read_msr X86_MSR_IA32_KERNEL_GS_BASE;;
  edit_msr_list HostMsrPage 3 (msr_number X86_MSR_IA32_KERNEL_GS_BASE) v;;
  do_resume <- gets do_resume_;;
  if do_resume then ret tt
  else
    vmcs_writeXX VmcsFieldXX.GUEST_CR3 context.(cr3_);;
    vmcs_writeXX VmcsFieldXX.GUEST_RIP context.(entry_).

(** [VmcsPerCpu::Enter], lines 870 to 878: the entry and what follows it. *)
Definition Enter_run : M status_t :=
  do_resume <- gets do_resume_;;
  status <- vmx_enter do_resume;;
  if negb (status_eqb status NO_ERROR) then
    error <- vmcs_read32 VmcsField32.VM_INSTRUCTION_ERROR;;
    ret status
  else
    modify (set_do_resume_ true);;
    vmexit_handler.

Definition Enter (context : VmcsContext) : M status_t :=
  page <- gets page_;;
  AutoVmcsLoad page (Enter_prepare context;; Enter_run).

(** The external caller decides whether to loop: one call of [Enter] after
    the other, each with the context the caller has set by then. *)
Fixpoint Enter_each (contexts : list VmcsContext) : M (list status_t) :=
  match contexts with
  | [] => ret []
  | context :: rest =>
      status <- Enter context;;
      statuses <- Enter_each rest;;
      ret (status :: statuses)
  end.

(** *** The caller's settings *)

Definition set_cr3 (guest_cr3 : Z) (c : VmcsContext) : status_t * VmcsContext :=
  if wrap64 (c.(gpas_size) - PAGE_SIZE) <=? guest_cr3
  then (ERR_INVALID_ARGS, c)
  else (NO_ERROR, mkVmcsContext c.(gpas_size) guest_cr3 c.(entry_)).

Definition set_entry (guest_entry : Z) (c : VmcsContext) : status_t * VmcsContext :=
  if c.(gpas_size) <=? guest_entry
  then (ERR_INVALID_ARGS, c)
  else (NO_ERROR, mkVmcsContext c.(gpas_size) c.(cr3_) guest_entry).

(** *** Reading the trace *)

(** A VMPTRLD that ran with interrupts disabled; every other event
    passes. *)
Definition vmptrld_ints_off (e : Event) : Prop :=
  match e with
  | EvVmptrld _ ints_off => ints_off = true
  | _ => True
  end.

(** An entry into the guest that succeeded. *)
Definition is_successful_entry (e : Event) : bool :=
  match e with
  | EvVmxEnter _ NO_ERROR => true
  | _ => false
  end.

(** Neither a VMPTRLD nor an entry into the guest. *)
Definition plain (e : Event) : Prop :=
  match e with
  | EvVmptrld _ _ | EvVmxEnter _ _ => False
  | _ => True
  end.

(** [do_resume_] says whether this CPU has entered the guest with success
    so far. *)
Definition resume_inv (s : State) : Prop :=
  s.(do_resume_) = existsb is_successful_entry s.(trace).

(** The four pages of the [VmcsPerCpu] are the same in two states. *)
Definition same_pages (s s' : State) : Prop :=
  s'.(page_) = s.(page_) /\
  s'.(msr_bitmaps_page_) = s.(msr_bitmaps_page_) /\
  s'.(host_msr_page_) = s.(host_msr_page_) /\
  s'.(guest_msr_page_) = s.(guest_msr_page_).

(** A computation that, when it returns, has left [do_resume_], the
    interrupt flag and the pages as they were and has added plain events
    only. *)
Definition quiet {A : Type} (m : M A) : Prop :=
  forall s a s',
    m s = Some (a, s') ->
    s'.(do_resume_) = s.(do_resume_) /\
    s'.(ints_disabled) = s.(ints_disabled) /\
    same_pages s s' /\
    exists evs, s'.(trace) = evs ++ s.(trace) /\ Forall plain evs.

(** Inside the scoped VMCS load: interrupts are disabled and the pages the
    code takes addresses of are allocated. *)
Definition in_scope (s : State) : Prop :=
  s.(ints_disabled) = true /\
  s.(msr_bitmaps_page_).(pa_) <> 0 /\
  s.(host_msr_page_).(pa_) <> 0 /\
  s.(guest_msr_page_).(pa_) <> 0.

(** The state a scoped load starts from: interrupts enabled, the four pages
    allocated. *)
Definition ready (s : State) : Prop :=
  s.(ints_disabled) = false /\
  s.(page_).(pa_) <> 0 /\
  s.(msr_bitmaps_page_).(pa_) <> 0 /\
  s.(host_msr_page_).(pa_) <> 0 /\
  s.(guest_msr_page_).(pa_) <> 0.

(** A computation that returns from every state inside the scoped VMCS
    load, with a value that satisfies [Q]: none of its assertions fails. *)
Definition runs {A : Type} (m : M A) (Q : A -> Prop) : Prop :=
  forall s, in_scope s -> exists a s', m s = Some (a, s') /\ Q a.

End Model.

(* ================================================================== *)
(** ** A sample platform *)

(** One concrete platform on which the code above can be run: the bit
    masks and MSR numbers are the architectural ones, the selectors and the
    addresses of the host kernel are examples, and the guest is a script of
    VM exits. *)
Module Sample.

(** What one entry into the guest comes back with. *)
Record Exit : Type := mkExit {
  exit_status : status_t;     (* of VMLAUNCH or VMRESUME *)
  exit_guest : GuestState;    (* the guest registers saved at the exit *)
  exit_reason_field : Z;
  exit_qualification_field : Z;
  exit_instruction_length : Z;
  exit_guest_rip : Z
}.

(** The trampoline runs the next entry of the script. *)
Definition enter (w : list Exit) (st : VmxState) (v : Field -> Z) (resume : bool)
  : status_t * list Exit * VmxState * (Field -> Z) :=
  match w with
  | [] => (ERR_INTERNAL, [], st, v)
  | e :: w' =>
      (e.(exit_status), w', mkVmxState e.(exit_guest),
       fun f =>
         match f with
         | F32 VmcsField32.EXIT_REASON => e.(exit_reason_field)
         | FXX VmcsFieldXX.EXIT_QUALIFICATION => e.(exit_qualification_field)
         | F32 VmcsField32.INSTRUCTION_LENGTH => e.(exit_instruction_length)
         | FXX VmcsFieldXX.GUEST_RIP => e.(exit_guest_rip)
         | _ => v f
         end)
  end.

(** A FIFO with room for a number of bytes; a write that does not fit is
    rejected. *)
Record Fifo : Type := mkFifo {
  room : Z;
  held : list Z
}.

Definition Fifo_Write (f : Fifo) (data : list Z) : status_t * Z * Fifo :=
  let len := Z.of_nat (length data) in
  if len <=? f.(room)
  then (NO_ERROR, len, mkFifo (f.(room) - len) (f.(held) ++ data))
  else (ERR_BAD_STATE, 0, f).

Definition exit_reason_of (reason : Z) : ExitReason.t :=
  if reason =? 1 then ExitReason.EXTERNAL_INTERRUPT
  else if reason =? 10 then ExitReason.CPUID
  else if reason =? 30 then ExitReason.IO_INSTRUCTION
  else if reason =? 32 then ExitReason.WRMSR
  else ExitReason.OTHER.

Definition msr_number_of (m : Msr) : Z :=
  match m with
  | X86_MSR_IA32_FEATURE_CONTROL => 0x3a
  | X86_MSR_IA32_VMX_BASIC => 0x480
  | X86_MSR_IA32_VMX_PINBASED_CTLS => 0x481
  | X86_MSR_IA32_VMX_PROCBASED_CTLS => 0x482
  | X86_MSR_IA32_VMX_EXIT_CTLS => 0x483
  | X86_MSR_IA32_VMX_ENTRY_CTLS => 0x484
  | X86_MSR_IA32_VMX_MISC => 0x485
  | X86_MSR_IA32_VMX_CR0_FIXED0 => 0x486
  | X86_MSR_IA32_VMX_CR0_FIXED1 => 0x487
  | X86_MSR_IA32_VMX_CR4_FIXED0 => 0x488
  | X86_MSR_IA32_VMX_CR4_FIXED1 => 0x489
  | X86_MSR_IA32_VMX_PROCBASED_CTLS2 => 0x48b
  | X86_MSR_IA32_VMX_EPT_VPID_CAP => 0x48c
  | X86_MSR_IA32_VMX_TRUE_PINBASED_CTLS => 0x48d
  | X86_MSR_IA32_VMX_TRUE_PROCBASED_CTLS => 0x48e
  | X86_MSR_IA32_VMX_TRUE_EXIT_CTLS => 0x48f
  | X86_MSR_IA32_VMX_TRUE_ENTRY_CTLS => 0x490
  | X86_MSR_IA32_PAT => 0x277
  | X86_MSR_IA32_EFER => 0xc0000080
  | X86_MSR_IA32_STAR => 0xc0000081
  | X86_MSR_IA32_LSTAR => 0xc0000082
  | X86_MSR_IA32_FMASK => 0xc0000084
  | X86_MSR_IA32_FS_BASE => 0xc0000100
  | X86_MSR_IA32_GS_BASE => 0xc0000101
  | X86_MSR_IA32_KERNEL_GS_BASE => 0xc0000102
  end.

(** CPUID leaf 0 of the sample host: maximum basic leaf 0x16, vendor
    string GenuineIntel. *)
Definition cpuid_of (leaf : Z) : Z * Z * Z * Z :=
  if leaf =? 0 then (0x16, 0x756e6547, 0x6c65746e, 0x49656e69)
  else (0, 0, 0, 0).

#[local] Instance platform : Platform := {|
  X86_MSR_IA32_FEATURE_CONTROL_LOCK := 0x1;
  X86_MSR_IA32_FEATURE_CONTROL_VMXON := 0x4;
  X86_CR0_PE := 0x1;
  X86_CR0_PG := 0x80000000;
  X86_CR0_NE := 0x20;
  X86_CR4_PAE := 0x20;
  X86_CR4_VMXE := 0x2000;
  X86_FLAGS_RESERVED_ONES := 0x2;
  msr_number := msr_number_of;
  VMX_MEMORY_TYPE_WRITE_BACK := 6;
  PROCBASED_CTLS2_EPT := 0x2;
  PROCBASED_CTLS2_RDTSCP := 0x8;
  PROCBASED_CTLS2_VPID := 0x20;
  PROCBASED_CTLS2_XSAVES_XRSTORS := 0x100000;
  PINBASED_CTLS_EXTINT_EXITING := 0x1;
  PINBASED_CTLS_NMI_EXITING := 0x8;
  PROCBASED_CTLS_IO_EXITING := 0x1000000;
  PROCBASED_CTLS_MSR_BITMAPS := 0x10000000;
  PROCBASED_CTLS_PROCBASED_CTLS2 := 0x80000000;
  PROCBASED_CTLS_CR3_LOAD_EXITING := 0x8000;
  PROCBASED_CTLS_CR3_STORE_EXITING := 0x10000;
  EXIT_CTLS_64BIT_MODE := 0x200;
  EXIT_CTLS_SAVE_IA32_PAT := 0x40000;
  EXIT_CTLS_LOAD_IA32_PAT := 0x80000;
  EXIT_CTLS_SAVE_IA32_EFER := 0x100000;
  EXIT_CTLS_LOAD_IA32_EFER := 0x200000;
  ENTRY_CTLS_IA32E_MODE := 0x200;
  ENTRY_CTLS_LOAD_IA32_PAT := 0x4000;
  ENTRY_CTLS_LOAD_IA32_EFER := 0x8000;
  EXCEPTION_BITMAP_ALL_EXCEPTIONS := 0xffffffff;
  LINK_POINTER_INVALIDATE := 0xffffffffffffffff;
  GUEST_XX_ACCESS_RIGHTS_UNUSABLE := 0x10000;
  GUEST_XX_ACCESS_RIGHTS_TYPE_A := 0x1;
  GUEST_XX_ACCESS_RIGHTS_TYPE_W := 0x2;
  GUEST_XX_ACCESS_RIGHTS_TYPE_E := 0x4;
  GUEST_XX_ACCESS_RIGHTS_TYPE_CODE := 0x8;
  GUEST_XX_ACCESS_RIGHTS_S := 0x10;
  GUEST_XX_ACCESS_RIGHTS_P := 0x80;
  GUEST_XX_ACCESS_RIGHTS_L := 0x2000;
  GUEST_TR_ACCESS_RIGHTS_TSS_BUSY := 0xb;
  ExitReason_of := exit_reason_of;
  CODE_64_SELECTOR := 0x28;
  DATA_SELECTOR := 0x30;
  TSS_SELECTOR := fun n => 0x50 + 16 * n;
  cpu_num := 0;
  default_tss_address := 0xffffffff80100000;
  gdt_address := 0xffffffff80101000;
  idt_readonly_address := 0xffffffff80102000;
  vmx_exit_entry_address := 0xffffffff80103000;
  vmx_state_address := 0xffffffff80104000;
  World := list Exit;
  insn_vmxon := fun w _ => (false, w);
  insn_vmxoff := fun w => (false, w);
  insn_vmptrld := fun w _ => (false, w);
  insn_vmclear := fun w _ => (false, w);
  insn_cpuid := cpuid_of;
  asm_vmx_enter := enter;
  FifoDispatcher := Fifo;
  FifoDispatcher_Write := Fifo_Write;
  WITH_LIB_MAGENTA := true
|}.

(** The capability and control MSRs of the sample CPU. *)
Definition msr_of (feature_control : Z) (m : Msr) : Z :=
  match m with
  | X86_MSR_IA32_FEATURE_CONTROL => feature_control
  | X86_MSR_IA32_VMX_BASIC => 0xda040000000004
  | X86_MSR_IA32_VMX_MISC => 0x7004c1e7
  | X86_MSR_IA32_VMX_EPT_VPID_CAP => 0xf0106734141
  | X86_MSR_IA32_VMX_CR0_FIXED0 => 0x80000021
  | X86_MSR_IA32_VMX_CR0_FIXED1 => 0xffffffff
  | X86_MSR_IA32_VMX_CR4_FIXED0 => 0x2000
  | X86_MSR_IA32_VMX_CR4_FIXED1 => 0x3767ff
  | X86_MSR_IA32_VMX_PROCBASED_CTLS2 => 0x55cfff00000000
  | X86_MSR_IA32_VMX_TRUE_PINBASED_CTLS => 0x7f00000016
  | X86_MSR_IA32_VMX_PINBASED_CTLS => 0x7f00000016
  | X86_MSR_IA32_VMX_TRUE_PROCBASED_CTLS => 0xfff9fffe04006172
  | X86_MSR_IA32_VMX_PROCBASED_CTLS => 0xfff9fffe0401e172
  | X86_MSR_IA32_VMX_TRUE_EXIT_CTLS => 0x1ffffff00036dfb
  | X86_MSR_IA32_VMX_EXIT_CTLS => 0x1ffffff00036dff
  | X86_MSR_IA32_VMX_TRUE_ENTRY_CTLS => 0x3ffff000011fb
  | X86_MSR_IA32_VMX_ENTRY_CTLS => 0x3ffff000011ff
  | X86_MSR_IA32_PAT => 0x7040600070406
  | X86_MSR_IA32_EFER => 0xd01
  | _ => 0
  end.

(** The sample machine before bring-up: interrupts enabled, every page
    allocated, nothing entered yet. *)
Definition machine (feature_control : Z) (script : list Exit) (fifo_room : Z) : State :=
  {| msrs := msr_of feature_control;
     cr0 := 0x80050033;
     cr3 := 0x1000;
     cr4 := 0x3406e0;
     ints_disabled := false;
     vmcs := fun _ => 0;
     world := script;
     vmxon_page_ := mkVmxPage 0x10000;
     is_on_ := false;
     page_ := mkVmxPage 0x11000;
     msr_bitmaps_page_ := mkVmxPage 0x12000;
     host_msr_page_ := mkVmxPage 0x13000;
     guest_msr_page_ := mkVmxPage 0x14000;
     msr_bitmaps := fun _ => 0xff;
     host_msr_list := fun _ => mkMsrListEntry 0 0 0;
     guest_msr_list := fun _ => mkMsrListEntry 0 0 0;
     vmx_state_ := mkVmxState (mkGuestState 0 0 0 0);
     do_resume_ := false;
     serial_fifo := mkFifo fifo_room [];
     trace := [] |}.

(** The state a computation leaves (the state it began in, if it fails). *)
Definition after {A : Type} (m : M A) (s : State) : State :=
  match m s with
  | Some (_, s') => s'
  | None => s
  end.

(** The sample machine as the trampoline leaves it after the exit [e]:
    interrupts disabled, the exit fields and the guest registers of [e]. *)
Definition exited (e : Exit) (fifo_room : Z) : State :=
  let m := machine 5 [] fifo_room in
  set_vmcs (snd (enter [e] m.(vmx_state_) m.(vmcs) false))
    (set_vmx_state_ (mkVmxState e.(exit_guest))
       (set_ints_disabled true m)).

(** CPUID at 0x1000, two bytes long, with the guest registers [g]. *)
Definition cpuid_exit (g : GuestState) : Exit :=
  mkExit NO_ERROR g 10 0 2 0x1000.

(** An I/O instruction at 0x2000, one byte long, with exit qualification
    [q] and guest rax [a]. *)
Definition io_exit (q a : Z) : Exit :=
  mkExit NO_ERROR (mkGuestState a 0 0 0) 30 q 1 0x2000.

(** A guest context over 1 MiB of guest memory. *)
Definition context : VmcsContext := mkVmcsContext 0x100000 0x3000 0x8000.

End Sample.

(* ================================================================== *)
(** ** The model, continued: callers, bitmaps and frames *)

(** UINTPTR_MAX of <stdint.h>; [uintptr_t] has 64 bits on x86-64. *)
Definition UINTPTR_MAX : Z := mask64.

(** A control register against a pair of fixed-bit MSRs: every bit set in
    FIXED0 is set in the register and every bit clear in FIXED1 is clear in
    it. *)
Definition fixed_bits_ok (cr_value fixed0 fixed1 : Z) : Prop :=
  Z.land cr_value fixed0 = fixed0 /\ Z.land cr_value (not64 fixed1) = 0.

(** Where the MSR bitmaps page holds the bit of an MSR: its byte, in the
    read half or in the write half of the page, and its bit in that byte. *)
Definition msr_bitmap_byte (write : bool) (msr : Z) : Z :=
  (if 0xc0000000 <=? msr then 1024 else 0)
  + (if write then 2048 else 0)
  + (msr mod 8192) / 8.

Definition msr_bitmap_bit (msr : Z) : Z := (msr mod 8192) mod 8.

(** The thread primitives of <kernel/thread.h> that [percpu_exec] uses:
    [thread_create] says whether a thread came back, [thread_resume] and
    [thread_join] give their status. *)
Class Threads `{Platform} : Type := {
  thread_create : World -> bool * World;
  thread_resume : World -> status_t * World;
  thread_join : World -> status_t * World
}.

Section Callers.

Context `{Platform} `{!Threads}.

Definition thread_create_call : M bool :=
  fun s => let (t, w) := thread_create s.(world) in Some (t, set_world w s).

Definition thread_resume_call : M status_t :=
  fun s => let (status, w) := thread_resume s.(world) in Some (status, set_world w s).

Definition thread_join_call : M status_t :=
  fun s => let (status, w) := thread_join s.(world) in Some (status, set_world w s).

(** [percpu_exec(entry, arg)]: the worker is pinned to CPU 0, the CPU of
    the state; between [thread_resume] and the return of [thread_join],
    which waits without limit, it runs [entry] to its end, and what [entry]
    returns is the [retcode] of the join. *)
Definition percpu_exec (entry : M status_t) : M status_t :=
  t <- thread_create_call;;
  if negb t then ret ERR_NO_MEMORY else
  status <- thread_resume_call;;
  if negb (status_eqb status NO_ERROR) then ret status else
  retcode <- entry;;
  status <- thread_join_call;;
  ret (if negb (status_eqb status NO_ERROR) then status else retcode).

Definition vmcs_launch (context : VmcsContext) : M status_t :=
  Enter context.

(** [VmcsContext::Enter()]. *)
Definition VmcsContext_Enter (context : VmcsContext) : M status_t :=
  if context.(cr3_) =? UINTPTR_MAX then ret ERR_BAD_STATE else
  if context.(entry_) =? UINTPTR_MAX then ret ERR_BAD_STATE else
  percpu_exec (vmcs_launch context).

Definition arch_guest_enter (context : VmcsContext) : M status_t :=
  VmcsContext_Enter context.

End Callers.

Section Frames.

Context `{Platform}.

(** A computation that, when it returns, has left a part of the state as
    it was. *)
Definition preserves {A B : Type} (part : State -> B) (m : M A) : Prop :=
  forall s a s', m s = Some (a, s') -> part s' = part s.

(** A computation that, when it returns, has changed nothing. *)
Definition reads_only {A : Type} (m : M A) : Prop :=
  forall s a s', m s = Some (a, s') -> s' = s.

(** The registers of a machine hold 64-bit values. *)
Definition registers_u64 (s : State) : Prop :=
  is_u64 s.(cr0) /\ is_u64 s.(cr4) /\ forall m, is_u64 (s.(msrs) m).

(** The VMCS control fields [Setup] configures. *)
Definition control_fields : list Field :=
  [F32 VmcsField32.PROCBASED_CTLS2; F32 VmcsField32.PINBASED_CTLS;
   F32 VmcsField32.PROCBASED_CTLS; F32 VmcsField32.EXIT_CTLS;
   F32 VmcsField32.ENTRY_CTLS].

(** The value the control helper computes from the two capability MSRs and
    the two masks of a call. *)
Definition control_of (true_msr old_msr set clear : Z) : Z :=
  control_value (wrap32 true_msr) (wrap32 (BITS_SHIFT true_msr 63 32))
    old_msr (wrap32 set) (wrap32 clear).

(** The capability bits [vmx_enable] insists on, lines 284 to 313: the
    MSR and the bit in it. *)
Definition required_capabilities : list (Msr * Z) :=
  [(X86_MSR_IA32_VMX_BASIC, 54); (X86_MSR_IA32_VMX_BASIC, 55);
   (X86_MSR_IA32_VMX_EPT_VPID_CAP, 6); (X86_MSR_IA32_VMX_EPT_VPID_CAP, 14);
   (X86_MSR_IA32_VMX_EPT_VPID_CAP, 21); (X86_MSR_IA32_VMX_EPT_VPID_CAP, 20);
   (X86_MSR_IA32_VMX_EPT_VPID_CAP, 25); (X86_MSR_IA32_VMX_EPT_VPID_CAP, 26);
   (X86_MSR_IA32_VMX_MISC, 8)].

(** What is outside the VMCS and its pages: the registers of the CPU, the
    VMX flag, the saved guest registers, the launch flag and the FIFO. *)
Definition outside_vmcs (s : State)
  : (Msr -> Z) * Z * Z * Z * bool * VmxState * bool * FifoDispatcher :=
  (s.(msrs), s.(cr0), s.(cr3), s.(cr4), s.(is_on_), s.(vmx_state_),
   s.(do_resume_), s.(serial_fifo)).

(** The VMCS fields that [Enter] programs and [Setup] does not. *)
Definition fields_of_Enter : list Field :=
  [FXX VmcsFieldXX.HOST_CR3; FXX VmcsFieldXX.GUEST_CR3; FXX VmcsFieldXX.GUEST_RIP].

(** The five calls of the control helper in [Setup], lines 548 to 627: the
    field, the true MSR, the old MSR (none for the secondary processor-based
    controls, whose old value is 0), the bits to set and the bits to
    clear. *)
Definition control_calls : list (VmcsField32.t * Msr * option Msr * Z * Z) :=
  [(VmcsField32.PROCBASED_CTLS2, X86_MSR_IA32_VMX_PROCBASED_CTLS2, None,
    Z.lor (Z.lor (Z.lor PROCBASED_CTLS2_EPT PROCBASED_CTLS2_RDTSCP)
             PROCBASED_CTLS2_VPID) PROCBASED_CTLS2_XSAVES_XRSTORS,
    0);
   (VmcsField32.PINBASED_CTLS, X86_MSR_IA32_VMX_TRUE_PINBASED_CTLS,
    Some X86_MSR_IA32_VMX_PINBASED_CTLS,
    Z.lor PINBASED_CTLS_EXTINT_EXITING PINBASED_CTLS_NMI_EXITING,
    0);
   (VmcsField32.PROCBASED_CTLS, X86_MSR_IA32_VMX_TRUE_PROCBASED_CTLS,
    Some X86_MSR_IA32_VMX_PROCBASED_CTLS,
    Z.lor (Z.lor PROCBASED_CTLS_IO_EXITING PROCBASED_CTLS_MSR_BITMAPS)
      PROCBASED_CTLS_PROCBASED_CTLS2,
    Z.lor PROCBASED_CTLS_CR3_LOAD_EXITING PROCBASED_CTLS_CR3_STORE_EXITING);
   (VmcsField32.EXIT_CTLS, X86_MSR_IA32_VMX_TRUE_EXIT_CTLS,
    Some X86_MSR_IA32_VMX_EXIT_CTLS,
    Z.lor (Z.lor (Z.lor (Z.lor EXIT_CTLS_64BIT_MODE EXIT_CTLS_SAVE_IA32_PAT)
                    EXIT_CTLS_LOAD_IA32_PAT) EXIT_CTLS_SAVE_IA32_EFER)
      EXIT_CTLS_LOAD_IA32_EFER,
    0);
   (VmcsField32.ENTRY_CTLS, X86_MSR_IA32_VMX_TRUE_ENTRY_CTLS,
    Some X86_MSR_IA32_VMX_ENTRY_CTLS,
    Z.lor (Z.lor ENTRY_CTLS_IA32E_MODE ENTRY_CTLS_LOAD_IA32_PAT)
      ENTRY_CTLS_LOAD_IA32_EFER,
    0)].

(** A control field holds what its call asked for within what the CPU
    allows: the value of the helper, with every bit of allowed_0 set, every
    bit asked to be set set, every bit asked to be cleared clear and, when
    allowed_0 lies within allowed_1, no bit outside allowed_1.  [host] is
    the state the capability MSRs are read from. *)
Definition control_programmed (host s' : State)
    (call : VmcsField32.t * Msr * option Msr * Z * Z) : Prop :=
  let '(field, true_msr, old_msr, set, clear) := call in
  let true_value := host.(msrs) true_msr in
  let old_value := match old_msr with Some m => host.(msrs) m | None => 0 end in
  let allowed_0 := wrap32 true_value in
  let allowed_1 := true_value / 2 ^ 32 in
  let v := s'.(vmcs) (F32 field) in
  v = control_of true_value old_value set clear /\
  Z.land v allowed_0 = allowed_0 /\
  Z.land v (wrap32 set) = wrap32 set /\
  Z.land v (wrap32 clear) = 0 /\
  (Z.land allowed_0 (not32 allowed_1) = 0 -> Z.land v (not32 allowed_1) = 0).

End Frames.

(** Threads of the sample kernel: every primitive succeeds. *)
Module SampleThreads.

#[local] Instance threads : Threads (H := Sample.platform) := {|
  thread_create := fun w => (true, w);
  thread_resume := fun w => (NO_ERROR, w);
  thread_join := fun w => (NO_ERROR, w)
|}.

End SampleThreads.

(* ================================================================== *)
(** ** Bits and machine integers *)

Lemma wrap32_mod (x : Z) : wrap32 x = x mod 2 ^ 32.
Proof. unfold wrap32. change mask32 with (Z.ones 32). apply Z.land_ones. lia. Qed.

Lemma wrap64_mod (x : Z) : wrap64 x = x mod 2 ^ 64.
Proof. unfold wrap64. change mask64 with (Z.ones 64). apply Z.land_ones. lia. Qed.

Lemma wrap16_mod (x : Z) : wrap16 x = x mod 2 ^ 16.
Proof. unfold wrap16. change mask16 with (Z.ones 16). apply Z.land_ones. lia. Qed.

Lemma wrap8_mod (x : Z) : wrap8 x = x mod 2 ^ 8.
Proof. unfold wrap8. change mask8 with (Z.ones 8). apply Z.land_ones. lia. Qed.

Lemma wrap32_id (x : Z) : is_u32 x -> wrap32 x = x.
Proof. intros Hx. rewrite wrap32_mod. apply Z.mod_small. exact Hx. Qed.

Lemma wrap64_id (x : Z) : is_u64 x -> wrap64 x = x.
Proof. intros Hx. rewrite wrap64_mod. apply Z.mod_small. exact Hx. Qed.

Lemma wrap32_wrap32 (x : Z) : wrap32 (wrap32 x) = wrap32 x.
Proof. rewrite !wrap32_mod. apply Z.mod_mod. lia. Qed.

Lemma wrap64_wrap64 (x : Z) : wrap64 (wrap64 x) = wrap64 x.
Proof. rewrite !wrap64_mod. apply Z.mod_mod. lia. Qed.

Lemma wrap32_is_u32 (x : Z) : is_u32 (wrap32 x).
Proof. rewrite wrap32_mod. unfold is_u32. apply Z.mod_pos_bound. lia. Qed.

Lemma wrap64_is_u64 (x : Z) : is_u64 (wrap64 x).
Proof. rewrite wrap64_mod. unfold is_u64. apply Z.mod_pos_bound. lia. Qed.

Lemma testbit_wrap32 (x i : Z) :
  0 <= i -> Z.testbit (wrap32 x) i = Z.testbit x i && (i <? 32).
Proof.
  intros Hi. unfold wrap32. change mask32 with (Z.ones 32).
  rewrite Z.land_spec, Z.testbit_ones_nonneg by lia. reflexivity.
Qed.

Lemma testbit_not32 (x i : Z) :
  0 <= i -> Z.testbit (not32 x) i = negb (Z.testbit x i) && (i <? 32).
Proof.
  intros Hi. unfold not32. change mask32 with (Z.ones 32).
  rewrite Z.land_spec, Z.lnot_spec, Z.testbit_ones_nonneg by lia. reflexivity.
Qed.

Lemma testbit_u32_high (x i : Z) : is_u32 x -> 32 <= i -> Z.testbit x i = false.
Proof.
  intros Hx Hi. rewrite <- (wrap32_id x Hx), testbit_wrap32 by lia.
  replace (i <? 32) with false by (symmetry; apply Z.ltb_ge; lia).
  apply andb_false_r.
Qed.

Lemma BITS_31_0 (x : Z) : BITS x 31 0 = wrap32 x.
Proof. reflexivity. Qed.

Lemma BITS_2_0 (x : Z) : BITS x 2 0 = x mod 8.
Proof. unfold BITS. change (Z.land (Z.ones (2 + 1)) (Z.lnot (Z.ones 0))) with (Z.ones 3).
  rewrite Z.land_ones by lia. reflexivity. Qed.

Lemma BITS_SHIFT_div (x high low : Z) :
  0 <= low <= high ->
  BITS_SHIFT x high low = (x / 2 ^ low) mod 2 ^ (high - low + 1).
Proof.
  intros Hl. unfold BITS_SHIFT.
  rewrite Z.land_ones, Z.shiftr_div_pow2 by lia. reflexivity.
Qed.

Lemma BIT_SHIFT_testbit (x bit : Z) :
  0 <= bit -> nonzero (BIT_SHIFT x bit) = Z.testbit x bit.
Proof.
  intros Hb. unfold nonzero, BIT_SHIFT.
  change 1 with (Z.ones 1). rewrite Z.land_ones by lia.
  rewrite Z.shiftr_div_pow2 by lia. change (2 ^ 1) with 2.
  rewrite <- Z.testbit_spec' by lia.
  destruct (Z.testbit x bit); reflexivity.
Qed.

(** The high half of a 64-bit value, as the helper reads it. *)
Lemma BITS_SHIFT_63_32 (x : Z) : is_u64 x -> wrap32 (BITS_SHIFT x 63 32) = x / 2 ^ 32.
Proof.
  intros Hx. rewrite BITS_SHIFT_div by lia.
  change (63 - 32 + 1) with 32.
  assert (0 <= x / 2 ^ 32 < 2 ^ 32).
  { unfold is_u64 in Hx. split.
    - apply Z.div_pos; lia.
    - apply Z.div_lt_upper_bound; lia. }
  rewrite Z.mod_small by assumption. apply wrap32_id. assumption.
Qed.

(** Reading an equation between 32-bit values at one bit. *)
Ltac bit_specs :=
  repeat rewrite ?testbit_wrap32, ?testbit_not32,
                 ?Z.land_spec, ?Z.lor_spec, ?Z.lxor_spec, ?Z.bits_0 by lia.

Ltac at_bit i H :=
  let E := fresh H "_" in
  pose proof (f_equal (fun z => Z.testbit z i) H) as E; cbv beta in E;
  repeat rewrite ?testbit_wrap32, ?testbit_not32,
                 ?Z.land_spec, ?Z.lor_spec, ?Z.lxor_spec, ?Z.bits_0 in E by lia.

Ltac bool_cases :=
  repeat match goal with
         | |- context [Z.testbit ?x ?i] => destruct (Z.testbit x i)
         | H : context [Z.testbit ?x ?i] |- _ => destruct (Z.testbit x i)
         | |- context [?i <? 32] => destruct (i <? 32)
         end; cbn in *; try congruence.

(** Bits 32 and above of a 32-bit value are clear: collect the fact for
    every 32-bit value in the context. *)
Ltac high_bits i :=
  repeat match goal with
         | Hx : is_u32 ?x |- _ =>
             lazymatch goal with
             | _ : 32 <= i -> Z.testbit x i = false |- _ => fail
             | _ => pose proof (testbit_u32_high x i Hx)
             end
         end.

Ltac u32_bitwise :=
  let i := fresh "i" in
  let Hi := fresh "Hi" in
  apply Z.bits_inj'; intros i Hi; bit_specs; high_bits i;
  repeat match goal with
         | E : _ = _ :> Z |- _ => at_bit i E; clear E
         end;
  destruct (Z.ltb_spec i 32);
  [ | repeat match goal with
             | Hh : 32 <= i -> Z.testbit ?x i = false |- _ =>
                 rewrite (Hh ltac:(lia)) in *; clear Hh
             end ];
  bool_cases.

Lemma div_pow32_is_u32 (x : Z) : is_u64 x -> is_u32 (x / 2 ^ 32).
Proof.
  unfold is_u64, is_u32. intros Hx. split.
  - apply Z.div_pos; lia.
  - apply Z.div_lt_upper_bound; lia.
Qed.

Section ControlValue.

Variables a0 a1 old set clear : Z.
Hypothesis Ha0 : is_u32 a0.
Hypothesis Ha1 : is_u32 a1.
Hypothesis Hset : is_u32 set.
Hypothesis Hclear : is_u32 clear.

Lemma control_value_u32 :
  wrap32 (Z.lor (Z.lor a0 (wrap32 (Z.land (Z.land (Z.lxor a0 a1)
            (not32 (Z.lor set clear))) (wrap32 old)))) set) = control_value a0 a1 old set clear.
Proof. unfold control_value. u32_bitwise. Qed.

Lemma control_value_allowed_0 : Z.land (control_value a0 a1 old set clear) a0 = a0.
Proof. unfold control_value. u32_bitwise. Qed.

Lemma control_value_set : Z.land (control_value a0 a1 old set clear) set = set.
Proof. unfold control_value. u32_bitwise. Qed.

Lemma control_value_allowed_1 :
  Z.land a1 set = set ->
  Z.land a0 (not32 a1) = 0 ->
  Z.land (control_value a0 a1 old set clear) (not32 a1) = 0.
Proof. unfold control_value. intros E1 E2. u32_bitwise. Qed.

Lemma control_value_clear :
  Z.land (not32 a0) clear = clear ->
  Z.land set clear = 0 ->
  Z.land (control_value a0 a1 old set clear) clear = 0.
Proof. unfold control_value. intros E1 E2. u32_bitwise. Qed.

End ControlValue.

(* ================================================================== *)
(** ** IoInfo *)

(** C5 (as amended).  For every 64-bit exit qualification [q], the decoder
    gives bytes = (bits [2:0] of q) + 1, a value between 1 and 8 (it stays
    within 1..4 exactly when bits [2:0] are at most 3), input = bit 3,
    string = bit 4, repeat = bit 5 and port = bits [31:16] of [q]. *)
Theorem IoInfo_decode (q : Z) :
  is_u64 q ->
  let io := IoInfo.IoInfo q in
  IoInfo.bytes io = q mod 8 + 1 /\
  1 <= IoInfo.bytes io <= 8 /\
  (IoInfo.bytes io <= 4 <-> q mod 8 <= 3) /\
  IoInfo.input io = Z.testbit q 3 /\
  IoInfo.string io = Z.testbit q 4 /\
  IoInfo.repeat io = Z.testbit q 5 /\
  IoInfo.port io = (q / 2 ^ 16) mod 2 ^ 16.
Proof.
  intros _. cbn zeta. unfold IoInfo.IoInfo; cbn [IoInfo.bytes IoInfo.input
    IoInfo.string IoInfo.repeat IoInfo.port].
  rewrite BITS_2_0, !BIT_SHIFT_testbit by lia.
  assert (Hm : 0 <= q mod 8 < 8) by (apply Z.mod_pos_bound; lia).
  assert (Hb : wrap8 (q mod 8 + 1) = q mod 8 + 1).
  { rewrite wrap8_mod. apply Z.mod_small. lia. }
  rewrite Hb.
  repeat split; try lia.
  rewrite BITS_SHIFT_div by lia. change (31 - 16 + 1) with 16.
  rewrite wrap16_mod. apply Z.mod_mod. lia.
Qed.

(* ================================================================== *)
(** ** The VMCS control helper *)

Section ControlHelper.

Context `{Platform}.

(** One VMWRITE: the field holds the value afterwards. *)
Lemma vmwrite_vmcs (field : Field) (val : Z) (s s' : State) :
  vmwrite field val s = Some (tt, s') ->
  s'.(vmcs) field = val /\
  s'.(trace) = EvVmwrite field val :: s.(trace).
Proof.
  unfold vmwrite, modify. intros E. injection E as <-. cbn.
  destruct (Field_eq_dec field field) as [_ | N]; [ | contradiction ].
  split; reflexivity.
Qed.

(** What the helper does, by the outcome of its three checks. *)
Lemma set_vmcs_control_cases (controls : VmcsField32.t)
    (true_msr old_msr set clear : Z) (s : State) :
  is_u64 true_msr -> is_u32 set -> is_u32 clear ->
  let allowed_0 := wrap32 true_msr in
  let allowed_1 := true_msr / 2 ^ 32 in
  set_vmcs_control controls true_msr old_msr set clear s =
    if negb (Z.land allowed_1 set =? set) then Some (ERR_NOT_SUPPORTED, s)
    else if negb (Z.land (not32 allowed_0) clear =? clear) then Some (ERR_NOT_SUPPORTED, s)
    else if negb (Z.land set clear =? 0) then Some (ERR_INVALID_ARGS, s)
    else
      match vmwrite (F32 controls)
              (Z.lor (Z.lor allowed_0
                 (Z.land (Z.land (Z.lxor allowed_0 allowed_1) (not32 (Z.lor set clear)))
                    (wrap32 old_msr))) set) s with
      | Some (_, s') => Some (NO_ERROR, s')
      | None => None
      end.
Proof.
  intros Ht Hs Hc. cbn zeta. unfold set_vmcs_control.
  rewrite (wrap32_id set Hs), (wrap32_id clear Hc), !BITS_31_0, !wrap32_wrap32.
  rewrite (BITS_SHIFT_63_32 true_msr Ht).
  destruct (Z.land (true_msr / 2 ^ 32) set =? set); cbn [negb]; [ | reflexivity ].
  destruct (Z.land (not32 (wrap32 true_msr)) clear =? clear); cbn [negb]; [ | reflexivity ].
  destruct (Z.land set clear =? 0); cbn [negb]; [ | reflexivity ].
  unfold vmcs_write32.
  rewrite control_value_u32
    by auto using wrap32_is_u32, div_pow32_is_u32.
  unfold bind, ret. destruct (vmwrite _ _ s) as [[[] s'] | ]; reflexivity.
Qed.

Lemma clear_outside_allowed_0 (a0 clear : Z) :
  is_u32 a0 -> is_u32 clear ->
  Z.land (not32 a0) clear = clear <-> Z.land a0 clear = 0.
Proof.
  intros Ha Hc. split; intros E; u32_bitwise.
Qed.

(** C1 (as amended).  For every call of the helper that returns success,
    the value written to the control field is allowed_0 | defaults | set,
    with allowed_0 the bits [31:0] and allowed_1 the bits [63:32] of the
    true MSR and defaults the low 32 bits of the old MSR restricted to the
    flexible bits (allowed_0 XOR allowed_1) named neither in set nor in
    clear.  In the written value every bit of allowed_0 is set, every
    requested set bit is 1 and every requested clear bit is 0; every bit
    outside allowed_1 is clear when the MSR is consistent, that is when
    allowed_0 has no bit outside allowed_1. *)
Theorem set_vmcs_control_value (controls : VmcsField32.t)
    (true_msr old_msr set clear : Z) (s s' : State) :
  is_u64 true_msr -> is_u32 set -> is_u32 clear ->
  set_vmcs_control controls true_msr old_msr set clear s = Some (NO_ERROR, s') ->
  let allowed_0 := true_msr mod 2 ^ 32 in
  let allowed_1 := true_msr / 2 ^ 32 in
  let flexible := Z.lxor allowed_0 allowed_1 in
  let defaults :=
    Z.land (Z.land flexible (not32 (Z.lor set clear))) (old_msr mod 2 ^ 32) in
  let written := Z.lor (Z.lor allowed_0 defaults) set in
  vmwrite (F32 controls) written s = Some (tt, s') /\
  s'.(vmcs) (F32 controls) = written /\
  Z.land written allowed_0 = allowed_0 /\
  (Z.land allowed_0 (not32 allowed_1) = 0 ->
   Z.land written (not32 allowed_1) = 0) /\
  Z.land written set = set /\
  Z.land written clear = 0.
Proof.
  intros Ht Hs Hc E. cbn zeta.
  rewrite set_vmcs_control_cases in E by assumption. cbn zeta in E.
  rewrite <- !wrap32_mod.
  assert (Ha0 : is_u32 (wrap32 true_msr)) by apply wrap32_is_u32.
  assert (Ha1 : is_u32 (true_msr / 2 ^ 32)) by (apply div_pow32_is_u32; exact Ht).
  destruct (Z.eqb_spec (Z.land (true_msr / 2 ^ 32) set) set) as [E1 | ];
    cbn [negb] in E; [ | discriminate E ].
  destruct (Z.eqb_spec (Z.land (not32 (wrap32 true_msr)) clear) clear) as [E2 | ];
    cbn [negb] in E; [ | discriminate E ].
  destruct (Z.eqb_spec (Z.land set clear) 0) as [E3 | ];
    cbn [negb] in E; [ | discriminate E ].
  destruct (vmwrite _ _ s) as [[[] s''] | ] eqn:W; [ | discriminate E ].
  injection E as <-.
  split; [ reflexivity | ].
  split; [ apply (vmwrite_vmcs _ _ _ _ W) | ].
  split; [ apply control_value_allowed_0; assumption | ].
  split; [ intros E4; apply control_value_allowed_1; assumption | ].
  split; [ apply control_value_set; assumption | ].
  apply control_value_clear; assumption.
Qed.

(** C6 (as amended).  For every call of the helper in which the set mask
    and the clear mask overlap, the helper fails and does not write the
    control field: it returns INVALID_ARGS when every set bit is in
    allowed_1 and no clear bit is in allowed_0, and NOT_SUPPORTED
    otherwise, the two capability checks coming first. *)
Theorem set_vmcs_control_overlap (controls : VmcsField32.t)
    (true_msr old_msr set clear : Z) (s : State) :
  is_u64 true_msr -> is_u32 set -> is_u32 clear ->
  Z.land set clear <> 0 ->
  let allowed_0 := true_msr mod 2 ^ 32 in
  let allowed_1 := true_msr / 2 ^ 32 in
  set_vmcs_control controls true_msr old_msr set clear s =
    Some (if (Z.land allowed_1 set =? set) && (Z.land allowed_0 clear =? 0)
          then ERR_INVALID_ARGS else ERR_NOT_SUPPORTED, s).
Proof.
  intros Ht Hs Hc Ho. cbn zeta.
  rewrite set_vmcs_control_cases by assumption. cbn zeta.
  rewrite <- !wrap32_mod.
  assert (Ha0 : is_u32 (wrap32 true_msr)) by apply wrap32_is_u32.
  destruct (Z.eqb_spec (Z.land (true_msr / 2 ^ 32) set) set) as [E1 | ];
    cbn [negb andb]; [ | reflexivity ].
  destruct (Z.eqb_spec (Z.land (not32 (wrap32 true_msr)) clear) clear) as [E2 | N2];
    cbn [negb].
  - apply clear_outside_allowed_0 in E2; [ | assumption | assumption ].
    rewrite E2. cbn.
    destruct (Z.eqb_spec (Z.land set clear) 0); [ contradiction | reflexivity ].
  - destruct (Z.eqb_spec (Z.land (wrap32 true_msr) clear) 0) as [E2 | ];
      [ | reflexivity ].
    apply clear_outside_allowed_0 in E2; [ contradiction | assumption | assumption ].
Qed.

End ControlHelper.

(* ================================================================== *)
(** ** Host enablement *)

Section HostEnablement.

Context `{Platform}.

Lemma vmx_enable_capabilities (s : State) :
  vmx_enable s =
    if vmx_capabilities s then vmx_enable_feature_control s
    else Some (ERR_NOT_SUPPORTED, s).
Proof.
  unfold vmx_enable, vmx_capabilities, VmxInfo_ctor, EptInfo_ctor, MiscInfo_ctor,
    read_msr, bind, ret, gets.
  cbn zeta.
  destruct (VmxInfo.io_exit_info _); cbn [negb andb]; [ | reflexivity ].
  destruct (VmxInfo.vmx_controls _); cbn [negb andb]; [ | reflexivity ].
  destruct (EptInfo.page_walk_4 _); cbn [negb andb]; [ | reflexivity ].
  destruct (EptInfo.write_back _); cbn [negb andb]; [ | reflexivity ].
  destruct (EptInfo.ept_flags _); cbn [negb andb]; [ | reflexivity ].
  destruct (EptInfo.invept _); cbn [negb andb]; [ | reflexivity ].
  destruct (MiscInfo.wait_for_sipi _); cbn [negb andb]; reflexivity.
Qed.

Lemma land_lor_r (a b : Z) : Z.land (Z.lor a b) b = b.
Proof.
  apply Z.bits_inj'; intros i Hi. rewrite Z.land_spec, Z.lor_spec.
  destruct (Z.testbit a i), (Z.testbit b i); reflexivity.
Qed.

Lemma land_lor_l (a b c : Z) : Z.land (Z.lor (Z.lor a b) c) b = b.
Proof.
  apply Z.bits_inj'; intros i Hi. rewrite Z.land_spec, !Z.lor_spec.
  destruct (Z.testbit a i), (Z.testbit b i), (Z.testbit c i); reflexivity.
Qed.

(** C4.  During per-CPU VMX enablement the feature-control MSR falls in
    exactly one of three cases.  Unlocked: it is rewritten with both the
    LOCK and the VMXON bit set and the bring-up goes on from there.  Locked
    with the VMXON bit clear: the bring-up returns NOT_SUPPORTED and leaves
    the machine as it was, so CR4 is unchanged and CR4.VMXE is not set.
    Locked with the VMXON bit set: it is accepted without being written
    and the bring-up goes on. *)
Theorem vmx_enable_feature_control_msr (s : State) :
  let feature_control := s.(msrs) X86_MSR_IA32_FEATURE_CONTROL in
  let locked := nonzero (Z.land feature_control X86_MSR_IA32_FEATURE_CONTROL_LOCK) in
  let vmxon_set := nonzero (Z.land feature_control X86_MSR_IA32_FEATURE_CONTROL_VMXON) in
  (locked = false -> vmx_capabilities s = true ->
   let written :=
     Z.lor (Z.lor feature_control X86_MSR_IA32_FEATURE_CONTROL_LOCK)
       X86_MSR_IA32_FEATURE_CONTROL_VMXON in
   exists s1,
     write_msr X86_MSR_IA32_FEATURE_CONTROL written s = Some (tt, s1) /\
     s1.(msrs) X86_MSR_IA32_FEATURE_CONTROL = written /\
     Z.land written X86_MSR_IA32_FEATURE_CONTROL_LOCK =
       X86_MSR_IA32_FEATURE_CONTROL_LOCK /\
     Z.land written X86_MSR_IA32_FEATURE_CONTROL_VMXON =
       X86_MSR_IA32_FEATURE_CONTROL_VMXON /\
     vmx_enable s = vmx_enable_control_registers s1) /\
  (locked = true -> vmxon_set = false ->
   vmx_enable s = Some (ERR_NOT_SUPPORTED, s)) /\
  (locked = true -> vmxon_set = true -> vmx_capabilities s = true ->
   vmx_enable s = vmx_enable_control_registers s) /\
  ((locked = false) \/ (locked = true /\ vmxon_set = false) \/
   (locked = true /\ vmxon_set = true)).
Proof.
  cbn zeta. rewrite vmx_enable_capabilities.
  unfold vmx_enable_feature_control, read_msr, bind, gets, ret.
  repeat split.
  - intros L C. rewrite C, L. cbn [negb orb andb].
    unfold write_msr at 1. unfold modify at 1.
    eexists. split; [ reflexivity | ].
    split.
    { cbn.
      destruct (Msr_eq_dec X86_MSR_IA32_FEATURE_CONTROL X86_MSR_IA32_FEATURE_CONTROL)
        as [_ | N]; [ reflexivity | contradiction ]. }
    split; [ apply land_lor_l | ].
    split; [ apply land_lor_r | ].
    unfold write_msr, modify. reflexivity.
  - intros L V. rewrite L, V. cbn [negb orb andb].
    destruct (vmx_capabilities s); reflexivity.
  - intros L V C. rewrite C, L, V. reflexivity.
  - destruct (nonzero (Z.land _ X86_MSR_IA32_FEATURE_CONTROL_LOCK));
      destruct (nonzero (Z.land _ X86_MSR_IA32_FEATURE_CONTROL_VMXON)); auto.
Qed.

End HostEnablement.

(* ================================================================== *)
(** ** The caller's settings *)

(** C7 (as amended).  For a guest memory of at least one page, [set_cr3]
    returns INVALID_ARGS for every cr3 >= guest_memory_size - PAGE_SIZE and
    otherwise stores cr3 and returns success.  [set_entry] returns
    INVALID_ARGS for every rip >= guest_memory_size and otherwise stores rip
    and returns success; for a guest memory that is not empty,
    [set_entry (guest_memory_size - 1)] returns NO_ERROR. *)
Theorem set_cr3_set_entry_bounds (c : VmcsContext) (guest_cr3 guest_entry : Z) :
  is_u64 c.(gpas_size) -> is_u64 guest_cr3 -> is_u64 guest_entry ->
  (PAGE_SIZE <= c.(gpas_size) ->
   (c.(gpas_size) - PAGE_SIZE <= guest_cr3 ->
    set_cr3 guest_cr3 c = (ERR_INVALID_ARGS, c)) /\
   (guest_cr3 < c.(gpas_size) - PAGE_SIZE ->
    set_cr3 guest_cr3 c =
      (NO_ERROR, mkVmcsContext c.(gpas_size) guest_cr3 c.(entry_)))) /\
  (c.(gpas_size) <= guest_entry ->
   set_entry guest_entry c = (ERR_INVALID_ARGS, c)) /\
  (guest_entry < c.(gpas_size) ->
   set_entry guest_entry c =
     (NO_ERROR, mkVmcsContext c.(gpas_size) c.(cr3_) guest_entry)) /\
  (1 <= c.(gpas_size) ->
   fst (set_entry (c.(gpas_size) - 1) c) = NO_ERROR).
Proof.
  unfold is_u64. intros Hs Hc He.
  split; [ intros Hp; unfold PAGE_SIZE in Hp; split | repeat split ].
  - intros Hge. unfold set_cr3, PAGE_SIZE in *.
    rewrite wrap64_id by (unfold is_u64; lia).
    destruct (Z.leb_spec (gpas_size c - 4096) guest_cr3); [ reflexivity | lia ].
  - intros Hlt. unfold set_cr3, PAGE_SIZE in *.
    rewrite wrap64_id by (unfold is_u64; lia).
    destruct (Z.leb_spec (gpas_size c - 4096) guest_cr3); [ lia | reflexivity ].
  - intros Hge. unfold set_entry.
    destruct (Z.leb_spec (gpas_size c) guest_entry); [ reflexivity | lia ].
  - intros Hlt. unfold set_entry.
    destruct (Z.leb_spec (gpas_size c) guest_entry); [ lia | reflexivity ].
  - intros Hp. unfold set_entry.
    destruct (Z.leb_spec (gpas_size c) (gpas_size c - 1)); [ lia | reflexivity ].
Qed.

(* ================================================================== *)
(** ** Exit dispatcher *)

Lemma store_u32_low (slot val : Z) : store_u32 slot val mod 2 ^ 32 = val mod 2 ^ 32.
Proof.
  rewrite <- !wrap32_mod. unfold store_u32.
  apply Z.bits_inj'; intros i Hi.
  rewrite !testbit_wrap32, Z.lor_spec, Z.land_spec, testbit_wrap32 by lia.
  destruct (Z.ltb_spec i 32); [ | rewrite !andb_false_r; reflexivity ].
  rewrite Z.shiftl_spec_low by lia.
  destruct (Z.testbit slot i), (Z.testbit val i); reflexivity.
Qed.

Lemma store_u32_high (slot val : Z) :
  is_u64 slot -> store_u32 slot val / 2 ^ 32 = slot / 2 ^ 32.
Proof.
  intros Hs. rewrite <- !Z.shiftr_div_pow2 by lia. unfold store_u32.
  apply Z.bits_inj'; intros i Hi.
  rewrite !Z.shiftr_spec, Z.lor_spec, Z.land_spec, testbit_wrap32 by lia.
  replace (i + 32 <? 32) with false by (symmetry; apply Z.ltb_ge; lia).
  rewrite andb_false_r, orb_false_r.
  rewrite Z.shiftl_spec by lia. replace (i + 32 - 32) with i by lia.
  change mask32 with (Z.ones 32). rewrite Z.testbit_ones_nonneg by lia.
  destruct (Z.ltb_spec i 32); [ apply andb_true_r | ].
  rewrite andb_false_r.
  rewrite <- (wrap64_id slot Hs). unfold wrap64. change mask64 with (Z.ones 64).
  rewrite Z.land_spec, Z.testbit_ones_nonneg by lia.
  replace (i + 32 <? 64) with false by (symmetry; apply Z.ltb_ge; lia).
  rewrite andb_false_r. reflexivity.
Qed.

Section ExitDispatcher.

Context `{Platform}.

(** The snapshot [ExitInfo::ExitInfo()] takes of a state. *)
Lemma ExitInfo_ctor_reads (s : State) :
  exists exit_info,
    ExitInfo_ctor s = Some (exit_info, s) /\
    exit_info.(exit_reason) =
      ExitReason_of (wrap32 (s.(vmcs) (F32 VmcsField32.EXIT_REASON))) /\
    exit_info.(exit_qualification) = s.(vmcs) (FXX VmcsFieldXX.EXIT_QUALIFICATION) /\
    exit_info.(instruction_length) =
      wrap32 (s.(vmcs) (F32 VmcsField32.INSTRUCTION_LENGTH)) /\
    exit_info.(guest_rip) = s.(vmcs) (FXX VmcsFieldXX.GUEST_RIP).
Proof.
  eexists. split; [ reflexivity | ]. cbn. repeat split.
Qed.

Lemma next_rip_writes (exit_info : ExitInfo) (s : State) :
  let next := wrap64 (exit_info.(guest_rip) + exit_info.(instruction_length)) in
  next_rip exit_info s =
    Some (tt, add_event (EvVmwrite (FXX VmcsFieldXX.GUEST_RIP) next)
                (set_vmcs (fun f => if Field_eq_dec f (FXX VmcsFieldXX.GUEST_RIP)
                                    then next else s.(vmcs) f) s)).
Proof.
  cbn zeta. unfold next_rip, vmcs_writeXX, vmwrite, modify.
  rewrite wrap64_wrap64. reflexivity.
Qed.

(** CPUID leaf 0: what [handle_cpuid] leaves. *)
Lemma handle_cpuid_leaf_0 (exit_info : ExitInfo) (s : State) (a b c d : Z) :
  insn_cpuid 0 = (a, b, c, d) ->
  s.(vmx_state_).(guest_state).(rax) = 0 ->
  let g := s.(vmx_state_).(guest_state) in
  let next := wrap64 (exit_info.(guest_rip) + exit_info.(instruction_length)) in
  exists s',
    handle_cpuid exit_info s = Some (NO_ERROR, s') /\
    s'.(vmcs) (FXX VmcsFieldXX.GUEST_RIP) = next /\
    s'.(trace) =
      EvCpuid 0 :: EvVmwrite (FXX VmcsFieldXX.GUEST_RIP) next :: s.(trace) /\
    s'.(vmx_state_).(guest_state) =
      mkGuestState 0 (store_u32 g.(rbx) b) (store_u32 g.(rcx) c)
                     (store_u32 g.(rdx) d).
Proof.
  intros Hc Hr. cbn zeta.
  unfold handle_cpuid. unfold bind at 1. unfold gets at 1.
  rewrite Hr. change (0 =? X86_CPUID_BASE) with true. cbn iota.
  unfold bind at 1. rewrite next_rip_writes. cbn zeta.
  unfold bind at 1. unfold cpuid at 1. change X86_CPUID_BASE with 0. rewrite Hc.
  eexists. split; [ reflexivity | ].
  cbn. repeat split.
Qed.

(** C2 (as amended).  On a VM exit with reason CPUID: if the guest's rax
    is 0 the handler advances guest RIP to guest_rip + instruction_length
    (in 64 bits), executes the host CPUID for leaf 0, writes the result
    registers into the saved guest state, sets guest rax to 0 and returns
    success; for any other value of rax it returns NOT_SUPPORTED and leaves
    the machine as it was, guest RIP included. *)
Theorem vmexit_handler_cpuid (s : State) (a b c d : Z) :
  ExitReason_of (wrap32 (s.(vmcs) (F32 VmcsField32.EXIT_REASON))) = ExitReason.CPUID ->
  insn_cpuid 0 = (a, b, c, d) ->
  let g := s.(vmx_state_).(guest_state) in
  let rip := s.(vmcs) (FXX VmcsFieldXX.GUEST_RIP) in
  let len := wrap32 (s.(vmcs) (F32 VmcsField32.INSTRUCTION_LENGTH)) in
  (g.(rax) = 0 ->
   exists s',
     vmexit_handler s = Some (NO_ERROR, s') /\
     s'.(vmcs) (FXX VmcsFieldXX.GUEST_RIP) = (rip + len) mod 2 ^ 64 /\
     s'.(trace) =
       EvCpuid 0
       :: EvVmwrite (FXX VmcsFieldXX.GUEST_RIP) ((rip + len) mod 2 ^ 64)
       :: s.(trace) /\
     s'.(vmx_state_).(guest_state) =
       mkGuestState 0 (store_u32 g.(rbx) b) (store_u32 g.(rcx) c)
                      (store_u32 g.(rdx) d)) /\
  (g.(rax) <> 0 ->
   vmexit_handler s = Some (ERR_NOT_SUPPORTED, s)).
Proof.
  intros Hreason Hc. cbn zeta.
  destruct (ExitInfo_ctor_reads s) as (ei & E & Hr & _ & Hl & Hrip).
  unfold vmexit_handler, bind. rewrite E, Hr, Hreason.
  split.
  - intros Hrax.
    destruct (handle_cpuid_leaf_0 ei s a b c d Hc Hrax) as (s' & E' & Hv & Ht & Hg).
    cbn zeta in Hv, Ht. rewrite Hl, Hrip, wrap64_mod in Hv, Ht.
    exists s'. auto.
  - intros Hrax. unfold handle_cpuid, bind, gets.
    change X86_CPUID_BASE with 0.
    destruct (Z.eqb_spec (rax (guest_state (vmx_state_ s))) 0); [ contradiction | ].
    reflexivity.
Qed.

(** C10.  On a CPUID exit with guest rax equal to 0 the handler overwrites
    only the low 32 bits of the saved guest rbx, rcx and rdx with the
    outputs of the host CPUID leaf 0, the upper 32 bits of the three keep
    the values they had before the exit, and guest rax is 0 in all of its
    64 bits. *)
Theorem handle_cpuid_halves (exit_info : ExitInfo) (s : State) (a b c d : Z) :
  insn_cpuid 0 = (a, b, c, d) ->
  let g := s.(vmx_state_).(guest_state) in
  g.(rax) = 0 ->
  is_u64 g.(rbx) -> is_u64 g.(rcx) -> is_u64 g.(rdx) ->
  exists s',
    handle_cpuid exit_info s = Some (NO_ERROR, s') /\
    let g' := s'.(vmx_state_).(guest_state) in
    g'.(rax) = 0 /\
    g'.(rbx) mod 2 ^ 32 = b mod 2 ^ 32 /\ g'.(rbx) / 2 ^ 32 = g.(rbx) / 2 ^ 32 /\
    g'.(rcx) mod 2 ^ 32 = c mod 2 ^ 32 /\ g'.(rcx) / 2 ^ 32 = g.(rcx) / 2 ^ 32 /\
    g'.(rdx) mod 2 ^ 32 = d mod 2 ^ 32 /\ g'.(rdx) / 2 ^ 32 = g.(rdx) / 2 ^ 32.
Proof.
  intros Hc. cbn zeta. intros Hrax Hb Hcx Hd.
  destruct (handle_cpuid_leaf_0 exit_info s a b c d Hc Hrax) as (s' & E' & _ & _ & Hg).
  exists s'. split; [ exact E' | ].
  rewrite Hg. cbn [rax rbx rcx rdx].
  rewrite !store_u32_low, !store_u32_high by assumption.
  repeat split.
Qed.

Lemma bytes_of_length (slot len : Z) :
  length (bytes_of slot len) = Z.to_nat len.
Proof. unfold bytes_of. rewrite length_map, length_seq. reflexivity. Qed.

Lemma nth_map_seq {A : Type} (f : nat -> A) (n i : nat) (d : A) :
  (i < n)%nat -> nth i (map f (seq 0 n)) d = f i.
Proof.
  intros Hi.
  rewrite (nth_indep _ d (f 0%nat)) by (rewrite length_map, length_seq; exact Hi).
  rewrite map_nth, seq_nth by exact Hi. reflexivity.
Qed.

Lemma bytes_of_nth (slot len : Z) (i : nat) :
  (i < Z.to_nat len)%nat ->
  nth i (bytes_of slot len) 0 = (slot / 2 ^ (8 * Z.of_nat i)) mod 2 ^ 8.
Proof.
  intros Hi. unfold bytes_of. rewrite nth_map_seq by exact Hi.
  change 255 with (Z.ones 8). rewrite Z.land_ones, Z.shiftr_div_pow2 by lia.
  reflexivity.
Qed.

(** C3.  On a VM exit with reason IO_INSTRUCTION, in a build with the serial
    FIFO (WITH_LIB_MAGENTA), the handler first advances guest RIP.  If the
    decoded IoInfo has input, string or repeat set, or a port other than
    0x3F8, it returns success and writes nothing to the serial FIFO.
    Otherwise it writes the low [bytes] bytes of the guest's rax into the
    serial FIFO, once, and returns the status of that write. *)
Theorem vmexit_handler_io (s : State) :
  WITH_LIB_MAGENTA = true ->
  ExitReason_of (wrap32 (s.(vmcs) (F32 VmcsField32.EXIT_REASON))) =
    ExitReason.IO_INSTRUCTION ->
  let g := s.(vmx_state_).(guest_state) in
  let rip := s.(vmcs) (FXX VmcsFieldXX.GUEST_RIP) in
  let len := wrap32 (s.(vmcs) (F32 VmcsField32.INSTRUCTION_LENGTH)) in
  let io_info := IoInfo.IoInfo (s.(vmcs) (FXX VmcsFieldXX.EXIT_QUALIFICATION)) in
  let data := bytes_of g.(rax) io_info.(IoInfo.bytes) in
  exists s1,
    vmwrite (FXX VmcsFieldXX.GUEST_RIP) ((rip + len) mod 2 ^ 64) s = Some (tt, s1) /\
    (io_info.(IoInfo.input) = true \/ io_info.(IoInfo.string) = true \/
     io_info.(IoInfo.repeat) = true \/ io_info.(IoInfo.port) <> 0x3F8 ->
     vmexit_handler s = Some (NO_ERROR, s1) /\
     s1.(serial_fifo) = s.(serial_fifo)) /\
    (io_info.(IoInfo.input) = false -> io_info.(IoInfo.string) = false ->
     io_info.(IoInfo.repeat) = false -> io_info.(IoInfo.port) = 0x3F8 ->
     vmexit_handler s =
       Some (fst (fst (FifoDispatcher_Write s.(serial_fifo) data)),
             add_event (EvFifoWrite data)
               (set_serial_fifo (snd (FifoDispatcher_Write s.(serial_fifo) data)) s1)) /\
     length data = Z.to_nat io_info.(IoInfo.bytes) /\
     forall i, (i < Z.to_nat io_info.(IoInfo.bytes))%nat ->
       nth i data 0 = (g.(rax) / 2 ^ (8 * Z.of_nat i)) mod 2 ^ 8).
Proof.
  intros Hbuild Hreason. cbn zeta.
  destruct (ExitInfo_ctor_reads s) as (ei & E & Hr & Hq & Hl & Hrip).
  pose proof (next_rip_writes ei s) as Hn. cbn zeta in Hn.
  rewrite Hl, Hrip, wrap64_mod in Hn.
  eexists. split; [ reflexivity | ].
  assert (Hh : forall r, vmexit_handler s = r <->
    (let io_info := IoInfo.IoInfo (vmcs s (FXX VmcsFieldXX.EXIT_QUALIFICATION)) in
     if io_info.(IoInfo.input) || io_info.(IoInfo.string) ||
        io_info.(IoInfo.repeat) || negb (io_info.(IoInfo.port) =? 0x3f8)
     then ret NO_ERROR
     else
       g <- gets (fun s => s.(vmx_state_).(guest_state));;
       serial_fifo_Write (bytes_of g.(rax) io_info.(IoInfo.bytes)))
      (add_event
         (EvVmwrite (FXX VmcsFieldXX.GUEST_RIP)
            ((vmcs s (FXX VmcsFieldXX.GUEST_RIP) +
              wrap32 (vmcs s (F32 VmcsField32.INSTRUCTION_LENGTH))) mod 2 ^ 64))
         (set_vmcs
            (fun f => if Field_eq_dec f (FXX VmcsFieldXX.GUEST_RIP)
                      then (vmcs s (FXX VmcsFieldXX.GUEST_RIP) +
                            wrap32 (vmcs s (F32 VmcsField32.INSTRUCTION_LENGTH)))
                           mod 2 ^ 64
                      else vmcs s f) s)) = r).
  { intros r. unfold vmexit_handler. unfold bind at 1. rewrite E, Hr, Hreason.
    unfold bind at 1. rewrite Hn, Hbuild, Hq. reflexivity. }
  cbn zeta in Hh.
  split.
  - intros Hcase. rewrite Hh.
    assert (Hb : IoInfo.input (IoInfo.IoInfo (vmcs s (FXX VmcsFieldXX.EXIT_QUALIFICATION)))
                 || IoInfo.string (IoInfo.IoInfo (vmcs s (FXX VmcsFieldXX.EXIT_QUALIFICATION)))
                 || IoInfo.repeat (IoInfo.IoInfo (vmcs s (FXX VmcsFieldXX.EXIT_QUALIFICATION)))
                 || negb (IoInfo.port (IoInfo.IoInfo (vmcs s (FXX VmcsFieldXX.EXIT_QUALIFICATION)))
                          =? 0x3f8) = true).
    { destruct Hcase as [-> | [-> | [-> | Hp]]];
        rewrite ?orb_true_r; try reflexivity.
      apply Z.eqb_neq in Hp. rewrite Hp. rewrite ?orb_true_r. reflexivity. }
    rewrite Hb. split; reflexivity.
  - intros E1 E2 E3 E4.
    split; [ | split; [ apply bytes_of_length | intros i Hi; apply bytes_of_nth; exact Hi ] ].
    rewrite Hh, E1, E2, E3, E4. cbn [orb negb Z.eqb Pos.eqb].
    unfold bind, gets, serial_fifo_Write.
    cbn [vmx_state_ set_vmcs add_event set_trace serial_fifo].
    destruct (FifoDispatcher_Write _ _) as [[status actual] fifo].
    reflexivity.
Qed.

End ExitDispatcher.

(* ================================================================== *)
(** ** Quiet computations *)

(** A projection of the state that a setter does not touch. *)
Ltac unchanged := solve [ reflexivity | intros ?; repeat split ].

Section Quiet.

Context `{Platform}.

Lemma quiet_ret {A : Type} (a : A) : quiet (ret a).
Proof.
  intros s a' s' E. injection E as <- <-.
  repeat split. exists []. split; [ reflexivity | constructor ].
Qed.

Lemma quiet_gets {A : Type} (f : State -> A) : quiet (gets f).
Proof.
  intros s a' s' E. injection E as <- <-.
  repeat split. exists []. split; [ reflexivity | constructor ].
Qed.

Lemma quiet_DEBUG_ASSERT (b : bool) : quiet (DEBUG_ASSERT (S := State) b).
Proof.
  intros s a' s' E. unfold DEBUG_ASSERT in E. destruct b; [ | discriminate E ].
  injection E as <- <-.
  repeat split. exists []. split; [ reflexivity | constructor ].
Qed.

Lemma quiet_bind {A B : Type} (m : M A) (k : A -> M B) :
  quiet m -> (forall a, quiet (k a)) -> quiet (bind m k).
Proof.
  intros Hm Hk s b s' E. unfold bind in E.
  destruct (m s) as [[a s1] | ] eqn:E1; [ | discriminate E ].
  destruct (Hm _ _ _ E1) as (R1 & I1 & (G1a & G1b & G1c & G1d) & evs1 & T1 & P1).
  destruct (Hk a _ _ _ E) as (R2 & I2 & (G2a & G2b & G2c & G2d) & evs2 & T2 & P2).
  split; [ congruence | ]. split; [ congruence | ].
  split; [ repeat split; congruence | ].
  exists (evs2 ++ evs1). split.
  - rewrite T2, T1. apply app_assoc.
  - apply Forall_app. split; assumption.
Qed.

(** A state change that adds no event. *)
Lemma quiet_modify_silent (f : State -> State) :
  (forall s, (f s).(do_resume_) = s.(do_resume_)) ->
  (forall s, (f s).(ints_disabled) = s.(ints_disabled)) ->
  (forall s, same_pages s (f s)) ->
  (forall s, (f s).(trace) = s.(trace)) ->
  quiet (modify f).
Proof.
  intros Hr Hi Hg Ht s a s' E. injection E as _ <-.
  split; [ apply Hr | ]. split; [ apply Hi | ]. split; [ apply Hg | ].
  exists []. split; [ apply Ht | constructor ].
Qed.

(** A state change that adds one plain event. *)
Lemma quiet_modify_event (e : Event) (f : State -> State) :
  plain e ->
  (forall s, (f s).(do_resume_) = s.(do_resume_)) ->
  (forall s, (f s).(ints_disabled) = s.(ints_disabled)) ->
  (forall s, same_pages s (f s)) ->
  (forall s, (f s).(trace) = s.(trace)) ->
  quiet (modify (fun s => add_event e (f s))).
Proof.
  intros He Hr Hi Hg Ht s a s' E. injection E as _ <-.
  split; [ apply Hr | ]. split; [ apply Hi | ]. split; [ apply Hg | ].
  exists [e]. split; [ cbn; rewrite Ht; reflexivity | ].
  constructor; [ exact He | constructor ].
Qed.

Lemma quiet_read_msr (m : Msr) : quiet (read_msr m).
Proof. apply quiet_gets. Qed.

Lemma quiet_vmread (f : Field) : quiet (vmread f).
Proof. apply quiet_gets. Qed.

Lemma quiet_vmwrite (f : Field) (v : Z) : quiet (vmwrite f v).
Proof.
  unfold vmwrite.
  apply (quiet_modify_event (EvVmwrite f v)
           (fun s => set_vmcs (fun f' => if Field_eq_dec f' f then v else vmcs s f') s));
    [ exact I | unchanged .. ].
Qed.

Lemma quiet_cpuid (sel : Z) : quiet (cpuid sel).
Proof.
  intros s a s' E. injection E as <- <-.
  repeat split. exists [EvCpuid sel]. split; [ reflexivity | ].
  constructor; [ exact I | constructor ].
Qed.

Lemma quiet_serial_fifo_Write (data : list Z) : quiet (serial_fifo_Write data).
Proof.
  intros s a s' E. unfold serial_fifo_Write in E.
  destruct (FifoDispatcher_Write _ _) as [[status actual] fifo].
  injection E as <- <-.
  repeat split. exists [EvFifoWrite data]. split; [ reflexivity | ].
  constructor; [ exact I | constructor ].
Qed.

Lemma quiet_modify_guest_state (f : GuestState -> GuestState) :
  quiet (modify_guest_state f).
Proof. apply quiet_modify_silent; unchanged. Qed.

End Quiet.

Create HintDb quiet.

#[export] Hint Resolve quiet_ret quiet_gets quiet_DEBUG_ASSERT quiet_read_msr
  quiet_vmread quiet_vmwrite quiet_cpuid quiet_serial_fifo_Write
  quiet_modify_guest_state : quiet.

(** One step through a computation: a known quiet piece, a sequence, or a
    branch. *)
Ltac quiet_step :=
  first
    [ solve [ auto 2 with quiet nocore ]
    | apply quiet_bind; [ | intros ? ]
    | match goal with
      | |- quiet (if ?b then _ else _) => destruct b
      | |- quiet (match ?x with _ => _ end) => destruct x
      end ].

Ltac quiet_run := cbv zeta; repeat quiet_step.

Section QuietCode.

Context `{Platform}.

Lemma quiet_vmcs_write16 (f : VmcsField16.t) (v : Z) : quiet (vmcs_write16 f v).
Proof. apply quiet_vmwrite. Qed.

Lemma quiet_vmcs_write32 (f : VmcsField32.t) (v : Z) : quiet (vmcs_write32 f v).
Proof. apply quiet_vmwrite. Qed.

Lemma quiet_vmcs_write64 (f : VmcsField64.t) (v : Z) : quiet (vmcs_write64 f v).
Proof. apply quiet_vmwrite. Qed.

Lemma quiet_vmcs_writeXX (f : VmcsFieldXX.t) (v : Z) : quiet (vmcs_writeXX f v).
Proof. apply quiet_vmwrite. Qed.

Lemma quiet_vmcs_read16 (f : VmcsField16.t) : quiet (vmcs_read16 f).
Proof. unfold vmcs_read16. quiet_run. Qed.

Lemma quiet_vmcs_read32 (f : VmcsField32.t) : quiet (vmcs_read32 f).
Proof. unfold vmcs_read32. quiet_run. Qed.

Lemma quiet_vmcs_read64 (f : VmcsField64.t) : quiet (vmcs_read64 f).
Proof. apply quiet_vmread. Qed.

Lemma quiet_vmcs_readXX (f : VmcsFieldXX.t) : quiet (vmcs_readXX f).
Proof. apply quiet_vmread. Qed.

Lemma quiet_x86_get_cr0 : quiet x86_get_cr0.
Proof. apply quiet_gets. Qed.

Lemma quiet_x86_get_cr3 : quiet x86_get_cr3.
Proof. apply quiet_gets. Qed.

Lemma quiet_x86_get_cr4 : quiet x86_get_cr4.
Proof. apply quiet_gets. Qed.

Lemma quiet_PhysicalAddress (p : VmxPage) : quiet (PhysicalAddress p).
Proof. unfold PhysicalAddress. quiet_run. Qed.

Lemma quiet_VirtualAddress (p : VmxPage) : quiet (VirtualAddress p).
Proof. unfold VirtualAddress. quiet_run. Qed.

Lemma quiet_cr_is_invalid (cr_value : Z) (fixed0_msr fixed1_msr : Msr) :
  quiet (cr_is_invalid cr_value fixed0_msr fixed1_msr).
Proof. unfold cr_is_invalid. quiet_run. Qed.

Lemma quiet_ExitInfo_ctor : quiet ExitInfo_ctor.
Proof.
  unfold ExitInfo_ctor.
  repeat first [ apply quiet_ret | apply quiet_vmcs_read32 | apply quiet_vmcs_read64
               | apply quiet_vmcs_readXX | apply quiet_bind; [ | intros ? ] ].
Qed.

End QuietCode.

#[export] Hint Resolve quiet_vmcs_write16 quiet_vmcs_write32 quiet_vmcs_write64
  quiet_vmcs_writeXX quiet_vmcs_read16 quiet_vmcs_read32 quiet_vmcs_read64
  quiet_vmcs_readXX quiet_x86_get_cr0 quiet_x86_get_cr3 quiet_x86_get_cr4
  quiet_PhysicalAddress quiet_VirtualAddress quiet_cr_is_invalid
  quiet_ExitInfo_ctor : quiet.

Section QuietBuilder.

Context `{Platform}.

Lemma quiet_set_vmcs_control (controls : VmcsField32.t)
    (true_msr old_msr set clear : Z) :
  quiet (set_vmcs_control controls true_msr old_msr set clear).
Proof. unfold set_vmcs_control. quiet_run. Qed.

Lemma quiet_ept_pointer (pml4_address : Z) : quiet (ept_pointer pml4_address).
Proof. unfold ept_pointer. quiet_run. Qed.

Lemma quiet_ignore_msr (page : VmxPage) (msr : Z) : quiet (ignore_msr page msr).
Proof.
  unfold ignore_msr. cbv zeta.
  repeat first [ apply quiet_VirtualAddress | apply quiet_bind; [ | intros ? ]
               | apply quiet_modify_silent; unchanged ].
Qed.

Lemma quiet_edit_msr_list (page : MsrListPage) (index msr value : Z) :
  quiet (edit_msr_list page index msr value).
Proof.
  unfold edit_msr_list.
  apply quiet_bind; [ apply quiet_DEBUG_ASSERT | intros _ ].
  destruct page;
    repeat first [ apply quiet_gets | apply quiet_VirtualAddress
                 | apply quiet_bind; [ | intros ? ]
                 | apply quiet_modify_silent; unchanged ].
Qed.

Lemma quiet_next_rip (exit_info : ExitInfo) : quiet (next_rip exit_info).
Proof. apply quiet_vmwrite. Qed.

End QuietBuilder.

#[export] Hint Resolve quiet_set_vmcs_control quiet_ept_pointer quiet_ignore_msr
  quiet_edit_msr_list quiet_next_rip : quiet.

Section QuietBodies.

Context `{Platform}.

Lemma quiet_Setup_controls : quiet Setup_controls.
Proof. unfold Setup_controls. quiet_run. Qed.

Lemma quiet_Setup_execution (pml4_address : Z) : quiet (Setup_execution pml4_address).
Proof. unfold Setup_execution. quiet_run. Qed.

Lemma quiet_Setup_host_state : quiet Setup_host_state.
Proof. unfold Setup_host_state. quiet_run. Qed.

Lemma quiet_Setup_guest_rest : quiet Setup_guest_rest.
Proof. unfold Setup_guest_rest. quiet_run. Qed.

#[local] Hint Resolve quiet_Setup_controls quiet_Setup_execution
  quiet_Setup_host_state quiet_Setup_guest_rest : quiet.

Lemma quiet_Setup_guest_state : quiet Setup_guest_state.
Proof. unfold Setup_guest_state. quiet_run. Qed.

#[local] Hint Resolve quiet_Setup_guest_state : quiet.

Lemma quiet_Setup_body (pml4_address : Z) : quiet (Setup_body pml4_address).
Proof. unfold Setup_body. quiet_run. Qed.

Lemma quiet_handle_cpuid (exit_info : ExitInfo) : quiet (handle_cpuid exit_info).
Proof.
  unfold handle_cpuid.
  apply quiet_bind; [ apply quiet_gets | intros g ].
  destruct (rax g =? X86_CPUID_BASE); [ | apply quiet_ret ].
  apply quiet_bind; [ apply quiet_next_rip | intros _ ].
  apply quiet_bind; [ apply quiet_cpuid | intros [[[a b] c] d] ].
  quiet_run.
Qed.

(** The arm for an external interrupt opens the interrupt window and
    closes it again. *)
Lemma quiet_interrupt_window :
  quiet (disabled <- arch_ints_disabled;;
         DEBUG_ASSERT disabled;;
         arch_enable_ints;;
         arch_disable_ints;;
         ret NO_ERROR).
Proof.
  intros s a s' E. unfold bind, arch_ints_disabled, gets, DEBUG_ASSERT in E.
  destruct (ints_disabled s) eqn:Hd; [ | discriminate E ].
  injection E as <- <-. cbn.
  split; [ reflexivity | ]. split; [ reflexivity | ].
  split; [ repeat split | ].
  exists [EvDisableInts; EvEnableInts]. split; [ reflexivity | ].
  repeat constructor.
Qed.

Lemma quiet_vmexit_handler : quiet vmexit_handler.
Proof.
  unfold vmexit_handler.
  apply quiet_bind; [ apply quiet_ExitInfo_ctor | intros exit_info ].
  destruct (exit_reason exit_info).
  - apply quiet_interrupt_window.
  - apply quiet_handle_cpuid.
  - quiet_run.
  - apply quiet_ret.
  - apply quiet_ret.
Qed.

Lemma quiet_Enter_prepare (context : VmcsContext) : quiet (Enter_prepare context).
Proof. unfold Enter_prepare. quiet_run. Qed.

End QuietBodies.

(* ================================================================== *)
(** ** The scoped VMCS load *)

Section ScopedLoad.

Context `{Platform}.

Lemma AutoVmcsLoad_ctor_requires (page : VmxPage) (s : State) :
  s.(ints_disabled) = true -> AutoVmcsLoad_ctor page s = None.
Proof.
  intros Hd. unfold AutoVmcsLoad_ctor, bind, arch_ints_disabled, gets, DEBUG_ASSERT.
  rewrite Hd. reflexivity.
Qed.

Lemma AutoVmcsLoad_ctor_returns (page : VmxPage) (s s1 : State) :
  AutoVmcsLoad_ctor page s = Some (tt, s1) ->
  s.(ints_disabled) = false /\
  s1.(ints_disabled) = true /\
  s1.(trace) = EvVmptrld page.(pa_) true :: EvDisableInts :: s.(trace) /\
  s1.(do_resume_) = s.(do_resume_) /\
  s1.(vmcs) = s.(vmcs) /\
  s1.(page_) = s.(page_).
Proof.
  unfold AutoVmcsLoad_ctor, bind, arch_ints_disabled, gets, DEBUG_ASSERT,
    arch_disable_ints, modify, PhysicalAddress, vmptrld, ret.
  destruct (ints_disabled s); cbn [negb]; [ discriminate | ].
  destruct (pa_ page =? 0); cbn [negb]; [ discriminate | ].
  cbn. destruct (insn_vmptrld (world s) (pa_ page)) as [err w].
  destruct err; cbn; [ discriminate | ].
  intros E. injection E as <-. cbn. repeat split.
Qed.

Lemma AutoVmcsLoad_dtor_returns (s s' : State) :
  AutoVmcsLoad_dtor s = Some (tt, s') ->
  s.(ints_disabled) = true /\
  s'.(ints_disabled) = false /\
  s'.(trace) = EvEnableInts :: s.(trace) /\
  s'.(do_resume_) = s.(do_resume_).
Proof.
  unfold AutoVmcsLoad_dtor, bind, arch_ints_disabled, gets, DEBUG_ASSERT,
    arch_enable_ints, modify.
  destruct (ints_disabled s); [ | discriminate ].
  intros E. injection E as <-. cbn. repeat split.
Qed.

(** A block under the scoped load that returns has run its three parts. *)
Lemma AutoVmcsLoad_stages {A : Type} (page : VmxPage) (body : M A)
    (s s' : State) (r : A) :
  AutoVmcsLoad page body s = Some (r, s') ->
  exists s1 s2,
    AutoVmcsLoad_ctor page s = Some (tt, s1) /\
    body s1 = Some (r, s2) /\
    AutoVmcsLoad_dtor s2 = Some (tt, s').
Proof.
  unfold AutoVmcsLoad, bind, ret. intros E.
  destruct (AutoVmcsLoad_ctor page s) as [[[] s1] | ] eqn:E1; [ | discriminate E ].
  destruct (body s1) as [[r' s2] | ] eqn:E2; [ | discriminate E ].
  destruct (AutoVmcsLoad_dtor s2) as [[[] s3] | ] eqn:E3; [ | discriminate E ].
  injection E as <- <-. exists s1, s2. auto.
Qed.

Lemma plain_vmptrld_ints_off (evs : list Event) :
  Forall plain evs -> Forall vmptrld_ints_off evs.
Proof.
  apply Forall_impl. intros [] P; cbn in *; solve [ exact I | contradiction ].
Qed.

(** The events of a block under the scoped load whose body is quiet. *)
Lemma AutoVmcsLoad_trace {A : Type} (page : VmxPage) (body : M A)
    (s s' : State) (r : A) :
  quiet body ->
  AutoVmcsLoad page body s = Some (r, s') ->
  s.(ints_disabled) = false /\
  s'.(ints_disabled) = false /\
  s'.(do_resume_) = s.(do_resume_) /\
  exists evs,
    s'.(trace) =
      (EvEnableInts :: evs ++ [EvVmptrld page.(pa_) true; EvDisableInts]) ++ s.(trace) /\
    Forall plain evs.
Proof.
  intros Hq E.
  destruct (AutoVmcsLoad_stages _ _ _ _ _ E) as (s1 & s2 & E1 & E2 & E3).
  destruct (AutoVmcsLoad_ctor_returns _ _ _ E1) as (I0 & I1 & T1 & R1 & _ & _).
  destruct (Hq _ _ _ E2) as (R2 & I2 & _ & evs & T2 & P2).
  destruct (AutoVmcsLoad_dtor_returns _ _ E3) as (_ & I3 & T3 & R3).
  split; [ exact I0 | ]. split; [ exact I3 | ]. split; [ congruence | ].
  exists evs. split; [ | exact P2 ].
  rewrite T3, T2, T1. cbn. rewrite <- app_assoc. reflexivity.
Qed.

End ScopedLoad.

(* ================================================================== *)
(** ** Guest entry *)

Section GuestEntry.

Context `{Platform}.

Lemma quiet_vmclear (pa : Z) : quiet (vmclear pa).
Proof.
  intros s a s' E. unfold vmclear in E.
  destruct (insn_vmclear (world s) pa) as [err w].
  injection E as <- <-.
  repeat split. exists [EvVmclear pa]. split; [ reflexivity | ].
  constructor; [ exact I | constructor ].
Qed.

Lemma quiet_Clear : quiet Clear.
Proof.
  unfold Clear.
  apply quiet_bind; [ apply quiet_gets | intros page ].
  destruct (IsAllocated page); [ | apply quiet_ret ].
  apply quiet_bind; [ apply quiet_PhysicalAddress | intros pa ].
  apply quiet_vmclear.
Qed.

Lemma vmx_enter_returns (resume : bool) (s s' : State) (status : status_t) :
  vmx_enter resume s = Some (status, s') ->
  s'.(ints_disabled) = s.(ints_disabled) /\
  s'.(do_resume_) = s.(do_resume_) /\
  s'.(trace) = EvVmxEnter resume status :: s.(trace).
Proof.
  unfold vmx_enter.
  destruct (asm_vmx_enter _ _ _ _) as [[[st w] vs] v].
  intros E. injection E as <- <-. repeat split.
Qed.

Lemma status_eqb_eq (a b : status_t) : status_eqb a b = true <-> a = b.
Proof. destruct a, b; cbn; split; congruence. Qed.

(** The entry and what follows it: one entry event, then plain events. *)
Lemma Enter_run_returns (s s' : State) (status : status_t) :
  Enter_run s = Some (status, s') ->
  exists entry_status evs,
    s'.(ints_disabled) = s.(ints_disabled) /\
    s'.(do_resume_) = s.(do_resume_) || status_eqb entry_status NO_ERROR /\
    s'.(trace) = evs ++ EvVmxEnter s.(do_resume_) entry_status :: s.(trace) /\
    Forall plain evs /\
    (status = NO_ERROR -> entry_status = NO_ERROR) /\
    (entry_status <> NO_ERROR -> status = entry_status /\ evs = []).
Proof.
  unfold Enter_run. unfold bind at 1. unfold gets at 1.
  unfold bind at 1.
  destruct (vmx_enter (do_resume_ s) s) as [[entry_status s1] | ] eqn:E1;
    [ | discriminate ].
  destruct (vmx_enter_returns _ _ _ _ E1) as (I1 & R1 & T1).
  intros E2. exists entry_status.
  destruct (status_eqb entry_status NO_ERROR) eqn:Es; cbn [negb] in E2.
  - apply status_eqb_eq in Es. subst entry_status.
    unfold bind, modify in E2.
    destruct (quiet_vmexit_handler _ _ _ E2) as (R2 & I2 & _ & evs & T2 & P2).
    cbn in R2, I2, T2.
    exists evs. rewrite R2, I2, T2, T1, I1, orb_true_r.
    repeat split; solve [ exact P2 | congruence ].
  - unfold bind, vmcs_read32, vmread, gets, ret, bind in E2.
    injection E2 as <- <-.
    exists []. rewrite R1, I1, T1, orb_false_r.
    repeat split; [ constructor | ].
    intros ->. discriminate Es.
Qed.

(** What [Enter] has programmed when the guest is entered. *)
Lemma Enter_prepare_returns (context : VmcsContext) (s s' : State) :
  Enter_prepare context s = Some (tt, s') ->
  let host_fs := wrap64 (s.(msrs) X86_MSR_IA32_FS_BASE) in
  let host_cr3 := wrap64 s.(cr3) in
  (s.(do_resume_) = false ->
   s'.(vmcs) (FXX VmcsFieldXX.GUEST_CR3) = wrap64 context.(cr3_) /\
   s'.(vmcs) (FXX VmcsFieldXX.GUEST_RIP) = wrap64 context.(entry_) /\
   s'.(trace) =
     EvVmwrite (FXX VmcsFieldXX.GUEST_RIP) (wrap64 context.(entry_))
     :: EvVmwrite (FXX VmcsFieldXX.GUEST_CR3) (wrap64 context.(cr3_))
     :: EvVmwrite (FXX VmcsFieldXX.HOST_CR3) host_cr3
     :: EvVmwrite (FXX VmcsFieldXX.HOST_FS_BASE) host_fs
     :: s.(trace)) /\
  (s.(do_resume_) = true ->
   s'.(vmcs) (FXX VmcsFieldXX.GUEST_CR3) = s.(vmcs) (FXX VmcsFieldXX.GUEST_CR3) /\
   s'.(vmcs) (FXX VmcsFieldXX.GUEST_RIP) = s.(vmcs) (FXX VmcsFieldXX.GUEST_RIP) /\
   s'.(trace) =
     EvVmwrite (FXX VmcsFieldXX.HOST_CR3) host_cr3
     :: EvVmwrite (FXX VmcsFieldXX.HOST_FS_BASE) host_fs
     :: s.(trace)).
Proof.
  cbv zeta.
  unfold Enter_prepare, bind, read_msr, x86_get_cr3, gets, vmcs_writeXX, vmwrite,
    modify, edit_msr_list, VirtualAddress, DEBUG_ASSERT, ret.
  cbn.
  destruct (pa_ (host_msr_page_ s) =? 0); cbn [negb]; unfold bind, modify;
    [ discriminate | ].
  cbn.
  destruct (do_resume_ s); intros E; injection E as <-; cbn;
    split; intros D; try discriminate D; repeat split.
Qed.

End GuestEntry.

(* ================================================================== *)
(** ** No assertion fails *)

Section Runs.

Context `{Platform}.

Lemma in_scope_quiet {A : Type} (m : M A) (s s' : State) (a : A) :
  quiet m -> m s = Some (a, s') -> in_scope s -> in_scope s'.
Proof.
  intros Hq E (I0 & B & Hh & G).
  destruct (Hq _ _ _ E) as (_ & I1 & (_ & Gb & Gh & Gg) & _).
  unfold in_scope. rewrite I1, Gb, Gh, Gg. auto.
Qed.

Lemma runs_weaken {A : Type} (m : M A) (Q R : A -> Prop) :
  runs m Q -> (forall a, Q a -> R a) -> runs m R.
Proof.
  intros Hm HQ s Hs. destruct (Hm s Hs) as (a & s' & E & Ha).
  exists a, s'. auto.
Qed.

Lemma runs_bind {A B : Type} (m : M A) (k : A -> M B) (Q : A -> Prop) (R : B -> Prop) :
  quiet m -> runs m Q -> (forall a, Q a -> runs (k a) R) -> runs (bind m k) R.
Proof.
  intros Hq Hm Hk s Hs.
  destruct (Hm s Hs) as (a & s1 & E1 & Ha).
  destruct (Hk a Ha s1 (in_scope_quiet _ _ _ _ Hq E1 Hs)) as (b & s2 & E2 & Hb).
  exists b, s2. unfold bind. rewrite E1. auto.
Qed.

Lemma runs_ret {A : Type} (a : A) : runs (ret a) (fun _ => True).
Proof. intros s _. exists a, s. auto. Qed.

Lemma runs_gets {A : Type} (f : State -> A) : runs (gets f) (fun _ => True).
Proof. intros s _. exists (f s), s. auto. Qed.

Lemma runs_modify (f : State -> State) : runs (modify f) (fun _ => True).
Proof. intros s _. exists tt, (f s). auto. Qed.

Lemma runs_DEBUG_ASSERT (b : bool) :
  b = true -> runs (DEBUG_ASSERT (S := State) b) (fun _ => True).
Proof. intros -> s _. exists tt, s. auto. Qed.

Lemma runs_msr_bitmaps_page_ : runs (gets msr_bitmaps_page_) (fun p => pa_ p <> 0).
Proof. intros s (_ & B & _). exists (msr_bitmaps_page_ s), s. auto. Qed.

Lemma runs_host_msr_page_ : runs (gets host_msr_page_) (fun p => pa_ p <> 0).
Proof. intros s (_ & _ & Hh & _). exists (host_msr_page_ s), s. auto. Qed.

Lemma runs_guest_msr_page_ : runs (gets guest_msr_page_) (fun p => pa_ p <> 0).
Proof. intros s (_ & _ & _ & G). exists (guest_msr_page_ s), s. auto. Qed.

Lemma runs_PhysicalAddress (p : VmxPage) :
  pa_ p <> 0 -> runs (PhysicalAddress p) (fun _ => True).
Proof.
  intros Hp s _. unfold PhysicalAddress, bind, DEBUG_ASSERT, ret.
  apply Z.eqb_neq in Hp. rewrite Hp. cbn. eauto.
Qed.

Lemma runs_VirtualAddress (p : VmxPage) :
  pa_ p <> 0 -> runs (VirtualAddress p) (fun _ => True).
Proof.
  intros Hp s _. unfold VirtualAddress, DEBUG_ASSERT.
  apply Z.eqb_neq in Hp. rewrite Hp. cbn. eauto.
Qed.

Lemma runs_read_msr (m : Msr) : runs (read_msr m) (fun _ => True).
Proof. apply runs_gets. Qed.

Lemma runs_vmread (f : Field) : runs (vmread f) (fun _ => True).
Proof. apply runs_gets. Qed.

Lemma runs_vmwrite (f : Field) (v : Z) : runs (vmwrite f v) (fun _ => True).
Proof. apply runs_modify. Qed.

Lemma runs_vmcs_write16 (f : VmcsField16.t) (v : Z) :
  runs (vmcs_write16 f v) (fun _ => True).
Proof. apply runs_modify. Qed.

Lemma runs_vmcs_write32 (f : VmcsField32.t) (v : Z) :
  runs (vmcs_write32 f v) (fun _ => True).
Proof. apply runs_modify. Qed.

Lemma runs_vmcs_write64 (f : VmcsField64.t) (v : Z) :
  runs (vmcs_write64 f v) (fun _ => True).
Proof. apply runs_modify. Qed.

Lemma runs_vmcs_writeXX (f : VmcsFieldXX.t) (v : Z) :
  runs (vmcs_writeXX f v) (fun _ => True).
Proof. apply runs_modify. Qed.

Lemma runs_x86_get_cr0 : runs x86_get_cr0 (fun _ => True).
Proof. apply runs_gets. Qed.

Lemma runs_x86_get_cr3 : runs x86_get_cr3 (fun _ => True).
Proof. apply runs_gets. Qed.

Lemma runs_x86_get_cr4 : runs x86_get_cr4 (fun _ => True).
Proof. apply runs_gets. Qed.

Lemma runs_modify_guest_state (f : GuestState -> GuestState) :
  runs (modify_guest_state f) (fun _ => True).
Proof. apply runs_modify. Qed.

Lemma runs_cpuid (sel : Z) : runs (cpuid sel) (fun _ => True).
Proof. intros s _. unfold cpuid. eauto. Qed.

Lemma runs_serial_fifo_Write (data : list Z) :
  runs (serial_fifo_Write data) (fun _ => True).
Proof.
  intros s _. unfold serial_fifo_Write.
  destruct (FifoDispatcher_Write _ _) as [[status actual] fifo]. eauto.
Qed.

End Runs.

Create HintDb runs.

#[export] Hint Resolve runs_ret runs_modify runs_msr_bitmaps_page_
  runs_host_msr_page_ runs_guest_msr_page_ runs_read_msr runs_vmread
  runs_vmwrite runs_vmcs_write16 runs_vmcs_write32 runs_vmcs_write64
  runs_vmcs_writeXX runs_x86_get_cr0 runs_x86_get_cr3 runs_x86_get_cr4
  runs_modify_guest_state runs_cpuid runs_serial_fifo_Write : runs.

#[export] Hint Resolve runs_gets | 5 : runs.

#[export] Hint Extern 1 (runs (PhysicalAddress _) _) =>
  apply runs_PhysicalAddress; assumption : runs.
#[export] Hint Extern 1 (runs (VirtualAddress _) _) =>
  apply runs_VirtualAddress; assumption : runs.
#[export] Hint Extern 1 (runs (DEBUG_ASSERT _) _) =>
  apply runs_DEBUG_ASSERT; first [ assumption | reflexivity ] : runs.

(** One step through a computation that has to return: the head of a
    sequence is quiet and returns, then the rest from what it gave. *)
Ltac runs_step :=
  first
    [ solve [ auto 2 with runs nocore ]
    | eapply runs_bind;
      [ solve [ auto 2 with quiet nocore ]
      | solve [ eauto 2 with runs nocore ]
      | let a := fresh "a" in
        let Ha := fresh "Ha" in
        intros a Ha; cbv beta in Ha ]
    | match goal with
      | |- runs (if ?b then _ else _) _ => destruct b
      | |- runs (match ?x with _ => _ end) _ => destruct x
      end
    | eapply runs_weaken; [ solve [ auto 2 with runs nocore ] | intros; exact I ] ].

Ltac runs_run := cbv zeta; repeat runs_step.

Section RunsCode.

Context `{Platform}.

Lemma runs_vmcs_read32 (f : VmcsField32.t) : runs (vmcs_read32 f) (fun _ => True).
Proof. unfold vmcs_read32. runs_run. Qed.

Lemma runs_vmcs_read64 (f : VmcsField64.t) : runs (vmcs_read64 f) (fun _ => True).
Proof. apply runs_gets. Qed.

Lemma runs_vmcs_readXX (f : VmcsFieldXX.t) : runs (vmcs_readXX f) (fun _ => True).
Proof. apply runs_gets. Qed.

#[local] Hint Resolve runs_vmcs_read32 runs_vmcs_read64 runs_vmcs_readXX : runs.

Lemma runs_ExitInfo_ctor : runs ExitInfo_ctor (fun _ => True).
Proof. unfold ExitInfo_ctor. runs_run. Qed.

Lemma runs_cr_is_invalid (cr_value : Z) (fixed0_msr fixed1_msr : Msr) :
  runs (cr_is_invalid cr_value fixed0_msr fixed1_msr) (fun _ => True).
Proof. unfold cr_is_invalid. runs_run. Qed.

Lemma runs_set_vmcs_control (controls : VmcsField32.t)
    (true_msr old_msr set clear : Z) :
  runs (set_vmcs_control controls true_msr old_msr set clear) (fun _ => True).
Proof. unfold set_vmcs_control. runs_run. Qed.

Lemma runs_ept_pointer (pml4_address : Z) :
  IS_PAGE_ALIGNED pml4_address = true ->
  runs (ept_pointer pml4_address) (fun _ => True).
Proof. intros Ha. unfold ept_pointer. runs_run. Qed.

Lemma quiet_and_not_bit (f : State -> State) :
  (forall s, exists b, f s = set_msr_bitmaps b s) -> quiet (modify f).
Proof.
  intros Hf. apply quiet_modify_silent; intros s; destruct (Hf s) as (b & ->);
    repeat split.
Qed.

Lemma runs_ignore_msr (page : VmxPage) (msr : Z) :
  pa_ page <> 0 -> runs (ignore_msr page msr) (fun _ => True).
Proof.
  intros Hp. unfold ignore_msr. cbv zeta.
  eapply runs_bind; [ apply quiet_VirtualAddress
                    | apply runs_VirtualAddress; exact Hp | intros _ _ ].
  eapply runs_bind; [ apply quiet_and_not_bit; intros s; eexists; reflexivity
                    | apply runs_modify | intros _ _ ].
  apply runs_modify.
Qed.

Lemma runs_edit_msr_list (page : MsrListPage) (index msr value : Z) :
  (index <? 512 / 16) = true ->
  runs (edit_msr_list page index msr value) (fun _ => True).
Proof.
  intros Hi. unfold edit_msr_list.
  eapply runs_bind; [ apply quiet_DEBUG_ASSERT
                    | apply runs_DEBUG_ASSERT; exact Hi | intros _ _ ].
  destruct page; runs_run.
Qed.

Lemma runs_next_rip (exit_info : ExitInfo) : runs (next_rip exit_info) (fun _ => True).
Proof. apply runs_modify. Qed.

End RunsCode.

#[export] Hint Resolve runs_vmcs_read32 runs_vmcs_read64 runs_vmcs_readXX
  runs_ExitInfo_ctor runs_cr_is_invalid runs_set_vmcs_control runs_next_rip : runs.

#[export] Hint Extern 1 (runs (ept_pointer _) _) =>
  apply runs_ept_pointer; assumption : runs.
#[export] Hint Extern 1 (runs (ignore_msr _ _) _) =>
  apply runs_ignore_msr; assumption : runs.
#[export] Hint Extern 1 (runs (edit_msr_list _ _ _ _) _) =>
  apply runs_edit_msr_list; reflexivity : runs.

Section RunsBodies.

Context `{Platform}.

#[local] Hint Resolve quiet_Setup_controls quiet_Setup_execution
  quiet_Setup_host_state quiet_Setup_guest_rest quiet_Setup_guest_state : quiet.

Lemma runs_Setup_controls : runs Setup_controls (fun _ => True).
Proof. unfold Setup_controls. runs_run. Qed.

Lemma runs_Setup_execution (pml4_address : Z) :
  IS_PAGE_ALIGNED pml4_address = true ->
  runs (Setup_execution pml4_address) (fun _ => True).
Proof. intros Ha. unfold Setup_execution. runs_run. Qed.

Lemma runs_Setup_host_state : runs Setup_host_state (fun _ => True).
Proof. unfold Setup_host_state. runs_run. Qed.

Lemma runs_Setup_guest_rest : runs Setup_guest_rest (fun _ => True).
Proof. unfold Setup_guest_rest. runs_run. Qed.

#[local] Hint Resolve runs_Setup_controls runs_Setup_host_state
  runs_Setup_guest_rest : runs.

Lemma runs_Setup_guest_state : runs Setup_guest_state (fun _ => True).
Proof. unfold Setup_guest_state. runs_run. Qed.

#[local] Hint Resolve runs_Setup_guest_state : runs.

Lemma runs_Setup_body (pml4_address : Z) :
  IS_PAGE_ALIGNED pml4_address = true ->
  runs (Setup_body pml4_address) (fun _ => True).
Proof.
  intros Ha. pose proof (runs_Setup_execution pml4_address Ha) as He.
  unfold Setup_body. runs_run.
Qed.

Lemma runs_handle_cpuid (exit_info : ExitInfo) :
  runs (handle_cpuid exit_info) (fun _ => True).
Proof.
  unfold handle_cpuid.
  eapply runs_bind; [ apply quiet_gets | apply runs_gets | intros g _ ].
  destruct (rax g =? X86_CPUID_BASE); [ | apply runs_ret ].
  eapply runs_bind; [ apply quiet_next_rip | apply runs_next_rip | intros _ _ ].
  eapply runs_bind; [ apply quiet_cpuid | apply runs_cpuid | intros [[[a b] c] d] _ ].
  runs_run.
Qed.

Lemma runs_interrupt_window :
  runs (disabled <- arch_ints_disabled;;
        DEBUG_ASSERT disabled;;
        arch_enable_ints;;
        arch_disable_ints;;
        ret NO_ERROR) (fun _ => True).
Proof.
  intros s (Hd & _).
  unfold bind, arch_ints_disabled, gets, DEBUG_ASSERT, arch_enable_ints,
    arch_disable_ints, modify, ret.
  rewrite Hd. eexists. eexists. split; [ reflexivity | exact I ].
Qed.

Lemma runs_vmexit_handler : runs vmexit_handler (fun _ => True).
Proof.
  unfold vmexit_handler.
  eapply runs_bind; [ apply quiet_ExitInfo_ctor | apply runs_ExitInfo_ctor
                    | intros exit_info _ ].
  destruct (exit_reason exit_info).
  - apply runs_interrupt_window.
  - apply runs_handle_cpuid.
  - runs_run.
  - apply runs_ret.
  - apply runs_ret.
Qed.

Lemma runs_Enter_prepare (context : VmcsContext) :
  runs (Enter_prepare context) (fun _ => True).
Proof. unfold Enter_prepare. runs_run. Qed.

End RunsBodies.

Section ScopesReturn.

Context `{Platform}.

(** VMPTRLD of a VMCS region that was set up and cleared succeeds. *)
Hypothesis vmptrld_succeeds : forall w pa, fst (insn_vmptrld w pa) = false.

Lemma AutoVmcsLoad_ctor_runs (s : State) :
  ready s ->
  exists s1, AutoVmcsLoad_ctor s.(page_) s = Some (tt, s1) /\ in_scope s1.
Proof.
  intros (I0 & P & B & Hh & G).
  unfold AutoVmcsLoad_ctor, bind, arch_ints_disabled, gets, DEBUG_ASSERT,
    arch_disable_ints, modify, PhysicalAddress, vmptrld, ret.
  rewrite I0. cbn [negb]. apply Z.eqb_neq in P. rewrite P. cbn.
  pose proof (vmptrld_succeeds (world s) (pa_ (page_ s))) as V.
  destruct (insn_vmptrld (world s) (pa_ (page_ s))) as [err w].
  cbn in V. subst err. cbn.
  eexists. split; [ reflexivity | ].
  unfold in_scope. cbn. auto.
Qed.

Lemma AutoVmcsLoad_dtor_runs (s : State) :
  s.(ints_disabled) = true ->
  exists s', AutoVmcsLoad_dtor s = Some (tt, s') /\ s'.(ints_disabled) = false.
Proof.
  intros Hd.
  unfold AutoVmcsLoad_dtor, bind, arch_ints_disabled, gets, DEBUG_ASSERT,
    arch_enable_ints, modify.
  rewrite Hd. eexists. split; reflexivity.
Qed.

(** A block under the scoped load returns when its body does and leaves
    interrupts disabled. *)
Lemma AutoVmcsLoad_runs {A : Type} (body : M A) (s : State) :
  ready s ->
  (forall s1, in_scope s1 ->
     exists r s2, body s1 = Some (r, s2) /\ s2.(ints_disabled) = true) ->
  exists r s',
    AutoVmcsLoad s.(page_) body s = Some (r, s') /\ s'.(ints_disabled) = false.
Proof.
  intros Hr Hb.
  destruct (AutoVmcsLoad_ctor_runs s Hr) as (s1 & E1 & S1).
  destruct (Hb s1 S1) as (r & s2 & E2 & I2).
  destruct (AutoVmcsLoad_dtor_runs s2 I2) as (s' & E3 & I3).
  exists r, s'. unfold AutoVmcsLoad, bind, ret.
  rewrite E1, E2, E3. auto.
Qed.

Lemma runs_quiet_body {A : Type} (body : M A) (s1 : State) :
  quiet body -> runs body (fun _ => True) -> in_scope s1 ->
  exists r s2, body s1 = Some (r, s2) /\ in_scope s2.
Proof.
  intros Hq Hb S1. destruct (Hb s1 S1) as (r & s2 & E & _).
  exists r, s2. split; [ exact E | ].
  apply (in_scope_quiet _ _ _ _ Hq E S1).
Qed.

Lemma Enter_run_runs (s : State) :
  in_scope s ->
  exists status s', Enter_run s = Some (status, s') /\ s'.(ints_disabled) = true.
Proof.
  intros (I0 & B & Hh & G).
  unfold Enter_run. unfold bind at 1. unfold gets at 1. unfold bind at 1.
  unfold vmx_enter.
  destruct (asm_vmx_enter _ _ _ _) as [[[entry_status w] vs] v].
  destruct (status_eqb entry_status NO_ERROR); cbn [negb].
  - unfold bind at 1. unfold modify at 1.
    match goal with
    | |- exists _ _, vmexit_handler ?s1 = _ /\ _ =>
        assert (S1 : in_scope s1) by (unfold in_scope; cbn; auto);
        destruct (runs_quiet_body _ s1 quiet_vmexit_handler runs_vmexit_handler S1)
          as (status & s' & E & (I' & _))
    end.
    exists status, s'. auto.
  - unfold bind, vmcs_read32, vmread, gets, ret.
    eexists. eexists. split; [ reflexivity | exact I0 ].
Qed.

(** VMCS construction returns: from a ready state and a page-aligned PML4
    address none of its assertions fails. *)
Lemma Setup_runs (pml4_address : Z) (s : State) :
  ready s ->
  IS_PAGE_ALIGNED pml4_address = true ->
  exists status s',
    Setup pml4_address s = Some (status, s') /\ s'.(ints_disabled) = false.
Proof.
  intros (I0 & P & B & Hh & G) Ha.
  unfold Setup. unfold bind at 1.
  assert (Hc : exists st0 s0, Clear s = Some (st0, s0)).
  { unfold Clear, bind, gets, IsAllocated, PhysicalAddress, DEBUG_ASSERT, ret, vmclear.
    apply Z.eqb_neq in P. rewrite P. cbn.
    destruct (insn_vmclear (world s) (pa_ (page_ s))) as [err w]. eauto. }
  destruct Hc as (st0 & s0 & Ec). rewrite Ec.
  destruct (quiet_Clear _ _ _ Ec) as (_ & I1 & (Gp & Gb & Gh & Gg) & _).
  destruct (status_eqb st0 NO_ERROR).
  - unfold bind at 1. unfold gets at 1.
    apply AutoVmcsLoad_runs.
    + unfold ready. rewrite I1, Gp, Gb, Gh, Gg. auto.
    + intros s1 S1.
      destruct (runs_quiet_body _ s1 (quiet_Setup_body pml4_address)
                  (runs_Setup_body pml4_address Ha) S1) as (r & s2 & E & (I2 & _)).
      exists r, s2. auto.
  - exists st0, s0. split; [ reflexivity | congruence ].
Qed.

(** Guest entry returns: from a ready state none of its assertions
    fails. *)
Lemma Enter_runs (context : VmcsContext) (s : State) :
  ready s ->
  exists status s',
    Enter context s = Some (status, s') /\ s'.(ints_disabled) = false.
Proof.
  intros Hr. unfold Enter. unfold bind at 1. unfold gets at 1.
  apply AutoVmcsLoad_runs; [ exact Hr | ].
  intros s1 S1.
  destruct (runs_quiet_body _ s1 (quiet_Enter_prepare context)
              (runs_Enter_prepare context) S1) as ([] & s2 & E & S2).
  destruct (Enter_run_runs s2 S2) as (status & s3 & E3 & I3).
  exists status, s3. unfold bind. rewrite E. auto.
Qed.

End ScopesReturn.

(* ================================================================== *)
(** ** The two scopes: VMCS construction and guest entry *)

Section EnterAndSetup.

Context `{Platform}.

Lemma existsb_plain (evs : list Event) :
  Forall plain evs -> existsb is_successful_entry evs = false.
Proof.
  induction 1 as [ | e evs He _ IH ]; [ reflexivity | ].
  cbn. rewrite IH. destruct e; cbn in *; solve [ reflexivity | contradiction ].
Qed.

(** A call of [Enter] that returns, stage by stage. *)
Lemma Enter_returns (context : VmcsContext) (s s' : State) (status : status_t) :
  Enter context s = Some (status, s') ->
  exists s1 s2 entry_status evs_prepare evs_handler,
    AutoVmcsLoad_ctor s.(page_) s = Some (tt, s1) /\
    Enter_prepare context s1 = Some (tt, s2) /\
    s2.(trace) = evs_prepare ++ s1.(trace) /\
    Forall plain evs_prepare /\
    s'.(trace) =
      EvEnableInts :: evs_handler
        ++ EvVmxEnter s.(do_resume_) entry_status :: s2.(trace) /\
    Forall plain evs_handler /\
    s'.(do_resume_) = s.(do_resume_) || status_eqb entry_status NO_ERROR /\
    s.(ints_disabled) = false /\
    s'.(ints_disabled) = false /\
    (status = NO_ERROR -> entry_status = NO_ERROR).
Proof.
  unfold Enter. unfold bind at 1. unfold gets at 1. intros E.
  destruct (AutoVmcsLoad_stages _ _ _ _ _ E) as (s1 & s4 & E1 & E2 & E3).
  unfold bind in E2.
  destruct (Enter_prepare context s1) as [[[] s2] | ] eqn:Ep; [ | discriminate E2 ].
  destruct (AutoVmcsLoad_ctor_returns _ _ _ E1) as (I0 & I1 & T1 & R1 & _ & _).
  destruct (quiet_Enter_prepare context _ _ _ Ep) as (R2 & I2 & _ & evs_p & T2 & P2).
  destruct (Enter_run_returns _ _ _ E2)
    as (entry_status & evs_h & I4 & R4 & T4 & P4 & Hs & _).
  destruct (AutoVmcsLoad_dtor_returns _ _ E3) as (_ & I5 & T5 & R5).
  exists s1, s2, entry_status, evs_p, evs_h.
  repeat split; try assumption.
  - rewrite T5, T4. congruence.
  - congruence.
Qed.

(** [Enter] keeps [do_resume_] in step with the trace. *)
Lemma Enter_resume_inv (context : VmcsContext) (s s' : State) (status : status_t) :
  Enter context s = Some (status, s') -> resume_inv s -> resume_inv s'.
Proof.
  intros E.
  destruct (Enter_returns _ _ _ _ E)
    as (s1 & s2 & entry_status & evs_p & evs_h & E1 & E2 & T2 & P2 & T' & P' & R' & _).
  destruct (AutoVmcsLoad_ctor_returns _ _ _ E1) as (_ & _ & T1 & _).
  unfold resume_inv. intros Hinv.
  rewrite R', T', T2, T1, Hinv.
  cbn [existsb]. rewrite existsb_app. cbn [existsb]. rewrite existsb_app.
  rewrite (existsb_plain _ P'), (existsb_plain _ P2). cbn.
  destruct entry_status; cbn; rewrite ?orb_true_r, ?orb_false_r; reflexivity.
Qed.

(** So does [Setup], which enters no guest. *)
Lemma Setup_resume_inv (pml4_address : Z) (s s' : State) (status : status_t) :
  Setup pml4_address s = Some (status, s') -> resume_inv s -> resume_inv s'.
Proof.
  unfold Setup. unfold bind at 1.
  destruct (Clear s) as [[st0 s0] | ] eqn:Ec; [ | discriminate ].
  destruct (quiet_Clear _ _ _ Ec) as (R0 & _ & _ & evs0 & T0 & P0).
  unfold resume_inv.
  destruct (status_eqb st0 NO_ERROR).
  - unfold bind at 1. unfold gets at 1. intros E Hinv.
    destruct (AutoVmcsLoad_trace _ _ _ _ _ (quiet_Setup_body pml4_address) E)
      as (_ & _ & R & evs & T & P).
    rewrite R, R0, T, T0, Hinv.
    cbn [app existsb]. rewrite !existsb_app.
    rewrite (existsb_plain _ P), (existsb_plain _ P0). reflexivity.
  - intros E Hinv. injection E as <- <-.
    rewrite R0, T0, Hinv, existsb_app, (existsb_plain _ P0). reflexivity.
Qed.

(** And so does every run of calls of [Enter]: [do_resume_] is false up to
    the first successful entry and true after it. *)
Lemma Enter_each_resume_inv (contexts : list VmcsContext) :
  forall (s s' : State) (statuses : list status_t),
    Enter_each contexts s = Some (statuses, s') ->
    resume_inv s -> resume_inv s'.
Proof.
  induction contexts as [ | context rest IH ]; intros s s' statuses E Hinv.
  - injection E as _ <-. exact Hinv.
  - cbn [Enter_each] in E. unfold bind at 1 in E.
    destruct (Enter context s) as [[status s1] | ] eqn:E1; [ | discriminate E ].
    unfold bind at 1 in E.
    destruct (Enter_each rest s1) as [[sts s2] | ] eqn:E2; [ | discriminate E ].
    injection E as _ <-.
    apply (IH _ _ _ E2). apply (Enter_resume_inv _ _ _ _ E1). exact Hinv.
Qed.

(** C8.  [do_resume_] is false before the first successful entry on this
    CPU and true from then on: it says whether the trace holds a successful
    entry, and [Enter] keeps it so.  After a call of [Enter] that returns
    success [do_resume_] is true; after any call either [do_resume_] is
    true or the status is a failure.  [Enter] programs guest CR3 and guest
    RIP from the context only when [do_resume_] is false: when it is true
    the two fields go into the guest as they were and the only fields
    written before the entry are HOST_FS_BASE and HOST_CR3. *)
Theorem Enter_do_resume (context : VmcsContext) (s s' : State) (status : status_t) :
  Enter context s = Some (status, s') ->
  exists s1 s2 entry_status evs,
    AutoVmcsLoad_ctor s.(page_) s = Some (tt, s1) /\
    Enter_prepare context s1 = Some (tt, s2) /\
    (s.(do_resume_) = false ->
     s2.(vmcs) (FXX VmcsFieldXX.GUEST_CR3) = context.(cr3_) mod 2 ^ 64 /\
     s2.(vmcs) (FXX VmcsFieldXX.GUEST_RIP) = context.(entry_) mod 2 ^ 64) /\
    (s.(do_resume_) = true ->
     s2.(vmcs) (FXX VmcsFieldXX.GUEST_CR3) = s.(vmcs) (FXX VmcsFieldXX.GUEST_CR3) /\
     s2.(vmcs) (FXX VmcsFieldXX.GUEST_RIP) = s.(vmcs) (FXX VmcsFieldXX.GUEST_RIP) /\
     s2.(trace) =
       EvVmwrite (FXX VmcsFieldXX.HOST_CR3) (wrap64 s.(cr3))
       :: EvVmwrite (FXX VmcsFieldXX.HOST_FS_BASE)
            (wrap64 (s.(msrs) X86_MSR_IA32_FS_BASE))
       :: s1.(trace)) /\
    s'.(trace) =
      EvEnableInts :: evs ++ EvVmxEnter s.(do_resume_) entry_status :: s2.(trace) /\
    Forall plain evs /\
    s'.(do_resume_) = s.(do_resume_) || status_eqb entry_status NO_ERROR /\
    (status = NO_ERROR -> s'.(do_resume_) = true) /\
    (s'.(do_resume_) = true \/ status <> NO_ERROR) /\
    (resume_inv s -> resume_inv s').
Proof.
  intros E.
  destruct (Enter_returns _ _ _ _ E)
    as (s1 & s2 & entry_status & evs_p & evs_h & E1 & E2 & T2 & P2 & T' & P' & R' & I0 & I' & Hs).
  exists s1, s2, entry_status, evs_h.
  pose proof (Enter_prepare_returns _ _ _ E2) as Hp. cbv zeta in Hp.
  destruct Hp as [Hfalse Htrue].
  assert (Hc : s1 = add_event (EvVmptrld (pa_ (page_ s)) true)
                 (set_world (world s1) (add_event EvDisableInts (set_ints_disabled true s)))).
  { revert E1.
    unfold AutoVmcsLoad_ctor, bind, arch_ints_disabled, gets, DEBUG_ASSERT,
      arch_disable_ints, modify, PhysicalAddress, vmptrld, ret.
    destruct (ints_disabled s); cbn [negb]; [ discriminate | ].
    destruct (pa_ (page_ s) =? 0); cbn [negb]; [ discriminate | ].
    cbn. destruct (insn_vmptrld (world s) (pa_ (page_ s))) as [err w].
    destruct err; cbn; [ discriminate | ].
    intros E0. injection E0 as <-. reflexivity. }
  assert (R1 : do_resume_ s1 = do_resume_ s) by (rewrite Hc; reflexivity).
  assert (V1 : vmcs s1 = vmcs s) by (rewrite Hc; reflexivity).
  assert (M1 : msrs s1 = msrs s) by (rewrite Hc; reflexivity).
  assert (C1 : cr3 s1 = cr3 s) by (rewrite Hc; reflexivity).
  split; [ exact E1 | ]. split; [ exact E2 | ].
  split.
  { intros D. rewrite <- R1 in D. destruct (Hfalse D) as (A & B & _).
    rewrite <- !wrap64_mod. auto. }
  split.
  { intros D. rewrite <- R1 in D. destruct (Htrue D) as (A & B & C).
    rewrite <- V1, <- M1, <- C1. auto. }
  split; [ exact T' | ]. split; [ exact P' | ]. split; [ exact R' | ].
  assert (Hok : status = NO_ERROR -> do_resume_ s' = true).
  { intros Hst. rewrite R', (Hs Hst). apply orb_true_r. }
  split; [ exact Hok | ].
  split.
  { destruct status; try (right; discriminate). left. apply Hok. reflexivity. }
  apply (Enter_resume_inv _ _ _ _ E).
Qed.

(** The scope cannot be entered on a page that is not allocated. *)
Lemma AutoVmcsLoad_ctor_unallocated (page : VmxPage) (s : State) :
  page.(pa_) = 0 -> AutoVmcsLoad_ctor page s = None.
Proof.
  intros Hz.
  unfold AutoVmcsLoad_ctor, arch_ints_disabled, gets, DEBUG_ASSERT,
    arch_disable_ints, modify, PhysicalAddress, vmptrld, ret, bind.
  rewrite Hz. destruct (ints_disabled s); reflexivity.
Qed.

(** [Clear] by the page: VMCLEAR on an allocated page, nothing on one that
    is not. *)
Lemma Clear_vmclear (s s0 : State) (status : status_t) :
  Clear s = Some (status, s0) ->
  let pa := s.(page_).(pa_) in
  (pa <> 0 /\
   status = err_status (fst (insn_vmclear s.(world) pa)) /\
   s0 = add_event (EvVmclear pa) (set_world (snd (insn_vmclear s.(world) pa)) s)) \/
  (pa = 0 /\ status = NO_ERROR /\ s0 = s).
Proof.
  cbv zeta.
  unfold Clear, gets, IsAllocated, PhysicalAddress, DEBUG_ASSERT, vmclear, ret, bind.
  destruct (Z.eqb_spec (pa_ (page_ s)) 0) as [Hz | Hz]; cbn [negb].
  - intros E. injection E as E1 E2. subst status s0. right. auto.
  - cbv beta iota.
    destruct (insn_vmclear (world s) (pa_ (page_ s))) as [err w]. cbn [fst snd].
    intros E. injection E as E1 E2. subst status s0. left. auto.
Qed.

(** C9.  Every VMPTRLD runs with interrupts disabled.  Entering the scoped
    VMCS load requires interrupts to be enabled and disables them before
    VMPTRLD; leaving it enables them, which is the state before entry.
    Both scopes behave so: [Setup] and [Enter] end with the interrupt flag
    they began with, and every VMPTRLD they have run ran with interrupts
    disabled.  Both have a scope: [Enter] always, and [Setup] whenever its
    VMCLEAR succeeds; they then began with interrupts enabled and have run
    VMPTRLD on the VMCS page with interrupts disabled.  Both do reach their
    end, with interrupts enabled, when they start with interrupts enabled
    and the pages allocated and VMPTRLD succeeds: no assertion of the scope
    fails on the way. *)
Theorem AutoVmcsLoad_interrupts (pml4_address : Z) (context : VmcsContext)
    (page : VmxPage) (s : State) :
  (s.(ints_disabled) = true -> AutoVmcsLoad_ctor page s = None) /\
  (forall s1,
     AutoVmcsLoad_ctor page s = Some (tt, s1) ->
     s.(ints_disabled) = false /\
     s1.(ints_disabled) = true /\
     s1.(trace) = EvVmptrld page.(pa_) true :: EvDisableInts :: s.(trace)) /\
  (forall (body : M status_t) status s',
     AutoVmcsLoad page body s = Some (status, s') ->
     s.(ints_disabled) = false /\ s'.(ints_disabled) = false) /\
  (forall status s',
     Setup pml4_address s = Some (status, s') ->
     s'.(ints_disabled) = s.(ints_disabled) /\
     exists evs,
       s'.(trace) = evs ++ s.(trace) /\ Forall vmptrld_ints_off evs /\
       (fst (insn_vmclear s.(world) s.(page_).(pa_)) = false ->
        s.(ints_disabled) = false /\
        In (EvVmptrld s.(page_).(pa_) true) evs) /\
       (fst (insn_vmclear s.(world) s.(page_).(pa_)) = true ->
        status = ERR_INTERNAL /\ evs = [EvVmclear s.(page_).(pa_)])) /\
  (forall status s',
     Enter context s = Some (status, s') ->
     s'.(ints_disabled) = s.(ints_disabled) /\
     s.(ints_disabled) = false /\
     exists evs,
       s'.(trace) = evs ++ s.(trace) /\ Forall vmptrld_ints_off evs /\
       In (EvVmptrld s.(page_).(pa_) true) evs) /\
  ((forall w pa, fst (insn_vmptrld w pa) = false) ->
   ready s ->
   (IS_PAGE_ALIGNED pml4_address = true ->
    exists status s',
      Setup pml4_address s = Some (status, s') /\ s'.(ints_disabled) = false) /\
   (exists status s',
      Enter context s = Some (status, s') /\ s'.(ints_disabled) = false)).
Proof.
  split; [ apply AutoVmcsLoad_ctor_requires | ].
  split.
  { intros s1 E. destruct (AutoVmcsLoad_ctor_returns _ _ _ E) as (A & B & C & _).
    auto. }
  split.
  { intros body status s' E.
    destruct (AutoVmcsLoad_stages _ _ _ _ _ E) as (s1 & s2 & E1 & _ & E3).
    destruct (AutoVmcsLoad_ctor_returns _ _ _ E1) as (A & _).
    destruct (AutoVmcsLoad_dtor_returns _ _ E3) as (_ & B & _).
    auto. }
  split; [ | split ].
  - intros status s'. unfold Setup. unfold bind at 1.
    destruct (Clear s) as [[st0 s0] | ] eqn:Ec; [ | discriminate ].
    destruct (quiet_Clear _ _ _ Ec) as (_ & I0 & (G0 & _) & evs0 & T0 & P0).
    destruct (Clear_vmclear _ _ _ Ec) as [(Ha & Hst & Hs0) | (Ha & Hst & Hs0)].
    2: { (* the page is not allocated: the scope cannot be entered *)
      rewrite Hst. cbn [status_eqb]. unfold bind at 1. unfold gets at 1.
      intros E. exfalso. revert E.
      unfold AutoVmcsLoad. unfold bind at 1.
      rewrite (AutoVmcsLoad_ctor_unallocated (page_ s0) s0)
        by (rewrite G0; exact Ha).
      discriminate. }
    destruct (status_eqb st0 NO_ERROR) eqn:Es.
    + unfold bind at 1. unfold gets at 1. intros E.
      destruct (AutoVmcsLoad_trace _ _ _ _ _ (quiet_Setup_body pml4_address) E)
        as (A & B & _ & evs & T & P).
      split; [ congruence | ].
      exists ((EvEnableInts :: evs ++ [EvVmptrld (pa_ (page_ s0)) true; EvDisableInts]) ++ evs0).
      split; [ rewrite T, T0; apply app_assoc | ].
      split.
      { apply Forall_app. split; [ | apply plain_vmptrld_ints_off; exact P0 ].
        constructor; [ exact I | ].
        apply Forall_app. split; [ apply plain_vmptrld_ints_off; exact P | ].
        repeat constructor. }
      split.
      * intros _. split; [ congruence | ].
        rewrite <- G0. apply in_or_app. left. right. apply in_or_app. right.
        left. reflexivity.
      * intros Hc. rewrite Hst, Hc in Es. discriminate Es.
    + intros E. injection E as <- <-.
      split; [ exact I0 | ].
      exists evs0. split; [ exact T0 | ].
      split; [ apply plain_vmptrld_ints_off; exact P0 | ].
      split.
      * intros Hc. rewrite Hst, Hc in Es. discriminate Es.
      * intros Hc. rewrite Hst, Hc. split; [ reflexivity | ].
        rewrite Hs0 in T0. cbn [trace add_event set_world] in T0.
        apply (app_inv_tail (trace s)). rewrite <- T0. reflexivity.
  - intros status s' E.
    destruct (Enter_returns _ _ _ _ E)
      as (s1 & s2 & entry_status & evs_p & evs_h & E1 & E2 & T2 & P2 & T' & P' & R' & I0 & I' & Hs).
    destruct (AutoVmcsLoad_ctor_returns _ _ _ E1) as (J0 & _ & T1 & _).
    split; [ congruence | ]. split; [ exact J0 | ].
    exists (EvEnableInts :: evs_h ++ EvVmxEnter (do_resume_ s) entry_status :: evs_p
              ++ [EvVmptrld (pa_ (page_ s)) true; EvDisableInts]).
    split; [ | split ].
    + rewrite T', T2, T1. cbn. f_equal. rewrite <- !app_assoc. cbn.
      f_equal. f_equal. rewrite <- app_assoc. reflexivity.
    + constructor; [ exact I | ].
      apply Forall_app. split; [ apply plain_vmptrld_ints_off; exact P' | ].
      constructor; [ exact I | ].
      apply Forall_app. split; [ apply plain_vmptrld_ints_off; exact P2 | ].
      repeat constructor.
    + right. apply in_or_app. right. right. apply in_or_app. right. left. reflexivity.
  - intros Hv Hr. split.
    + intros Ha. apply (Setup_runs Hv pml4_address s Hr Ha).
    + apply (Enter_runs Hv context s Hr).
Qed.

End EnterAndSetup.

(* ================================================================== *)
(** ** Fixed bits of the control registers *)

Lemma testbit_wrap64 (x i : Z) :
  0 <= i -> Z.testbit (wrap64 x) i = Z.testbit x i && (i <? 64).
Proof.
  intros Hi. unfold wrap64. change mask64 with (Z.ones 64).
  rewrite Z.land_spec, Z.testbit_ones_nonneg by lia. reflexivity.
Qed.

Lemma testbit_not64 (x i : Z) :
  0 <= i -> Z.testbit (not64 x) i = negb (Z.testbit x i) && (i <? 64).
Proof.
  intros Hi. unfold not64. change mask64 with (Z.ones 64).
  rewrite Z.land_spec, Z.lnot_spec, Z.testbit_ones_nonneg by lia. reflexivity.
Qed.

Lemma testbit_u64_high (x i : Z) : is_u64 x -> 64 <= i -> Z.testbit x i = false.
Proof.
  intros Hx Hi. rewrite <- (wrap64_id x Hx), testbit_wrap64 by lia.
  replace (i <? 64) with false by (symmetry; apply Z.ltb_ge; lia).
  apply andb_false_r.
Qed.

Lemma nonzero_false (x : Z) : nonzero x = false <-> x = 0.
Proof.
  unfold nonzero. destruct (Z.eqb_spec x 0); cbn; split; congruence.
Qed.

(** Bits required by FIXED0 and missing from the register. *)
Lemma fixed0_missing_none (cr_value fixed0 : Z) :
  is_u64 fixed0 ->
  not64 (Z.lor cr_value (not64 fixed0)) = 0 <-> Z.land cr_value fixed0 = fixed0.
Proof.
  intros H0. split; intros E; apply Z.bits_inj'; intros i Hi.
  - apply (f_equal (fun z => Z.testbit z i)) in E.
    rewrite testbit_not64, Z.lor_spec, testbit_not64, Z.bits_0 in E by lia.
    rewrite Z.land_spec.
    destruct (Z.ltb_spec i 64).
    + destruct (Z.testbit cr_value i), (Z.testbit fixed0 i); cbn in *; congruence.
    + rewrite (testbit_u64_high fixed0 i H0) by lia. apply andb_false_r.
  - apply (f_equal (fun z => Z.testbit z i)) in E.
    rewrite Z.land_spec in E.
    rewrite testbit_not64, Z.lor_spec, testbit_not64, Z.bits_0 by lia.
    destruct (i <? 64); [ | apply andb_false_r ].
    destruct (Z.testbit cr_value i), (Z.testbit fixed0 i); cbn in *; congruence.
Qed.

(** Bits forbidden by FIXED1 and present in the register. *)
Lemma fixed1_excess_none (cr_value fixed1 : Z) :
  is_u64 cr_value ->
  not64 (Z.lor (not64 cr_value) fixed1) = 0 <-> Z.land cr_value (not64 fixed1) = 0.
Proof.
  intros Hc. split; intros E; apply Z.bits_inj'; intros i Hi.
  - apply (f_equal (fun z => Z.testbit z i)) in E.
    rewrite testbit_not64, Z.lor_spec, testbit_not64, Z.bits_0 in E by lia.
    rewrite Z.land_spec, testbit_not64, Z.bits_0 by lia.
    destruct (i <? 64); [ | rewrite !andb_false_r; reflexivity ].
    destruct (Z.testbit cr_value i), (Z.testbit fixed1 i); cbn in *; congruence.
  - apply (f_equal (fun z => Z.testbit z i)) in E.
    rewrite Z.land_spec, testbit_not64, Z.bits_0 in E by lia.
    rewrite testbit_not64, Z.lor_spec, testbit_not64, Z.bits_0 by lia.
    destruct (i <? 64); [ | apply andb_false_r ].
    destruct (Z.testbit cr_value i), (Z.testbit fixed1 i); cbn in *; congruence.
Qed.

Section FixedBits.

Context `{Platform}.

(** [cr_is_invalid] reads two MSRs and changes nothing; its answer is the
    code's own test. *)
Lemma cr_is_invalid_reads (cr_value : Z) (fixed0_msr fixed1_msr : Msr) (s : State) :
  cr_is_invalid cr_value fixed0_msr fixed1_msr s =
    Some (nonzero (not64 (Z.lor cr_value (not64 (s.(msrs) fixed0_msr)))) ||
          nonzero (not64 (Z.lor (not64 cr_value) (s.(msrs) fixed1_msr))), s).
Proof. reflexivity. Qed.

Lemma cr_is_invalid_false (cr_value fixed0 fixed1 : Z) :
  is_u64 cr_value -> is_u64 fixed0 ->
  nonzero (not64 (Z.lor cr_value (not64 fixed0))) ||
  nonzero (not64 (Z.lor (not64 cr_value) fixed1)) = false <->
  fixed_bits_ok cr_value fixed0 fixed1.
Proof.
  intros Hc H0. unfold fixed_bits_ok.
  rewrite orb_false_iff, !nonzero_false.
  rewrite (fixed0_missing_none _ _ H0), (fixed1_excess_none _ _ Hc).
  reflexivity.
Qed.

(** X1.  [cr_is_invalid] changes nothing and answers false exactly when
    the register value has every bit that the FIXED0 MSR has set and no bit
    that the FIXED1 MSR has clear. *)
Theorem cr_is_invalid_fixed_bits (cr_value : Z) (fixed0_msr fixed1_msr : Msr)
    (s : State) :
  is_u64 cr_value -> is_u64 (s.(msrs) fixed0_msr) ->
  exists invalid,
    cr_is_invalid cr_value fixed0_msr fixed1_msr s = Some (invalid, s) /\
    (invalid = false <->
     fixed_bits_ok cr_value (s.(msrs) fixed0_msr) (s.(msrs) fixed1_msr)).
Proof.
  intros Hc H0. rewrite cr_is_invalid_reads. eexists. split; [ reflexivity | ].
  apply cr_is_invalid_false; assumption.
Qed.

End FixedBits.

(* ================================================================== *)
(** ** Bringing VMX up and down on a CPU *)

Lemma lor_is_u64 (a b : Z) : is_u64 a -> is_u64 b -> is_u64 (Z.lor a b).
Proof.
  intros Ha Hb.
  assert (E : wrap64 (Z.lor a b) = Z.lor a b).
  { apply Z.bits_inj'; intros i Hi.
    rewrite testbit_wrap64, Z.lor_spec by lia.
    destruct (Z.ltb_spec i 64); [ apply andb_true_r | ].
    rewrite (testbit_u64_high a i Ha), (testbit_u64_high b i Hb) by lia.
    reflexivity. }
  rewrite <- E. apply wrap64_is_u64.
Qed.

(** Setting a bit that was clear and clearing it again gives the value
    back. *)
Lemma land_lor_not64 (c v : Z) :
  is_u64 c -> Z.land c v = 0 -> Z.land (Z.lor c v) (not64 v) = c.
Proof.
  intros Hc E. apply Z.bits_inj'; intros i Hi.
  apply (f_equal (fun z => Z.testbit z i)) in E.
  rewrite Z.land_spec, Z.bits_0 in E.
  rewrite Z.land_spec, Z.lor_spec, testbit_not64 by lia.
  destruct (Z.ltb_spec i 64).
  - destruct (Z.testbit c i), (Z.testbit v i); cbn in *; congruence.
  - rewrite (testbit_u64_high c i Hc) by lia. rewrite !andb_false_r. reflexivity.
Qed.

Section BringUp.

Context `{Platform}.

(** The capability checks, bit by bit. *)
Lemma vmx_capabilities_bits (s : State) :
  vmx_capabilities s = true <->
  forall m b, In (m, b) required_capabilities -> Z.testbit (s.(msrs) m) b = true.
Proof.
  unfold vmx_capabilities, VmxInfo.decode, EptInfo.decode, MiscInfo.decode.
  cbn [VmxInfo.io_exit_info VmxInfo.vmx_controls EptInfo.page_walk_4
       EptInfo.write_back EptInfo.ept_flags EptInfo.invept MiscInfo.wait_for_sipi].
  rewrite !BIT_SHIFT_testbit by lia.
  rewrite !andb_true_iff. split.
  - intros [[[[[[A B] C] D] E] [[F G] I]] J] m b Hin.
    cbn in Hin.
    repeat (destruct Hin as [Hin | Hin]; [ injection Hin as <- <-; assumption | ]).
    contradiction.
  - intros Hall.
    repeat split; apply Hall; cbn; auto 10.
Qed.

(** The control registers, CR4.VMXE and VMXON, by the outcome of each
    step. *)
Lemma vmx_enable_control_registers_cases (s : State) :
  let cr4' := Z.lor s.(cr4) X86_CR4_VMXE in
  let pa := s.(vmxon_page_).(pa_) in
  vmx_enable_control_registers s =
    if nonzero (not64 (Z.lor s.(cr0) (not64 (s.(msrs) X86_MSR_IA32_VMX_CR0_FIXED0)))) ||
       nonzero (not64 (Z.lor (not64 s.(cr0)) (s.(msrs) X86_MSR_IA32_VMX_CR0_FIXED1)))
    then Some (ERR_BAD_STATE, s)
    else if nonzero (not64 (Z.lor cr4' (not64 (s.(msrs) X86_MSR_IA32_VMX_CR4_FIXED0)))) ||
            nonzero (not64 (Z.lor (not64 cr4') (s.(msrs) X86_MSR_IA32_VMX_CR4_FIXED1)))
    then Some (ERR_BAD_STATE, s)
    else if pa =? 0 then None
    else
      let s1 := add_event (EvSetCr4 cr4') (set_cr4 cr4' s) in
      let (err, w) := insn_vmxon s.(world) pa in
      Some (err_status err,
            set_is_on_ (negb err) (add_event (EvVmxon pa) (set_world w s1))).
Proof.
  cbv zeta.
  unfold vmx_enable_control_registers.
  unfold bind at 1. unfold x86_get_cr0 at 1. unfold gets at 1.
  unfold bind at 1. rewrite cr_is_invalid_reads.
  destruct (nonzero _ || nonzero _); [ reflexivity | ].
  unfold bind at 1. unfold x86_get_cr4 at 1. unfold gets at 1.
  unfold bind at 1. rewrite cr_is_invalid_reads.
  destruct (nonzero _ || nonzero _); [ reflexivity | ].
  unfold x86_set_cr4, VmxOn, PhysicalAddress, vmxon, DEBUG_ASSERT, modify, gets, ret,
    bind.
  cbn.
  destruct (pa_ (vmxon_page_ s) =? 0); cbn [negb]; [ reflexivity | ].
  change (world (add_event _ (set_cr4 _ s))) with (world s).
  destruct (insn_vmxon (world s) (pa_ (vmxon_page_ s))) as [err w].
  destruct err; reflexivity.
Qed.

(** The feature-control MSR is rewritten or left alone; either way the
    bring-up then goes to the control registers, unless the MSR is locked
    with VMXON clear. *)
Lemma vmx_enable_feature_control_cases (s : State) :
  exists evs s0,
    (vmx_enable_feature_control s = Some (ERR_NOT_SUPPORTED, s) \/
     vmx_enable_feature_control s = vmx_enable_control_registers s0) /\
    s0.(trace) = evs ++ s.(trace) /\
    (evs = [] \/ exists v, evs = [EvWriteMsr X86_MSR_IA32_FEATURE_CONTROL v]) /\
    s0.(cr0) = s.(cr0) /\ s0.(cr4) = s.(cr4) /\ s0.(world) = s.(world) /\
    s0.(is_on_) = s.(is_on_) /\ s0.(vmxon_page_) = s.(vmxon_page_) /\
    (forall m, m <> X86_MSR_IA32_FEATURE_CONTROL -> s0.(msrs) m = s.(msrs) m).
Proof.
  unfold vmx_enable_feature_control, bind, read_msr, gets, ret.
  destruct (nonzero (Z.land _ X86_MSR_IA32_FEATURE_CONTROL_LOCK));
    destruct (nonzero (Z.land _ X86_MSR_IA32_FEATURE_CONTROL_VMXON));
    cbn [negb orb andb].
  - exists [], s. repeat split; auto.
  - exists [], s. repeat split; auto.
  - unfold write_msr, modify.
    eexists [_], _. split; [ right; reflexivity | ].
    cbn. repeat split; eauto.
    intros m Hm. destruct (Msr_eq_dec m X86_MSR_IA32_FEATURE_CONTROL); [ contradiction | reflexivity ].
  - unfold write_msr, modify.
    eexists [_], _. split; [ right; reflexivity | ].
    cbn. repeat split; eauto.
    intros m Hm. destruct (Msr_eq_dec m X86_MSR_IA32_FEATURE_CONTROL); [ contradiction | reflexivity ].
Qed.

(** [vmx_disable], by the outcome of VMXOFF. *)
Lemma vmx_disable_cases (s : State) :
  let cr4' := Z.land s.(cr4) (not64 X86_CR4_VMXE) in
  vmx_disable s =
    if s.(is_on_) then
      let (err, w) := insn_vmxoff s.(world) in
      let s1 := add_event EvVmxoff (set_world w s) in
      if err then Some (ERR_INTERNAL, s1)
      else Some (NO_ERROR, add_event (EvSetCr4 cr4') (set_cr4 cr4' s1))
    else Some (NO_ERROR, add_event (EvSetCr4 cr4') (set_cr4 cr4' s)).
Proof.
  cbv zeta.
  unfold vmx_disable, VmxOff, bind, gets, x86_get_cr4, x86_set_cr4, modify, ret, vmxoff.
  destruct (is_on_ s); [ | reflexivity ].
  destruct (insn_vmxoff (world s)) as [err w].
  destruct err; reflexivity.
Qed.

(** A bring-up that returns success has set CR4.VMXE and [is_on_]. *)
Lemma vmx_enable_is_on (s s1 : State) :
  vmx_enable s = Some (NO_ERROR, s1) ->
  s1.(cr4) = Z.lor s.(cr4) X86_CR4_VMXE /\ s1.(is_on_) = true.
Proof.
  intros E1.
  rewrite vmx_enable_capabilities in E1.
  destruct (vmx_capabilities s); [ | discriminate E1 ].
  destruct (vmx_enable_feature_control_cases s)
    as (evs & s0 & [Ef | Ef] & T0 & Hevs & C0 & C4 & W0 & I0 & P0 & M0);
    rewrite Ef in E1; [ discriminate E1 | ].
  rewrite vmx_enable_control_registers_cases in E1. cbv zeta in E1.
  destruct (nonzero _ || nonzero _) in E1; [ discriminate E1 | ].
  destruct (nonzero _ || nonzero _) in E1; [ discriminate E1 | ].
  destruct (pa_ (vmxon_page_ s0) =? 0); [ discriminate E1 | ].
  destruct (insn_vmxon _ _) as [err w].
  destruct err; [ discriminate E1 | ].
  injection E1 as <-. cbn. rewrite C4. split; reflexivity.
Qed.

(** X2.  [vmx_enable] returns NOT_SUPPORTED and leaves the machine as it
    was when one of the nine capability bits it insists on is clear: bits 54
    and 55 of IA32_VMX_BASIC, bits 6, 14, 20, 21, 25 and 26 of
    IA32_VMX_EPT_VPID_CAP, bit 8 of IA32_VMX_MISC.  When all nine are set
    it goes on to the feature-control MSR. *)
Theorem vmx_enable_required_capabilities (s : State) :
  ((exists m b, In (m, b) required_capabilities /\ Z.testbit (s.(msrs) m) b = false) ->
   vmx_enable s = Some (ERR_NOT_SUPPORTED, s)) /\
  ((forall m b, In (m, b) required_capabilities -> Z.testbit (s.(msrs) m) b = true) ->
   vmx_enable s = vmx_enable_feature_control s).
Proof.
  rewrite vmx_enable_capabilities. split.
  - intros (m & b & Hin & Hb).
    destruct (vmx_capabilities s) eqn:C; [ | reflexivity ].
    rewrite vmx_capabilities_bits in C. rewrite (C m b Hin) in Hb. discriminate Hb.
  - intros Hall. apply vmx_capabilities_bits in Hall. rewrite Hall. reflexivity.
Qed.

(** X3.  When [vmx_enable] returns success, the CPU is in VMX operation
    under the rules of the fixed-bit MSRs: CR0 has every bit of CR0_FIXED0
    and none outside CR0_FIXED1, CR4 with VMXE set has every bit of
    CR4_FIXED0 and none outside CR4_FIXED1 and is what CR4 now holds, the
    last two things done were the write of CR4 and VMXON on the VMXON page,
    and [is_on_] is true. *)
Theorem vmx_enable_success (s s' : State) :
  registers_u64 s -> is_u64 X86_CR4_VMXE ->
  vmx_enable s = Some (NO_ERROR, s') ->
  let cr4' := Z.lor s.(cr4) X86_CR4_VMXE in
  fixed_bits_ok s.(cr0) (s.(msrs) X86_MSR_IA32_VMX_CR0_FIXED0)
    (s.(msrs) X86_MSR_IA32_VMX_CR0_FIXED1) /\
  fixed_bits_ok cr4' (s.(msrs) X86_MSR_IA32_VMX_CR4_FIXED0)
    (s.(msrs) X86_MSR_IA32_VMX_CR4_FIXED1) /\
  s'.(cr0) = s.(cr0) /\
  s'.(cr4) = cr4' /\
  s'.(is_on_) = true /\
  s.(vmxon_page_).(pa_) <> 0 /\
  exists evs,
    s'.(trace) = EvVmxon s.(vmxon_page_).(pa_) :: EvSetCr4 cr4' :: evs ++ s.(trace) /\
    (evs = [] \/ exists v, evs = [EvWriteMsr X86_MSR_IA32_FEATURE_CONTROL v]).
Proof.
  intros (U0 & U4 & Um) Uv E. cbv zeta.
  rewrite vmx_enable_capabilities in E.
  destruct (vmx_capabilities s); [ | discriminate E ].
  destruct (vmx_enable_feature_control_cases s)
    as (evs & s0 & [Ef | Ef] & T0 & Hevs & C0 & C4 & W0 & I0 & P0 & M0);
    rewrite Ef in E; [ discriminate E | ].
  rewrite vmx_enable_control_registers_cases in E. cbv zeta in E.
  rewrite C0, C4, P0, W0 in E.
  rewrite !M0 in E by discriminate.
  destruct (nonzero _ || nonzero _) eqn:V0 in E; [ discriminate E | ].
  destruct (nonzero _ || nonzero _) eqn:V4 in E; [ discriminate E | ].
  apply cr_is_invalid_false in V0; [ | exact U0 | apply Um ].
  apply cr_is_invalid_false in V4; [ | apply lor_is_u64; assumption | apply Um ].
  destruct (Z.eqb_spec (pa_ (vmxon_page_ s)) 0) as [ | Hpa ]; [ discriminate E | ].
  destruct (insn_vmxon (world s) (pa_ (vmxon_page_ s))) as [err w].
  destruct err; [ discriminate E | ].
  injection E as <-. cbn.
  split; [ exact V0 | ]. split; [ exact V4 | ].
  split; [ exact C0 | ]. split; [ reflexivity | ]. split; [ reflexivity | ].
  split; [ exact Hpa | ].
  exists evs. rewrite T0. split; [ reflexivity | exact Hevs ].
Qed.

(** X4.  With the VMXON page allocated [vmx_enable] returns, and a failure
    is one of three.  NOT_SUPPORTED and BAD_STATE come before anything is
    done to CR4: CR4 and [is_on_] are as they were and no VMXON was
    executed.  INTERNAL is the failure of VMXON itself: by then CR4 has been
    written with VMXE set and is left so, with [is_on_] false. *)
Theorem vmx_enable_failure (s : State) :
  s.(vmxon_page_).(pa_) <> 0 ->
  exists status s' evs,
    vmx_enable s = Some (status, s') /\
    s'.(trace) = evs ++ s.(trace) /\
    match status with
    | NO_ERROR => s'.(is_on_) = true
    | ERR_NOT_SUPPORTED | ERR_BAD_STATE =>
        s'.(cr4) = s.(cr4) /\ s'.(is_on_) = s.(is_on_) /\
        s'.(world) = s.(world) /\
        (evs = [] \/ exists v, evs = [EvWriteMsr X86_MSR_IA32_FEATURE_CONTROL v])
    | ERR_INTERNAL =>
        s'.(cr4) = Z.lor s.(cr4) X86_CR4_VMXE /\ s'.(is_on_) = false /\
        In (EvVmxon s.(vmxon_page_).(pa_)) evs
    | _ => False
    end.
Proof.
  intros Hpa. rewrite vmx_enable_capabilities.
  destruct (vmx_capabilities s).
  2: { exists ERR_NOT_SUPPORTED, s, []. repeat split; auto. }
  destruct (vmx_enable_feature_control_cases s)
    as (evs & s0 & [Ef | Ef] & T0 & Hevs & C0 & C4 & W0 & I0 & P0 & M0);
    rewrite Ef.
  { exists ERR_NOT_SUPPORTED, s, []. repeat split; auto. }
  rewrite vmx_enable_control_registers_cases. cbv zeta.
  destruct (nonzero _ || nonzero _).
  { exists ERR_BAD_STATE, s0, evs. repeat split; auto. }
  destruct (nonzero _ || nonzero _).
  { exists ERR_BAD_STATE, s0, evs. repeat split; auto. }
  rewrite P0. apply Z.eqb_neq in Hpa. rewrite Hpa.
  destruct (insn_vmxon _ _) as [err w].
  destruct err; cbn [err_status negb].
  - eexists ERR_INTERNAL, _, (_ :: _ :: evs). split; [ reflexivity | ].
    cbn. rewrite T0, C4. repeat split. left. reflexivity.
  - eexists NO_ERROR, _, (_ :: _ :: evs). split; [ reflexivity | ].
    cbn. rewrite T0. repeat split.
Qed.

(** X5.  [vmx_disable] always returns.  It executes VMXOFF only when
    [is_on_] is true.  When VMXOFF fails it returns INTERNAL and CR4 is as
    it was; otherwise it returns success and CR4 has lost VMXE.  [is_on_]
    is not changed on either path. *)
Theorem vmx_disable_outcomes (s : State) :
  exists status s',
    vmx_disable s = Some (status, s') /\
    s'.(is_on_) = s.(is_on_) /\
    s'.(cr0) = s.(cr0) /\
    match status with
    | NO_ERROR =>
        let cr4' := Z.land s.(cr4) (not64 X86_CR4_VMXE) in
        s'.(cr4) = cr4' /\
        s'.(trace) =
          EvSetCr4 cr4' :: (if s.(is_on_) then [EvVmxoff] else []) ++ s.(trace)
    | ERR_INTERNAL =>
        s.(is_on_) = true /\ s'.(cr4) = s.(cr4) /\
        s'.(trace) = EvVmxoff :: s.(trace)
    | _ => False
    end.
Proof.
  rewrite vmx_disable_cases. cbv zeta.
  destruct (is_on_ s) eqn:On.
  - destruct (insn_vmxoff (world s)) as [err w].
    destruct err.
    + eexists ERR_INTERNAL, _. split; [ reflexivity | ]. cbn. auto.
    + eexists NO_ERROR, _. split; [ reflexivity | ]. cbn. auto.
  - eexists NO_ERROR, _. split; [ reflexivity | ]. cbn. auto.
Qed.

(** X6.  Bring-up followed by tear-down gives CR4 back: when CR4 had VMXE
    clear, a successful [vmx_enable] followed by a successful
    [vmx_disable] leaves CR4 with its first value, and the tear-down has
    executed VMXOFF. *)
Theorem vmx_enable_disable_cr4 (s s1 s2 : State) :
  is_u64 s.(cr4) -> Z.land s.(cr4) X86_CR4_VMXE = 0 ->
  vmx_enable s = Some (NO_ERROR, s1) ->
  vmx_disable s1 = Some (NO_ERROR, s2) ->
  s1.(cr4) = Z.lor s.(cr4) X86_CR4_VMXE /\
  s2.(cr4) = s.(cr4) /\
  s2.(trace) = EvSetCr4 s.(cr4) :: EvVmxoff :: s1.(trace).
Proof.
  intros U4 Hclear E1 E2.
  destruct (vmx_enable_is_on _ _ E1) as [H4 Hon].
  rewrite vmx_disable_cases in E2. cbv zeta in E2. rewrite Hon in E2.
  destruct (insn_vmxoff (world s1)) as [err w].
  destruct err; [ discriminate E2 | ].
  injection E2 as <-. cbn.
  rewrite H4, (land_lor_not64 _ _ U4 Hclear). auto.
Qed.

End BringUp.

(* ================================================================== *)
(** ** Running a computation on a state given by its parts *)

(** Unfold the monad, the primitives that are state changes, the setters
    and the projections: a straight-line computation on a state given as a
    record becomes its result. *)
Ltac run_in E :=
  cbv beta iota zeta delta
    [bind ret gets modify DEBUG_ASSERT
     read_msr write_msr x86_get_cr0 x86_get_cr3 x86_get_cr4 x86_set_cr4
     arch_ints_disabled arch_disable_ints arch_enable_ints
     vmread vmwrite vmcs_read16 vmcs_read32 vmcs_read64 vmcs_readXX
     vmcs_write16 vmcs_write32 vmcs_write64 vmcs_writeXX
     PhysicalAddress VirtualAddress cr_is_invalid ept_pointer edit_msr_list
     edit_entry next_rip modify_guest_state
     add_event set_msrs set_cr4 set_ints_disabled set_vmcs set_world set_is_on_
     set_msr_bitmaps set_host_msr_list set_guest_msr_list set_vmx_state_
     set_do_resume_ set_serial_fifo set_trace
     msrs cr0 cr3 cr4 ints_disabled vmcs world vmxon_page_ is_on_ page_
     msr_bitmaps_page_ host_msr_page_ guest_msr_page_ msr_bitmaps host_msr_list
     guest_msr_list vmx_state_ do_resume_ serial_fifo trace] in E.

(** An assertion on the way: the computation returned, so it held. *)
Ltac run_assert E :=
  match type of E with
  | context [if ?c then Some ?x else None] =>
      let Hc := fresh "Hc" in
      destruct c eqn:Hc; [ | exfalso; revert E; cbv beta iota; discriminate ]
  end.

Ltac run E := run_in E; repeat (run_assert E; run_in E).

(** The state as a record of variables. *)
Ltac parts s :=
  let ms := fresh "ms" in let c0 := fresh "c0" in let c3 := fresh "c3" in
  let c4 := fresh "c4" in let ints := fresh "ints" in let vm := fresh "vm" in
  let w := fresh "w" in let vp := fresh "vp" in let on := fresh "on" in
  let pg := fresh "pg" in let bp := fresh "bp" in let hp := fresh "hp" in
  let gp := fresh "gp" in let bm := fresh "bm" in let hl := fresh "hl" in
  let gl := fresh "gl" in let vs := fresh "vs" in let dr := fresh "dr" in
  let sf := fresh "sf" in let tr := fresh "tr" in
  destruct s as [ms c0 c3 c4 ints vm w vp on pg bp hp gp bm hl gl vs dr sf tr].

(* ================================================================== *)
(** ** The EPT pointer, the MSR bitmaps and the MSR lists *)

Lemma lor_disjoint_add (a b : Z) : Z.land a b = 0 -> Z.lor a b = a + b.
Proof.
  intros E. rewrite (Z.add_nocarry_lxor a b E). symmetry. apply Z.lxor_lor. exact E.
Qed.

(** A page-aligned address has nothing in common with a value below the
    page size. *)
Lemma land_aligned_low (a k : Z) :
  IS_PAGE_ALIGNED a = true -> 0 <= k < 4096 -> Z.land a k = 0.
Proof.
  unfold IS_PAGE_ALIGNED, PAGE_SIZE. intros Ha Hk.
  apply Z.eqb_eq in Ha. change (4096 - 1) with (Z.ones 12) in Ha.
  apply Z.bits_inj'; intros i Hi. rewrite Z.land_spec, Z.bits_0.
  destruct (Z.ltb_spec i 12).
  - apply (f_equal (fun z => Z.testbit z i)) in Ha.
    rewrite Z.land_spec, Z.bits_0, Z.testbit_ones_nonneg in Ha by lia.
    replace (i <? 12) with true in Ha by (symmetry; apply Z.ltb_lt; lia).
    rewrite andb_true_r in Ha. rewrite Ha. reflexivity.
  - rewrite <- (Z.mod_small k (2 ^ 12)) by lia.
    rewrite Z.mod_pow2_bits_high by lia. apply andb_false_r.
Qed.

Lemma ept_flags_value (t : Z) :
  0 <= t < 8 -> Z.lor (Z.lor (Z.shiftl t 0) (Z.shiftl 3 3)) (Z.shiftl 1 6) = t + 88.
Proof.
  intros Ht.
  assert (C : t = 0 \/ t = 1 \/ t = 2 \/ t = 3 \/ t = 4 \/ t = 5 \/ t = 6 \/ t = 7) by lia.
  repeat (destruct C as [-> | C]; [ reflexivity | ]). subst t. reflexivity.
Qed.

(** Where [ignore_msr] goes in the page. *)
Lemma msr_low_value (msr : Z) : wrap16 (Z.land msr 0x1fff) = msr mod 8192.
Proof.
  change 0x1fff with (Z.ones 13). rewrite Z.land_ones by lia.
  rewrite wrap16_mod. apply Z.mod_small.
  pose proof (Z.mod_pos_bound msr (2 ^ 13) ltac:(lia)). change (2 ^ 13) with 8192 in *. lia.
Qed.

Lemma msr_byte_value (msr : Z) : wrap16 (msr mod 8192 / 8) = msr mod 8192 / 8.
Proof.
  rewrite wrap16_mod. apply Z.mod_small.
  pose proof (Z.mod_pos_bound msr 8192 ltac:(lia)).
  split; [ apply Z.div_pos; lia | apply Z.div_lt_upper_bound; lia ].
Qed.

Lemma msr_bit_value (msr : Z) : wrap8 (msr mod 8192 mod 8) = msr mod 8192 mod 8.
Proof.
  rewrite wrap8_mod. apply Z.mod_small.
  pose proof (Z.mod_pos_bound (msr mod 8192) 8 ltac:(lia)). lia.
Qed.

Lemma msr_bitmap_bit_range (msr : Z) : 0 <= msr_bitmap_bit msr < 8.
Proof. unfold msr_bitmap_bit. apply Z.mod_pos_bound. lia. Qed.

Lemma msr_bitmap_byte_range (write : bool) (msr : Z) :
  (if write then 2048 else 0) <= msr_bitmap_byte write msr
    < (if write then 4096 else 2048).
Proof.
  unfold msr_bitmap_byte.
  pose proof (Z.mod_pos_bound msr 8192 ltac:(lia)).
  assert (0 <= msr mod 8192 / 8 < 1024)
    by (split; [ apply Z.div_pos; lia | apply Z.div_lt_upper_bound; lia ]).
  destruct (0xc0000000 <=? msr), write; lia.
Qed.

(** The mask [(uint8_t)~(1 << bit)]. *)
Lemma testbit_clear_mask (bit j : Z) :
  0 <= bit -> 0 <= j ->
  Z.testbit (wrap8 (Z.lnot (Z.shiftl 1 bit))) j = negb (j =? bit) && (j <? 8).
Proof.
  intros Hb Hj. unfold wrap8. change mask8 with (Z.ones 8).
  rewrite Z.land_spec, Z.lnot_spec, Z.testbit_ones_nonneg by lia.
  rewrite Z.shiftl_1_l, Z.pow2_bits_eqb by lia.
  rewrite (Z.eqb_sym bit j). reflexivity.
Qed.

Section Builder.

Context `{Platform}.

(** X7.  [ept_pointer] asserts that the PML4 address is page-aligned.  For
    an aligned address and a write-back memory type below 8 the pointer is
    the address plus the flags in its low twelve bits: the memory type in
    bits 2:0, walk length 3 in bits 5:3 and bit 6 for the accessed and
    dirty flags; the address is the pointer with the low twelve bits
    dropped. *)
Theorem ept_pointer_layout (pml4_address : Z) (s : State) :
  0 <= VMX_MEMORY_TYPE_WRITE_BACK < 8 ->
  if IS_PAGE_ALIGNED pml4_address then
    exists eptp,
      ept_pointer pml4_address s = Some (eptp, s) /\
      eptp = pml4_address + (VMX_MEMORY_TYPE_WRITE_BACK + 24 + 64) /\
      eptp mod 4096 = VMX_MEMORY_TYPE_WRITE_BACK + 24 + 64 /\
      eptp / 4096 * 4096 = pml4_address
  else ept_pointer pml4_address s = None.
Proof.
  intros Ht. unfold ept_pointer, bind, DEBUG_ASSERT, ret.
  destruct (IS_PAGE_ALIGNED pml4_address) eqn:Ha; [ | reflexivity ].
  eexists. split; [ reflexivity | ].
  rewrite <- !Z.lor_assoc, (Z.lor_assoc (Z.shiftl _ 0)), (ept_flags_value _ Ht).
  rewrite lor_disjoint_add by (apply land_aligned_low; [ exact Ha | lia ]).
  assert (Hm : pml4_address mod 4096 = 0).
  { unfold IS_PAGE_ALIGNED, PAGE_SIZE in Ha. apply Z.eqb_eq in Ha.
    change (4096 - 1) with (Z.ones 12) in Ha. rewrite Z.land_ones in Ha by lia.
    exact Ha. }
  split; [ lia | ].
  split; Z.div_mod_to_equations; lia.
Qed.

(** What [ignore_msr] does to the bitmaps, for a call that returns. *)
Lemma ignore_msr_returns (page : VmxPage) (msr : Z) (s s' : State) :
  ignore_msr page msr s = Some (tt, s') ->
  page.(pa_) <> 0 /\
  exists bitmaps,
    s' = set_msr_bitmaps bitmaps s /\
    (forall write,
       Z.testbit (bitmaps (msr_bitmap_byte write msr)) (msr_bitmap_bit msr) = false) /\
    (forall byte bit, 0 <= bit ->
       Z.testbit (bitmaps byte) bit = true ->
       Z.testbit (s.(msr_bitmaps) byte) bit = true) /\
    (forall byte bit, 0 <= bit < 8 ->
       (forall write, (byte, bit) <> (msr_bitmap_byte write msr, msr_bitmap_bit msr)) ->
       Z.testbit (bitmaps byte) bit = Z.testbit (s.(msr_bitmaps) byte) bit).
Proof.
  intros E. unfold ignore_msr in E. cbv zeta in E.
  rewrite !msr_low_value, !msr_byte_value, !msr_bit_value in E.
  change (Z.shiftl 1 10) with 1024 in E. change (Z.shiftl 2 10) with 2048 in E.
  fold (msr_bitmap_bit msr) in E.
  assert (A1 : (if 0xc0000000 <=? msr then 1024 else 0) + msr mod 8192 / 8
               = msr_bitmap_byte false msr) by (unfold msr_bitmap_byte; lia).
  assert (A2 : (if 0xc0000000 <=? msr then 1024 else 0) + 2048 + msr mod 8192 / 8
               = msr_bitmap_byte true msr) by reflexivity.
  rewrite A1, A2 in E. clear A1 A2.
  pose proof (msr_bitmap_bit_range msr) as Hbit.
  pose proof (msr_bitmap_byte_range false msr) as Hr.
  pose proof (msr_bitmap_byte_range true msr) as Hw.
  cbv iota in Hr, Hw.
  parts s. run E. injection E as <-.
  split; [ apply Z.eqb_neq; destruct (pa_ page =? 0); [ discriminate Hc | reflexivity ] | ].
  eexists. split; [ reflexivity | ].
  cbv beta iota delta [msr_bitmaps].
  split; [ | split ].
  - intros [].
    + rewrite Z.eqb_refl, Z.land_spec, testbit_clear_mask by lia.
      rewrite Z.eqb_refl. apply andb_false_r.
    + destruct (Z.eqb_spec (msr_bitmap_byte false msr) (msr_bitmap_byte true msr)); [ lia | ].
      rewrite Z.eqb_refl, Z.land_spec, testbit_clear_mask by lia.
      rewrite Z.eqb_refl. apply andb_false_r.
  - intros byte bit Hb.
    destruct (byte =? msr_bitmap_byte true msr), (byte =? msr_bitmap_byte false msr);
      rewrite ?Z.land_spec; intros Ht;
      repeat match goal with
             | Hx : _ && _ = true |- _ => apply andb_true_iff in Hx; destruct Hx as [Hx _]
             end; assumption.
  - intros byte bit Hb Hne.
    destruct (Z.eqb_spec byte (msr_bitmap_byte true msr)) as [-> | ];
      [ | destruct (Z.eqb_spec byte (msr_bitmap_byte false msr)) as [-> | ];
          [ | reflexivity ] ].
    + destruct (Z.eqb_spec (msr_bitmap_byte true msr) (msr_bitmap_byte false msr)); [ lia | ].
      rewrite Z.land_spec, testbit_clear_mask by lia.
      destruct (Z.eqb_spec bit (msr_bitmap_bit msr)) as [-> | ];
        [ exfalso; apply (Hne true); reflexivity | ].
      replace (bit <? 8) with true by (symmetry; apply Z.ltb_lt; lia).
      apply andb_true_r.
    + rewrite Z.land_spec, testbit_clear_mask by lia.
      destruct (Z.eqb_spec bit (msr_bitmap_bit msr)) as [-> | ];
        [ exfalso; apply (Hne false); reflexivity | ].
      replace (bit <? 8) with true by (symmetry; apply Z.ltb_lt; lia).
      apply andb_true_r.
Qed.

Lemma ignore_msr_runs (page : VmxPage) (msr : Z) (s : State) :
  page.(pa_) <> 0 -> exists s', ignore_msr page msr s = Some (tt, s').
Proof.
  intros Hp. unfold ignore_msr, bind, VirtualAddress, DEBUG_ASSERT, modify.
  apply Z.eqb_neq in Hp. rewrite Hp. cbn. eauto.
Qed.

(** X8.  [ignore_msr] on an allocated bitmaps page returns, having cleared
    the bit of the MSR in the read bitmap and in the write bitmap: bit
    [msr mod 8] of byte [(msr mod 8192) / 8] of the low or of the high
    half, by the range of the MSR, in the read bitmaps at offset 0 and in
    the write bitmaps at offset 2048.  Both bytes are inside the page.  It
    sets no bit, changes no other bit of the bytes of the page and nothing
    else of the state.  On a page that is not allocated its assertion
    fails. *)
Theorem ignore_msr_bits (page : VmxPage) (msr : Z) (s : State) :
  (page.(pa_) = 0 -> ignore_msr page msr s = None) /\
  (page.(pa_) <> 0 ->
   exists bitmaps,
     ignore_msr page msr s = Some (tt, set_msr_bitmaps bitmaps s) /\
     (forall write,
        0 <= msr_bitmap_byte write msr < 4096 /\
        0 <= msr_bitmap_bit msr < 8 /\
        Z.testbit (bitmaps (msr_bitmap_byte write msr)) (msr_bitmap_bit msr) = false) /\
     (forall byte bit, 0 <= bit ->
        Z.testbit (bitmaps byte) bit = true ->
        Z.testbit (s.(msr_bitmaps) byte) bit = true) /\
     (forall byte bit, 0 <= bit < 8 ->
        (forall write, (byte, bit) <> (msr_bitmap_byte write msr, msr_bitmap_bit msr)) ->
        Z.testbit (bitmaps byte) bit = Z.testbit (s.(msr_bitmaps) byte) bit)).
Proof.
  split.
  - intros Hp. unfold ignore_msr, bind, VirtualAddress, DEBUG_ASSERT.
    rewrite Hp. reflexivity.
  - intros Hp. destruct (ignore_msr_runs page msr s Hp) as (s' & E).
    destruct (ignore_msr_returns _ _ _ _ E) as (_ & bitmaps & -> & Hc & Hm & Ho).
    exists bitmaps. split; [ exact E | ].
    split; [ | split; assumption ].
    intros write. split; [ | split; [ apply msr_bitmap_bit_range | apply Hc ] ].
    pose proof (msr_bitmap_byte_range write msr). destruct write; lia.
Qed.

(** X9.  [edit_msr_list] asserts that the index is below 32, the number
    of 16-byte entries in 512 bytes, and that the page is allocated.  It
    then stores the MSR number and the value in the entry at the index and
    leaves the reserved word of that entry, every other entry, the other
    list and the rest of the state as they were. *)
Theorem edit_msr_list_entry (index msr value : Z) (s : State) :
  (32 <= index -> forall page, edit_msr_list page index msr value s = None) /\
  (s.(host_msr_page_).(pa_) = 0 -> edit_msr_list HostMsrPage index msr value s = None) /\
  (index < 32 -> s.(host_msr_page_).(pa_) <> 0 ->
   exists entries,
     edit_msr_list HostMsrPage index msr value s =
       Some (tt, set_host_msr_list entries s) /\
     entries index = mkMsrListEntry msr (s.(host_msr_list) index).(reserved) value /\
     forall i, i <> index -> entries i = s.(host_msr_list) i) /\
  (s.(guest_msr_page_).(pa_) = 0 -> edit_msr_list GuestMsrPage index msr value s = None) /\
  (index < 32 -> s.(guest_msr_page_).(pa_) <> 0 ->
   exists entries,
     edit_msr_list GuestMsrPage index msr value s =
       Some (tt, set_guest_msr_list entries s) /\
     entries index = mkMsrListEntry msr (s.(guest_msr_list) index).(reserved) value /\
     forall i, i <> index -> entries i = s.(guest_msr_list) i).
Proof.
  unfold edit_msr_list, bind, DEBUG_ASSERT, gets, VirtualAddress, modify.
  change (512 / 16) with 32.
  split; [ | split; [ | split; [ | split ] ] ].
  - intros Hi page. apply Z.ltb_ge in Hi. rewrite Hi. reflexivity.
  - intros Hp. destruct (index <? 32); [ cbv beta iota; rewrite Hp | ]; reflexivity.
  - intros Hi Hp. apply Z.ltb_lt in Hi. apply Z.eqb_neq in Hp. rewrite Hi.
    cbv beta iota. rewrite Hp. cbn.
    eexists. split; [ reflexivity | ]. unfold edit_entry. split.
    + rewrite Z.eqb_refl. reflexivity.
    + intros i Hne. apply Z.eqb_neq in Hne. rewrite Hne. reflexivity.
  - intros Hp. destruct (index <? 32); [ cbv beta iota; rewrite Hp | ]; reflexivity.
  - intros Hi Hp. apply Z.ltb_lt in Hi. apply Z.eqb_neq in Hp. rewrite Hi.
    cbv beta iota. rewrite Hp. cbn.
    eexists. split; [ reflexivity | ]. unfold edit_entry. split.
    + rewrite Z.eqb_refl. reflexivity.
    + intros i Hne. apply Z.eqb_neq in Hne. rewrite Hne. reflexivity.
Qed.

End Builder.

(* ================================================================== *)
(** ** What a computation leaves alone *)

Section Preserves.

Context `{Platform} {B : Type} (part : State -> B).

Lemma preserves_ret {A : Type} (a : A) : preserves part (ret a).
Proof. intros s a' s' E. injection E as _ <-. reflexivity. Qed.

Lemma preserves_gets {A : Type} (f : State -> A) : preserves part (gets f).
Proof. intros s a' s' E. injection E as _ <-. reflexivity. Qed.

Lemma preserves_DEBUG_ASSERT (b : bool) : preserves part (DEBUG_ASSERT (S := State) b).
Proof.
  intros s a' s' E. unfold DEBUG_ASSERT in E. destruct b; [ | discriminate E ].
  injection E as _ <-. reflexivity.
Qed.

Lemma preserves_bind {A C : Type} (m : M A) (k : A -> M C) :
  preserves part m -> (forall a, preserves part (k a)) -> preserves part (bind m k).
Proof.
  intros Hm Hk s b s' E. unfold bind in E.
  destruct (m s) as [[a s1] | ] eqn:E1; [ | discriminate E ].
  rewrite (Hk a _ _ _ E). apply (Hm _ _ _ E1).
Qed.

Lemma preserves_modify (f : State -> State) :
  (forall s, part (f s) = part s) -> preserves part (modify f).
Proof. intros Hf s a s' E. injection E as _ <-. apply Hf. Qed.

(** The VMX instructions change the world and add an event. *)
Lemma preserves_vmclear (pa : Z) :
  (forall w e s, part (add_event e (set_world w s)) = part s) ->
  preserves part (vmclear pa).
Proof.
  intros Hf s a s' E. unfold vmclear in E.
  destruct (insn_vmclear _ _) as [err w]. injection E as _ <-. apply Hf.
Qed.

Lemma preserves_vmptrld (pa : Z) :
  (forall w e s, part (add_event e (set_world w s)) = part s) ->
  preserves part (vmptrld pa).
Proof.
  intros Hf s a s' E. unfold vmptrld in E.
  destruct (insn_vmptrld _ _) as [err w]. injection E as _ <-. apply Hf.
Qed.

Lemma preserves_cpuid (sel : Z) :
  (forall e s, part (add_event e s) = part s) -> preserves part (cpuid sel).
Proof. intros Hf s a s' E. injection E as _ <-. apply Hf. Qed.

Lemma preserves_serial_fifo_Write (data : list Z) :
  (forall fifo e s, part (add_event e (set_serial_fifo fifo s)) = part s) ->
  preserves part (serial_fifo_Write data).
Proof.
  intros Hf s a s' E. unfold serial_fifo_Write in E.
  destruct (FifoDispatcher_Write _ _) as [[status actual] fifo].
  injection E as _ <-. apply Hf.
Qed.

Lemma preserves_vmx_enter (resume : bool) :
  (forall w st v e s,
     part (add_event e (set_vmcs v (set_vmx_state_ st (set_world w s)))) = part s) ->
  preserves part (vmx_enter resume).
Proof.
  intros Hf s a s' E. unfold vmx_enter in E.
  destruct (asm_vmx_enter _ _ _ _) as [[[status w] st] v].
  injection E as _ <-. apply Hf.
Qed.

End Preserves.

(** The code, down to the monad and the primitives. *)
Ltac code_unfold :=
  cbv beta zeta delta
    [Setup Clear AutoVmcsLoad AutoVmcsLoad_ctor AutoVmcsLoad_dtor
     Setup_body Setup_controls Setup_execution Setup_host_state
     Setup_guest_state Setup_guest_rest set_vmcs_control ept_pointer
     ignore_msr edit_msr_list cr_is_invalid
     Enter Enter_prepare Enter_run vmexit_handler handle_cpuid ExitInfo_ctor
     next_rip modify_guest_state
     read_msr write_msr x86_get_cr0 x86_get_cr3 x86_get_cr4 x86_set_cr4
     arch_ints_disabled arch_disable_ints arch_enable_ints
     vmread vmwrite vmcs_read16 vmcs_read32 vmcs_read64 vmcs_readXX
     vmcs_write16 vmcs_write32 vmcs_write64 vmcs_writeXX
     PhysicalAddress VirtualAddress].

(** One step through a computation: a sequence, a primitive or a
    branch. *)
Ltac frame_step :=
  lazymatch goal with
  | |- preserves _ (bind _ _) => apply preserves_bind; [ | intros ? ]
  | |- preserves _ (ret _) => apply preserves_ret
  | |- preserves _ (gets _) => apply preserves_gets
  | |- preserves _ (DEBUG_ASSERT _) => apply preserves_DEBUG_ASSERT
  | |- preserves _ (modify _) => apply preserves_modify; intros ?; reflexivity
  | |- preserves _ (vmclear _) => apply preserves_vmclear; intros ? ? ?; reflexivity
  | |- preserves _ (vmptrld _) => apply preserves_vmptrld; intros ? ? ?; reflexivity
  | |- preserves _ (cpuid _) => apply preserves_cpuid; intros ? ?; reflexivity
  | |- preserves _ (serial_fifo_Write _) =>
      apply preserves_serial_fifo_Write; intros ? ? ?; reflexivity
  | |- preserves _ (vmx_enter _) =>
      apply preserves_vmx_enter; intros ? ? ? ? ?; reflexivity
  | |- preserves _ (if ?b then _ else _) => destruct b
  | |- preserves _ (match ?x with _ => _ end) => destruct x
  end.

Ltac frame_run := code_unfold; repeat frame_step.

(* ================================================================== *)
(** ** Sequences that return *)

Section Sequences.

Context `{Platform}.

(** A sequence that returns has run its first part and then the rest. *)
Lemma bind_returns {A B : Type} (m : M A) (k : A -> M B) (s s' : State) (b : B) :
  bind m k s = Some (b, s') ->
  exists a s1, m s = Some (a, s1) /\ k a s1 = Some (b, s').
Proof.
  unfold bind. destruct (m s) as [[a s1] | ]; [ | discriminate ].
  intros E. exists a, s1. split; [ reflexivity | exact E ].
Qed.

(** [status = m; if (status != NO_ERROR) return status;] before a rest
    that returns success: [m] returned success. *)
Lemma check_returns (m : M status_t) (k : M status_t) (s s' : State) :
  bind m (fun status => if status_eqb status NO_ERROR then k else ret status) s
    = Some (NO_ERROR, s') ->
  exists s1, m s = Some (NO_ERROR, s1) /\ k s1 = Some (NO_ERROR, s').
Proof.
  intros E. apply bind_returns in E. destruct E as (st & s1 & E1 & E2).
  destruct (status_eqb st NO_ERROR) eqn:Es.
  - apply status_eqb_eq in Es. subst st. exists s1. split; assumption.
  - unfold ret in E2. injection E2 as -> _. discriminate Es.
Qed.

End Sequences.

(** A read of an MSR at the head of a sequence. *)
Ltac read_returns E :=
  let R := fresh "R" in
  apply bind_returns in E; destruct E as (? & ? & R & E);
  unfold read_msr, gets in R; injection R as <- <-.

(** Cut a sequence that returns into its steps. *)
Ltac steps E :=
  repeat (apply bind_returns in E;
          let a := fresh "a" in
          let s1 := fresh "s" in
          let E1 := fresh "E" in
          destruct E as (a & s1 & E1 & E);
          try match type of a with unit => destruct a end).

Ltac step E :=
  apply bind_returns in E;
  let a := fresh "a" in
  let s1 := fresh "s" in
  let E1 := fresh "E" in
  destruct E as (a & s1 & E1 & E);
  try match type of a with unit => destruct a end.

(** Settle the steps whose state is known, one after the other. *)
Ltac settle :=
  repeat match goal with
         | E : ?lhs = Some (?a, ?s1) |- _ =>
             is_var s1;
             lazymatch lhs with context [mkState] => idtac end;
             run E;
             lazymatch type of E with Some _ = Some _ => idtac end;
             first [ injection E as <- <- | injection E as <- ]
         end.

(* ================================================================== *)
(** ** VMCS construction *)

Section Construction.

Context `{Platform}.

(** [Clear], by whether the page is allocated. *)
Lemma Clear_cases (s : State) :
  let pa := s.(page_).(pa_) in
  Clear s =
    if pa =? 0 then Some (NO_ERROR, s)
    else
      let (err, w) := insn_vmclear s.(world) pa in
      Some (err_status err, add_event (EvVmclear pa) (set_world w s)).
Proof.
  cbv zeta. unfold Clear, bind, gets, IsAllocated, PhysicalAddress, DEBUG_ASSERT, ret, vmclear.
  destruct (pa_ (page_ s) =? 0); reflexivity.
Qed.

(** X10.  [Setup] begins with VMCLEAR of the VMCS page.  When VMCLEAR
    fails [Setup] returns INTERNAL at once: nothing but the VMCLEAR has
    happened, so no VMCS was loaded, no field written and interrupts were
    not touched.  When it succeeds the scoped load and the body follow.  On
    a VMCS page that is not allocated no VMCLEAR is executed and the
    assertion of the scoped load fails. *)
Theorem Setup_clears_first (pml4_address : Z) (s : State) :
  let pa := s.(page_).(pa_) in
  let s0 := add_event (EvVmclear pa) (set_world (snd (insn_vmclear s.(world) pa)) s) in
  (pa = 0 -> Setup pml4_address s = None) /\
  (pa <> 0 ->
   if fst (insn_vmclear s.(world) pa)
   then Setup pml4_address s = Some (ERR_INTERNAL, s0)
   else Setup pml4_address s = AutoVmcsLoad s.(page_) (Setup_body pml4_address) s0).
Proof.
  cbv zeta.
  assert (Hs : Setup pml4_address s =
               match Clear s with
               | Some (st, s0) =>
                   if status_eqb st NO_ERROR
                   then AutoVmcsLoad s0.(page_) (Setup_body pml4_address) s0
                   else Some (st, s0)
               | None => None
               end).
  { unfold Setup. unfold bind at 1.
    destruct (Clear s) as [[st s0] | ]; [ | reflexivity ].
    destruct (status_eqb st NO_ERROR); reflexivity. }
  rewrite Hs, Clear_cases. cbv zeta. split.
  - intros Hp. rewrite Hp. cbn [Z.eqb status_eqb].
    unfold AutoVmcsLoad, AutoVmcsLoad_ctor, bind, arch_ints_disabled, gets,
      DEBUG_ASSERT, arch_disable_ints, modify, PhysicalAddress.
    destruct (ints_disabled s); cbn [negb]; [ reflexivity | ].
    cbn. rewrite Hp. reflexivity.
  - intros Hp. apply Z.eqb_neq in Hp. rewrite Hp.
    destruct (insn_vmclear (world s) (pa_ (page_ s))) as [err w].
    destruct err; reflexivity.
Qed.

(** [Setup] leaves what is outside the VMCS and its pages. *)
Lemma Setup_preserves_outside (pml4_address : Z) :
  preserves outside_vmcs (Setup pml4_address).
Proof. frame_run. Qed.

(** X11.  [Setup] works on the VMCS and its pages only.  Whatever it
    returns, the MSRs, CR0, CR3, CR4, the VMX flag, the saved guest
    registers, the launch flag and the FIFO are as they were, and so are
    the three VMCS fields that are left to [Enter]: HOST_CR3, GUEST_CR3 and
    GUEST_RIP. *)
Theorem Setup_leaves (pml4_address : Z) (s s' : State) (status : status_t) :
  Setup pml4_address s = Some (status, s') ->
  outside_vmcs s' = outside_vmcs s /\
  forall f, In f fields_of_Enter -> s'.(vmcs) f = s.(vmcs) f.
Proof.
  intros E. split.
  - apply (Setup_preserves_outside pml4_address _ _ _ E).
  - intros f Hin. revert s status s' E.
    change (preserves (fun s => vmcs s f) (Setup pml4_address)).
    cbn in Hin.
    repeat (destruct Hin as [<- | Hin]; [ frame_run | ]).
    contradiction.
Qed.

(** A call of the control helper that returns success: the state it
    leaves and the value it has written. *)
Lemma set_vmcs_control_returns (controls : VmcsField32.t)
    (true_msr old_msr set clear : Z) (s s' : State) :
  is_u64 true_msr ->
  set_vmcs_control controls true_msr old_msr set clear s = Some (NO_ERROR, s') ->
  let v := control_of true_msr old_msr set clear in
  let allowed_0 := wrap32 true_msr in
  let allowed_1 := true_msr / 2 ^ 32 in
  s' = add_event (EvVmwrite (F32 controls) v)
         (set_vmcs (fun f => if Field_eq_dec f (F32 controls) then v else s.(vmcs) f) s) /\
  Z.land v allowed_0 = allowed_0 /\
  Z.land v (wrap32 set) = wrap32 set /\
  Z.land v (wrap32 clear) = 0 /\
  (Z.land allowed_0 (not32 allowed_1) = 0 -> Z.land v (not32 allowed_1) = 0).
Proof.
  intros Ht E. cbv zeta. unfold control_of. rewrite (BITS_SHIFT_63_32 _ Ht).
  assert (Hw : set_vmcs_control controls true_msr old_msr set clear s =
               set_vmcs_control controls true_msr old_msr (wrap32 set) (wrap32 clear) s).
  { unfold set_vmcs_control. rewrite !wrap32_wrap32. reflexivity. }
  rewrite Hw in E. clear Hw.
  pose proof (wrap32_is_u32 set) as Hs. pose proof (wrap32_is_u32 clear) as Hc.
  pose proof (wrap32_is_u32 true_msr) as Ha0.
  pose proof (div_pow32_is_u32 _ Ht) as Ha1.
  rewrite set_vmcs_control_cases in E by assumption. cbv zeta in E.
  destruct (Z.eqb_spec (Z.land (true_msr / 2 ^ 32) (wrap32 set)) (wrap32 set)) as [E1 | ];
    cbn [negb] in E; [ | discriminate E ].
  destruct (Z.eqb_spec (Z.land (not32 (wrap32 true_msr)) (wrap32 clear)) (wrap32 clear))
    as [E2 | ]; cbn [negb] in E; [ | discriminate E ].
  destruct (Z.eqb_spec (Z.land (wrap32 set) (wrap32 clear)) 0) as [E3 | ];
    cbn [negb] in E; [ | discriminate E ].
  unfold vmwrite, modify in E. injection E as <-.
  split; [ reflexivity | ].
  split; [ apply control_value_allowed_0; assumption | ].
  split; [ apply control_value_set; assumption | ].
  split; [ apply control_value_clear; assumption | ].
  intros E4. apply control_value_allowed_1; assumption.
Qed.

(** A call of [Setup] that returns success, stage by stage. *)
Lemma Setup_stages (pml4_address : Z) (s s' : State) :
  Setup pml4_address s = Some (NO_ERROR, s') ->
  exists s0 s1 s2 s3 s4 s5,
    Clear s = Some (NO_ERROR, s0) /\
    AutoVmcsLoad_ctor s0.(page_) s0 = Some (tt, s1) /\
    Setup_controls s1 = Some (NO_ERROR, s2) /\
    Setup_execution pml4_address s2 = Some (tt, s3) /\
    Setup_host_state s3 = Some (tt, s4) /\
    Setup_guest_state s4 = Some (NO_ERROR, s5) /\
    AutoVmcsLoad_dtor s5 = Some (tt, s').
Proof.
  intros E. unfold Setup in E.
  apply check_returns in E. destruct E as (s0 & E0 & E).
  apply bind_returns in E. destruct E as (page & s0' & Eg & E).
  unfold gets in Eg. injection Eg as <- <-.
  destruct (AutoVmcsLoad_stages _ _ _ _ _ E) as (s1 & s5 & E1 & Eb & E6).
  unfold Setup_body in Eb.
  apply check_returns in Eb. destruct Eb as (s2 & E2 & Eb).
  apply bind_returns in Eb. destruct Eb as ([] & s3 & E3 & Eb).
  apply bind_returns in Eb. destruct Eb as ([] & s4 & E4 & Eb).
  exists s0, s1, s2, s3, s4, s5.
  exact (conj E0 (conj E1 (conj E2 (conj E3 (conj E4 (conj Eb E6)))))).
Qed.

(** The five calls of the helper, one after the other. *)
Lemma Setup_controls_returns (s s' : State) :
  (forall m, is_u64 (s.(msrs) m)) ->
  Setup_controls s = Some (NO_ERROR, s') ->
  Forall (control_programmed s s') control_calls.
Proof.
  intros Um E. unfold Setup_controls in E.
  read_returns E.
  apply check_returns in E. destruct E as (s1 & E1 & E).
  apply set_vmcs_control_returns in E1; [ | apply Um ].
  cbv zeta in E1. destruct E1 as [H1 P1].
  assert (M1 : msrs s1 = msrs s) by (rewrite H1; reflexivity).
  do 2 read_returns E.
  apply check_returns in E. destruct E as (s2 & E2 & E).
  apply set_vmcs_control_returns in E2; [ | rewrite M1; apply Um ].
  cbv zeta in E2. destruct E2 as [H2 P2].
  assert (M2 : msrs s2 = msrs s) by (rewrite H2; exact M1).
  do 2 read_returns E.
  apply check_returns in E. destruct E as (s3 & E3 & E).
  apply set_vmcs_control_returns in E3; [ | rewrite M2; apply Um ].
  cbv zeta in E3. destruct E3 as [H3 P3].
  assert (M3 : msrs s3 = msrs s) by (rewrite H3; exact M2).
  do 2 read_returns E.
  apply check_returns in E. destruct E as (s4 & E4 & E).
  apply set_vmcs_control_returns in E4; [ | rewrite M3; apply Um ].
  cbv zeta in E4. destruct E4 as [H4 P4].
  assert (M4 : msrs s4 = msrs s) by (rewrite H4; exact M3).
  do 2 read_returns E.
  apply set_vmcs_control_returns in E; [ | rewrite M4; apply Um ].
  cbv zeta in E. destruct E as [H5 P5].
  rewrite M1 in P2. rewrite M2 in P3. rewrite M3 in P4. rewrite M4 in P5.
  assert (V5 : forall f, f <> F32 VmcsField32.ENTRY_CTLS -> vmcs s' f = vmcs s4 f).
  { intros f Hf. rewrite H5. cbn.
    destruct (Field_eq_dec f (F32 VmcsField32.ENTRY_CTLS)); [ contradiction | reflexivity ]. }
  assert (V4 : forall f, f <> F32 VmcsField32.EXIT_CTLS -> vmcs s4 f = vmcs s3 f).
  { intros f Hf. rewrite H4. cbn.
    destruct (Field_eq_dec f (F32 VmcsField32.EXIT_CTLS)); [ contradiction | reflexivity ]. }
  assert (V3 : forall f, f <> F32 VmcsField32.PROCBASED_CTLS -> vmcs s3 f = vmcs s2 f).
  { intros f Hf. rewrite H3. cbn.
    destruct (Field_eq_dec f (F32 VmcsField32.PROCBASED_CTLS)); [ contradiction | reflexivity ]. }
  assert (V2 : forall f, f <> F32 VmcsField32.PINBASED_CTLS -> vmcs s2 f = vmcs s1 f).
  { intros f Hf. rewrite H2. cbn.
    destruct (Field_eq_dec f (F32 VmcsField32.PINBASED_CTLS)); [ contradiction | reflexivity ]. }
  assert (W : forall field v s0 s1,
            s1 = add_event (EvVmwrite field v)
                   (set_vmcs (fun f => if Field_eq_dec f field then v else vmcs s0 f) s0) ->
            vmcs s1 field = v).
  { intros field v s0 s1' ->. cbn.
    destruct (Field_eq_dec field field); [ reflexivity | contradiction ]. }
  apply W in H1, H2, H3, H4, H5.
  rewrite M1 in H2. rewrite M2 in H3. rewrite M3 in H4. rewrite M4 in H5.
  unfold control_calls, control_programmed.
  repeat constructor.
  - rewrite V5, V4, V3, V2 by discriminate. exact H1.
  - rewrite V5, V4, V3, V2 by discriminate. rewrite H1. apply P1.
  - rewrite V5, V4, V3, V2 by discriminate. rewrite H1. apply P1.
  - rewrite V5, V4, V3, V2 by discriminate. rewrite H1. apply P1.
  - rewrite V5, V4, V3, V2 by discriminate. rewrite H1. apply P1.
  - rewrite V5, V4, V3 by discriminate. exact H2.
  - rewrite V5, V4, V3 by discriminate. rewrite H2. apply P2.
  - rewrite V5, V4, V3 by discriminate. rewrite H2. apply P2.
  - rewrite V5, V4, V3 by discriminate. rewrite H2. apply P2.
  - rewrite V5, V4, V3 by discriminate. rewrite H2. apply P2.
  - rewrite V5, V4 by discriminate. exact H3.
  - rewrite V5, V4 by discriminate. rewrite H3. apply P3.
  - rewrite V5, V4 by discriminate. rewrite H3. apply P3.
  - rewrite V5, V4 by discriminate. rewrite H3. apply P3.
  - rewrite V5, V4 by discriminate. rewrite H3. apply P3.
  - rewrite V5 by discriminate. exact H4.
  - rewrite V5 by discriminate. rewrite H4. apply P4.
  - rewrite V5 by discriminate. rewrite H4. apply P4.
  - rewrite V5 by discriminate. rewrite H4. apply P4.
  - rewrite V5 by discriminate. rewrite H4. apply P4.
  - exact H5.
  - rewrite H5. apply P5.
  - rewrite H5. apply P5.
  - rewrite H5. apply P5.
  - rewrite H5. apply P5.
Qed.

(** [Setup], lines 639 to 685: what it leaves in the VMCS, in the MSR
    bitmaps and in the two MSR lists. *)
Lemma Setup_execution_returns (pml4_address : Z) (s s' : State) :
  Setup_execution pml4_address s = Some (tt, s') ->
  IS_PAGE_ALIGNED pml4_address = true /\
  s.(msr_bitmaps_page_).(pa_) <> 0 /\
  s.(host_msr_page_).(pa_) <> 0 /\
  s.(guest_msr_page_).(pa_) <> 0 /\
  s'.(vmcs) (F64 VmcsField64.MSR_BITMAPS_ADDRESS) = wrap64 s.(msr_bitmaps_page_).(pa_) /\
  s'.(vmcs) (F64 VmcsField64.EXIT_MSR_LOAD_ADDRESS) = wrap64 s.(host_msr_page_).(pa_) /\
  s'.(vmcs) (F32 VmcsField32.EXIT_MSR_LOAD_COUNT) = 4 /\
  s'.(vmcs) (F64 VmcsField64.EXIT_MSR_STORE_ADDRESS) = wrap64 s.(guest_msr_page_).(pa_) /\
  s'.(vmcs) (F32 VmcsField32.EXIT_MSR_STORE_COUNT) = 1 /\
  s'.(vmcs) (F64 VmcsField64.ENTRY_MSR_LOAD_ADDRESS) = wrap64 s.(guest_msr_page_).(pa_) /\
  s'.(vmcs) (F32 VmcsField32.ENTRY_MSR_LOAD_COUNT) = 1 /\
  s'.(host_msr_list) 0 =
    mkMsrListEntry (msr_number X86_MSR_IA32_STAR) (s.(host_msr_list) 0).(reserved)
      (s.(msrs) X86_MSR_IA32_STAR) /\
  s'.(host_msr_list) 1 =
    mkMsrListEntry (msr_number X86_MSR_IA32_LSTAR) (s.(host_msr_list) 1).(reserved)
      (s.(msrs) X86_MSR_IA32_LSTAR) /\
  s'.(host_msr_list) 2 =
    mkMsrListEntry (msr_number X86_MSR_IA32_FMASK) (s.(host_msr_list) 2).(reserved)
      (s.(msrs) X86_MSR_IA32_FMASK) /\
  (forall i, 3 <= i -> s'.(host_msr_list) i = s.(host_msr_list) i) /\
  s'.(guest_msr_list) 0 =
    mkMsrListEntry (msr_number X86_MSR_IA32_KERNEL_GS_BASE)
      (s.(guest_msr_list) 0).(reserved) 0 /\
  (forall i, 1 <= i -> s'.(guest_msr_list) i = s.(guest_msr_list) i) /\
  (forall m write,
     m = X86_MSR_IA32_GS_BASE \/ m = X86_MSR_IA32_KERNEL_GS_BASE ->
     Z.testbit (s'.(msr_bitmaps) (msr_bitmap_byte write (msr_number m)))
       (msr_bitmap_bit (msr_number m)) = false) /\
  (forall byte bit, 0 <= bit ->
     Z.testbit (s'.(msr_bitmaps) byte) bit = true ->
     Z.testbit (s.(msr_bitmaps) byte) bit = true).
Proof.
  intros E. unfold Setup_execution in E. parts s.
  steps E. settle.
  match goal with
  | E1 : ignore_msr _ _ _ = Some _ |- _ =>
      apply ignore_msr_returns in E1;
      destruct E1 as (Hb & bitmaps1 & -> & C1 & M1 & _)
  end.
  match goal with
  | E1 : ignore_msr _ _ _ = Some _ |- _ =>
      apply ignore_msr_returns in E1;
      destruct E1 as (_ & bitmaps2 & -> & C2 & M2 & _)
  end.
  cbv beta iota delta [set_msr_bitmaps msrs cr0 cr3 cr4 ints_disabled vmcs world
    vmxon_page_ is_on_ page_ msr_bitmaps_page_ host_msr_page_ guest_msr_page_
    msr_bitmaps host_msr_list guest_msr_list vmx_state_ do_resume_ serial_fifo trace] in *.
  settle.
  cbv beta iota delta [msrs vmcs msr_bitmaps_page_ host_msr_page_ guest_msr_page_
    msr_bitmaps host_msr_list guest_msr_list].
  assert (Hpa : forall p, negb (pa_ p =? 0) = true -> pa_ p <> 0).
  { intros p Hp. apply Z.eqb_neq. destruct (pa_ p =? 0); [ discriminate Hp | reflexivity ]. }
  split; [ reflexivity | ].
  split; [ exact Hb | ].
  split; [ apply Hpa; assumption | ].
  split; [ apply Hpa; assumption | ].
  do 10 (split; [ reflexivity | ]).
  split.
  { intros i Hi.
    destruct (Z.eqb_spec i 2); [ lia | ].
    destruct (Z.eqb_spec i 1); [ lia | ].
    destruct (Z.eqb_spec i 0); [ lia | reflexivity ]. }
  split; [ reflexivity | ].
  split.
  { intros i Hi. destruct (Z.eqb_spec i 0); [ lia | reflexivity ]. }
  split.
  - intros m write [-> | ->]; [ | apply C1 ].
    destruct (Z.testbit _ _) eqn:Hbit; [ | reflexivity ].
    apply M1 in Hbit; [ | apply msr_bitmap_bit_range ].
    rewrite C2 in Hbit. discriminate Hbit.
  - intros byte bit Hbit Ht. apply M2; [ exact Hbit | ]. apply M1; assumption.
Qed.

(** [Setup], lines 691 to 711: the host state. *)
Lemma Setup_host_state_returns (s s' : State) :
  Setup_host_state s = Some (tt, s') ->
  s'.(vmcs) (FXX VmcsFieldXX.HOST_CR0) = wrap64 s.(cr0) /\
  s'.(vmcs) (FXX VmcsFieldXX.HOST_CR4) = wrap64 s.(cr4) /\
  s'.(vmcs) (F64 VmcsField64.HOST_IA32_PAT) = wrap64 (s.(msrs) X86_MSR_IA32_PAT) /\
  s'.(vmcs) (F64 VmcsField64.HOST_IA32_EFER) = wrap64 (s.(msrs) X86_MSR_IA32_EFER) /\
  s'.(vmcs) (FXX VmcsFieldXX.HOST_FS_BASE) = wrap64 (s.(msrs) X86_MSR_IA32_FS_BASE) /\
  s'.(vmcs) (FXX VmcsFieldXX.HOST_GS_BASE) = wrap64 (s.(msrs) X86_MSR_IA32_GS_BASE) /\
  s'.(vmcs) (FXX VmcsFieldXX.HOST_RSP) = wrap64 vmx_state_address /\
  s'.(vmcs) (FXX VmcsFieldXX.HOST_RIP) = wrap64 vmx_exit_entry_address.
Proof.
  intros E. parts s. unfold Setup_host_state in E. run E. injection E as <-.
  cbv beta iota delta [msrs cr0 cr4 vmcs].
  repeat split.
Qed.

(** [Setup], lines 715 to 781: the guest state. *)
Lemma Setup_guest_state_returns (s s' : State) :
  Setup_guest_state s = Some (NO_ERROR, s') ->
  let guest_cr0 := Z.lor (Z.lor X86_CR0_PE X86_CR0_PG) X86_CR0_NE in
  let guest_cr4 := Z.lor X86_CR4_PAE X86_CR4_VMXE in
  nonzero (not64 (Z.lor guest_cr0 (not64 (s.(msrs) X86_MSR_IA32_VMX_CR0_FIXED0)))) ||
  nonzero (not64 (Z.lor (not64 guest_cr0) (s.(msrs) X86_MSR_IA32_VMX_CR0_FIXED1)))
    = false /\
  nonzero (not64 (Z.lor guest_cr4 (not64 (s.(msrs) X86_MSR_IA32_VMX_CR4_FIXED0)))) ||
  nonzero (not64 (Z.lor (not64 guest_cr4) (s.(msrs) X86_MSR_IA32_VMX_CR4_FIXED1)))
    = false /\
  s'.(vmcs) (FXX VmcsFieldXX.GUEST_CR0) = wrap64 guest_cr0 /\
  s'.(vmcs) (FXX VmcsFieldXX.GUEST_CR4) = wrap64 guest_cr4 /\
  s'.(vmcs) (F64 VmcsField64.GUEST_IA32_PAT) = wrap64 (s.(msrs) X86_MSR_IA32_PAT) /\
  s'.(vmcs) (F64 VmcsField64.GUEST_IA32_EFER) = wrap64 (s.(msrs) X86_MSR_IA32_EFER) /\
  s'.(vmcs) (FXX VmcsFieldXX.GUEST_RFLAGS) = wrap64 X86_FLAGS_RESERVED_ONES /\
  s'.(vmcs) (F64 VmcsField64.LINK_POINTER) = wrap64 LINK_POINTER_INVALIDATE.
Proof.
  intros E. cbv zeta. parts s. unfold Setup_guest_state in E. cbv zeta in E.
  step E. settle.
  destruct (nonzero _ || nonzero _) eqn:V0 in E; [ discriminate E | ].
  do 2 step E. settle.
  destruct (nonzero _ || nonzero _) eqn:V4 in E; [ discriminate E | ].
  step E. settle.
  unfold Setup_guest_rest in E. run E. injection E as <-.
  cbv beta iota delta [msrs vmcs].
  split; [ exact V0 | ]. split; [ exact V4 | ].
  repeat split.
Qed.

(** The stages of [Setup] that come after the controls leave the control
    fields as they are. *)
Lemma Setup_keeps_controls (pml4_address : Z) (f : Field) :
  In f control_fields ->
  preserves (fun s => vmcs s f) (Setup_execution pml4_address) /\
  preserves (fun s => vmcs s f) Setup_host_state /\
  preserves (fun s => vmcs s f) Setup_guest_state /\
  preserves (fun s => vmcs s f) AutoVmcsLoad_dtor.
Proof.
  intros Hin. cbn in Hin.
  repeat (destruct Hin as [<- | Hin];
          [ split; [ | split; [ | split ] ]; frame_run | ]).
  contradiction.
Qed.

(** What [Setup] reads its values from is the same at every stage. *)
Lemma Setup_keeps_sources (page : VmxPage) (pml4_address : Z) :
  let sources (s : State) :=
    (s.(msrs), s.(cr0), s.(cr4), s.(msr_bitmaps_page_), s.(host_msr_page_),
     s.(guest_msr_page_)) in
  preserves sources Clear /\
  preserves sources (AutoVmcsLoad_ctor page) /\
  preserves sources Setup_controls /\
  preserves sources (Setup_execution pml4_address) /\
  preserves sources Setup_host_state.
Proof.
  cbv zeta. split; [ | split; [ | split; [ | split ] ] ]; frame_run.
Qed.

(** X12.  After a [Setup] that returns success each of the five control
    fields holds what the control helper computes for its call from the
    capability MSRs of the CPU: every bit of allowed_0 is set, every bit
    [Setup] asks for is set, every bit it asks to clear is clear, and no bit
    outside allowed_1 is set when allowed_0 lies within allowed_1.  Nothing
    that [Setup] does later writes these fields again. *)
Theorem Setup_control_fields (pml4_address : Z) (s s' : State) :
  (forall m, is_u64 (s.(msrs) m)) ->
  Setup pml4_address s = Some (NO_ERROR, s') ->
  Forall (control_programmed s s') control_calls.
Proof.
  intros Um E.
  destruct (Setup_stages _ _ _ E)
    as (s0 & s1 & s2 & s3 & s4 & s5 & E0 & E1 & E2 & E3 & E4 & E5 & E6).
  destruct (Setup_keeps_sources (page_ s0) pml4_address) as (P0 & P1 & _).
  pose proof (P0 _ _ _ E0) as M0. pose proof (P1 _ _ _ E1) as M1.
  cbv beta in M0, M1.
  assert (M : msrs s1 = msrs s) by congruence.
  assert (Um1 : forall m, is_u64 (msrs s1 m)) by (intros m; rewrite M; apply Um).
  pose proof (Setup_controls_returns _ _ Um1 E2) as Hc.
  assert (K : forall f, In f control_fields -> vmcs s' f = vmcs s2 f).
  { intros f Hin.
    destruct (Setup_keeps_controls pml4_address f Hin) as (K3 & K4 & K5 & K6).
    rewrite (K6 _ _ _ E6), (K5 _ _ _ E5), (K4 _ _ _ E4), (K3 _ _ _ E3). reflexivity. }
  unfold control_calls, control_programmed in *. rewrite M in Hc.
  repeat match goal with
         | Hf : Forall _ (_ :: _) |- _ => apply Forall_cons_iff in Hf; destruct Hf as [? Hf]
         end.
  repeat (apply Forall_cons;
          [ cbv beta iota zeta; rewrite !K by (cbn; auto 6); assumption | ]).
  apply Forall_nil.
Qed.

(** What a [Setup] that returns success leaves in the VMCS and in the MSR
    pages, from its stages. *)
Lemma Setup_msr_areas_returns (pml4_address : Z) (s s' : State) :
  Setup pml4_address s = Some (NO_ERROR, s') ->
  s'.(vmcs) (F64 VmcsField64.MSR_BITMAPS_ADDRESS) = wrap64 s.(msr_bitmaps_page_).(pa_) /\
  (forall m write,
     m = X86_MSR_IA32_GS_BASE \/ m = X86_MSR_IA32_KERNEL_GS_BASE ->
     Z.testbit (s'.(msr_bitmaps) (msr_bitmap_byte write (msr_number m)))
       (msr_bitmap_bit (msr_number m)) = false) /\
  (forall byte bit, 0 <= bit ->
     Z.testbit (s'.(msr_bitmaps) byte) bit = true ->
     Z.testbit (s.(msr_bitmaps) byte) bit = true) /\
  s'.(vmcs) (F64 VmcsField64.EXIT_MSR_LOAD_ADDRESS) = wrap64 s.(host_msr_page_).(pa_) /\
  s'.(vmcs) (F32 VmcsField32.EXIT_MSR_LOAD_COUNT) = 4 /\
  s'.(host_msr_list) 0 =
    mkMsrListEntry (msr_number X86_MSR_IA32_STAR) (s.(host_msr_list) 0).(reserved)
      (s.(msrs) X86_MSR_IA32_STAR) /\
  s'.(host_msr_list) 1 =
    mkMsrListEntry (msr_number X86_MSR_IA32_LSTAR) (s.(host_msr_list) 1).(reserved)
      (s.(msrs) X86_MSR_IA32_LSTAR) /\
  s'.(host_msr_list) 2 =
    mkMsrListEntry (msr_number X86_MSR_IA32_FMASK) (s.(host_msr_list) 2).(reserved)
      (s.(msrs) X86_MSR_IA32_FMASK) /\
  s'.(host_msr_list) 3 = s.(host_msr_list) 3 /\
  s'.(vmcs) (F64 VmcsField64.EXIT_MSR_STORE_ADDRESS) = wrap64 s.(guest_msr_page_).(pa_) /\
  s'.(vmcs) (F32 VmcsField32.EXIT_MSR_STORE_COUNT) = 1 /\
  s'.(vmcs) (F64 VmcsField64.ENTRY_MSR_LOAD_ADDRESS) = wrap64 s.(guest_msr_page_).(pa_) /\
  s'.(vmcs) (F32 VmcsField32.ENTRY_MSR_LOAD_COUNT) = 1 /\
  s'.(guest_msr_list) 0 =
    mkMsrListEntry (msr_number X86_MSR_IA32_KERNEL_GS_BASE)
      (s.(guest_msr_list) 0).(reserved) 0.
Proof.
  intros E.
  destruct (Setup_stages _ _ _ E)
    as (s0 & s1 & s2 & s3 & s4 & s5 & E0 & E1 & E2 & E3 & E4 & E5 & E6).
  (* before the stage: the sources and the pages are those of [s] *)
  assert (B : preserves (fun s => (s.(msrs), s.(msr_bitmaps_page_), s.(host_msr_page_),
                                   s.(guest_msr_page_), s.(msr_bitmaps),
                                   s.(host_msr_list), s.(guest_msr_list)))
                (Clear;; page <- gets page_;; AutoVmcsLoad_ctor page;; Setup_controls)).
  { frame_run. }
  assert (E02 : (Clear;; page <- gets page_;; AutoVmcsLoad_ctor page;; Setup_controls) s
                = Some (NO_ERROR, s2)).
  { unfold bind at 1. rewrite E0. unfold bind at 1. unfold gets at 1.
    unfold bind at 1. rewrite E1. exact E2. }
  pose proof (B _ _ _ E02) as Hb. cbv beta in Hb.
  injection Hb as Hm Hbp Hhp Hgp Hbm Hhl Hgl.
  (* after the stage: nothing writes what it has written *)
  assert (A : preserves (fun s => (s.(msr_bitmaps), s.(host_msr_list), s.(guest_msr_list),
                                   s.(vmcs) (F64 VmcsField64.MSR_BITMAPS_ADDRESS),
                                   s.(vmcs) (F64 VmcsField64.EXIT_MSR_LOAD_ADDRESS),
                                   s.(vmcs) (F32 VmcsField32.EXIT_MSR_LOAD_COUNT),
                                   s.(vmcs) (F64 VmcsField64.EXIT_MSR_STORE_ADDRESS),
                                   s.(vmcs) (F32 VmcsField32.EXIT_MSR_STORE_COUNT),
                                   s.(vmcs) (F64 VmcsField64.ENTRY_MSR_LOAD_ADDRESS),
                                   s.(vmcs) (F32 VmcsField32.ENTRY_MSR_LOAD_COUNT)))
                (Setup_host_state;; status <- Setup_guest_state;; AutoVmcsLoad_dtor)).
  { frame_run. }
  assert (E36 : (Setup_host_state;; status <- Setup_guest_state;; AutoVmcsLoad_dtor) s3
                = Some (tt, s')).
  { unfold bind at 1. rewrite E4. unfold bind at 1. rewrite E5. exact E6. }
  pose proof (A _ _ _ E36) as Ha. cbv beta in Ha.
  injection Ha as Abm Ahl Agl A1 A2 A3 A4 A5 A6 A7.
  destruct (Setup_execution_returns _ _ _ E3)
    as (_ & _ & _ & _ & X1 & X2 & X3 & X4 & X5 & X6 & X7 & L0 & L1 & L2 & L3 & G0 & _ & C & Mo).
  rewrite Abm, Ahl, Agl, A1, A2, A3, A4, A5, A6, A7.
  rewrite <- Hm, <- Hbp, <- Hhp, <- Hgp, <- Hbm, <- Hhl, <- Hgl.
  repeat split; try assumption.
  apply L3. lia.
Qed.

(** X13.  After a [Setup] that returns success the VMCS and the three MSR
    pages agree.  The MSR bitmaps field holds the address of the bitmaps
    page, in which the read and the write bit of IA32_GS_BASE and of
    IA32_KERNEL_GS_BASE are clear and no bit has been set.  The VM-exit
    load area is the host MSR page with a count of 4: its entries 0, 1 and
    2 are IA32_STAR, IA32_LSTAR and IA32_FMASK with the values the MSRs
    hold, and entry 3 is as it was before, left to [Enter].  The VM-exit
    store area and the VM-entry load area are both the guest MSR page with a
    count of 1: its entry 0 is IA32_KERNEL_GS_BASE with value 0. *)
Theorem Setup_msr_areas (pml4_address : Z) (s s' : State) :
  Setup pml4_address s = Some (NO_ERROR, s') ->
  s'.(vmcs) (F64 VmcsField64.MSR_BITMAPS_ADDRESS) = wrap64 s.(msr_bitmaps_page_).(pa_) /\
  (forall m write,
     m = X86_MSR_IA32_GS_BASE \/ m = X86_MSR_IA32_KERNEL_GS_BASE ->
     Z.testbit (s'.(msr_bitmaps) (msr_bitmap_byte write (msr_number m)))
       (msr_bitmap_bit (msr_number m)) = false) /\
  (forall byte bit, 0 <= bit ->
     Z.testbit (s'.(msr_bitmaps) byte) bit = true ->
     Z.testbit (s.(msr_bitmaps) byte) bit = true) /\
  s'.(vmcs) (F64 VmcsField64.EXIT_MSR_LOAD_ADDRESS) = wrap64 s.(host_msr_page_).(pa_) /\
  s'.(vmcs) (F32 VmcsField32.EXIT_MSR_LOAD_COUNT) = 4 /\
  s'.(host_msr_list) 0 =
    mkMsrListEntry (msr_number X86_MSR_IA32_STAR) (s.(host_msr_list) 0).(reserved)
      (s.(msrs) X86_MSR_IA32_STAR) /\
  s'.(host_msr_list) 1 =
    mkMsrListEntry (msr_number X86_MSR_IA32_LSTAR) (s.(host_msr_list) 1).(reserved)
      (s.(msrs) X86_MSR_IA32_LSTAR) /\
  s'.(host_msr_list) 2 =
    mkMsrListEntry (msr_number X86_MSR_IA32_FMASK) (s.(host_msr_list) 2).(reserved)
      (s.(msrs) X86_MSR_IA32_FMASK) /\
  s'.(host_msr_list) 3 = s.(host_msr_list) 3 /\
  s'.(vmcs) (F64 VmcsField64.EXIT_MSR_STORE_ADDRESS) = wrap64 s.(guest_msr_page_).(pa_) /\
  s'.(vmcs) (F32 VmcsField32.EXIT_MSR_STORE_COUNT) = 1 /\
  s'.(vmcs) (F64 VmcsField64.ENTRY_MSR_LOAD_ADDRESS) = wrap64 s.(guest_msr_page_).(pa_) /\
  s'.(vmcs) (F32 VmcsField32.ENTRY_MSR_LOAD_COUNT) = 1 /\
  s'.(guest_msr_list) 0 =
    mkMsrListEntry (msr_number X86_MSR_IA32_KERNEL_GS_BASE)
      (s.(guest_msr_list) 0).(reserved) 0.
Proof. apply Setup_msr_areas_returns. Qed.

(** X14.  After a [Setup] that returns success the host state of the VMCS
    mirrors the CPU: HOST_CR0 and HOST_CR4 are CR0 and CR4, the host PAT,
    EFER and GS base are the MSRs, and an exit resumes at [vmx_exit_entry]
    with the stack at [vmx_state_].  The guest starts with CR0 = PE|PG|NE
    and CR4 = PAE|VMXE, both within the fixed-bit MSRs, and with the PAT and
    EFER of the host. *)
Theorem Setup_host_guest_state (pml4_address : Z) (s s' : State) :
  let guest_cr0 := Z.lor (Z.lor X86_CR0_PE X86_CR0_PG) X86_CR0_NE in
  let guest_cr4 := Z.lor X86_CR4_PAE X86_CR4_VMXE in
  is_u64 guest_cr0 -> is_u64 guest_cr4 ->
  (forall m, is_u64 (s.(msrs) m)) ->
  Setup pml4_address s = Some (NO_ERROR, s') ->
  s'.(vmcs) (FXX VmcsFieldXX.HOST_CR0) = wrap64 s.(cr0) /\
  s'.(vmcs) (FXX VmcsFieldXX.HOST_CR4) = wrap64 s.(cr4) /\
  s'.(vmcs) (F64 VmcsField64.HOST_IA32_PAT) = wrap64 (s.(msrs) X86_MSR_IA32_PAT) /\
  s'.(vmcs) (F64 VmcsField64.HOST_IA32_EFER) = wrap64 (s.(msrs) X86_MSR_IA32_EFER) /\
  s'.(vmcs) (FXX VmcsFieldXX.HOST_GS_BASE) = wrap64 (s.(msrs) X86_MSR_IA32_GS_BASE) /\
  s'.(vmcs) (FXX VmcsFieldXX.HOST_RSP) = wrap64 vmx_state_address /\
  s'.(vmcs) (FXX VmcsFieldXX.HOST_RIP) = wrap64 vmx_exit_entry_address /\
  s'.(vmcs) (FXX VmcsFieldXX.GUEST_CR0) = guest_cr0 /\
  fixed_bits_ok guest_cr0 (s.(msrs) X86_MSR_IA32_VMX_CR0_FIXED0)
    (s.(msrs) X86_MSR_IA32_VMX_CR0_FIXED1) /\
  s'.(vmcs) (FXX VmcsFieldXX.GUEST_CR4) = guest_cr4 /\
  fixed_bits_ok guest_cr4 (s.(msrs) X86_MSR_IA32_VMX_CR4_FIXED0)
    (s.(msrs) X86_MSR_IA32_VMX_CR4_FIXED1) /\
  s'.(vmcs) (F64 VmcsField64.GUEST_IA32_PAT) = s'.(vmcs) (F64 VmcsField64.HOST_IA32_PAT) /\
  s'.(vmcs) (F64 VmcsField64.GUEST_IA32_EFER) = s'.(vmcs) (F64 VmcsField64.HOST_IA32_EFER).
Proof.
  cbv zeta. intros U0 U4 Um E.
  destruct (Setup_stages _ _ _ E)
    as (s0 & s1 & s2 & s3 & s4 & s5 & E0 & E1 & E2 & E3 & E4 & E5 & E6).
  assert (B : preserves (fun s => (s.(msrs), s.(cr0), s.(cr4)))
                (Clear;; page <- gets page_;; AutoVmcsLoad_ctor page;;
                 Setup_controls;; Setup_execution pml4_address)).
  { frame_run. }
  assert (E03 : (Clear;; page <- gets page_;; AutoVmcsLoad_ctor page;;
                 Setup_controls;; Setup_execution pml4_address) s = Some (tt, s3)).
  { unfold bind at 1. rewrite E0. unfold bind at 1. unfold gets at 1.
    unfold bind at 1. rewrite E1. unfold bind at 1. rewrite E2. exact E3. }
  pose proof (B _ _ _ E03) as Hb. cbv beta in Hb. injection Hb as Hm H0 H4.
  assert (M4 : preserves (fun s => s.(msrs)) Setup_host_state) by frame_run.
  pose proof (M4 _ _ _ E4) as Hm4. cbv beta in Hm4.
  assert (A : preserves (fun s => (s.(vmcs) (FXX VmcsFieldXX.HOST_CR0),
                                   s.(vmcs) (FXX VmcsFieldXX.HOST_CR4),
                                   s.(vmcs) (F64 VmcsField64.HOST_IA32_PAT),
                                   s.(vmcs) (F64 VmcsField64.HOST_IA32_EFER),
                                   s.(vmcs) (FXX VmcsFieldXX.HOST_GS_BASE),
                                   s.(vmcs) (FXX VmcsFieldXX.HOST_RSP),
                                   s.(vmcs) (FXX VmcsFieldXX.HOST_RIP)))
                (status <- Setup_guest_state;; AutoVmcsLoad_dtor)).
  { frame_run. }
  assert (E46 : (status <- Setup_guest_state;; AutoVmcsLoad_dtor) s4 = Some (tt, s')).
  { unfold bind at 1. rewrite E5. exact E6. }
  pose proof (A _ _ _ E46) as Ha. cbv beta in Ha.
  injection Ha as A1 A2 A3 A4 A5 A6 A7.
  assert (D : preserves (fun s => (s.(vmcs) (FXX VmcsFieldXX.GUEST_CR0),
                                   s.(vmcs) (FXX VmcsFieldXX.GUEST_CR4),
                                   s.(vmcs) (F64 VmcsField64.GUEST_IA32_PAT),
                                   s.(vmcs) (F64 VmcsField64.GUEST_IA32_EFER)))
                AutoVmcsLoad_dtor) by frame_run.
  pose proof (D _ _ _ E6) as Hd. cbv beta in Hd. injection Hd as D1 D2 D3 D4.
  destruct (Setup_host_state_returns _ _ E4) as (X1 & X2 & X3 & X4 & _ & X6 & X7 & X8).
  pose proof (Setup_guest_state_returns _ _ E5) as G. cbv zeta in G.
  destruct G as (V0 & V4 & G1 & G2 & G3 & G4 & _).
  rewrite Hm4, Hm in V0, V4, G3, G4.
  rewrite ?Hm, ?H0, ?H4 in X1, X2, X3, X4, X6.
  apply cr_is_invalid_false in V0; [ | exact U0 | apply Um ].
  apply cr_is_invalid_false in V4; [ | exact U4 | apply Um ].
  rewrite (wrap64_id _ U0) in G1. rewrite (wrap64_id _ U4) in G2.
  rewrite A1, A2, A3, A4, A5, A6, A7, D1, D2, D3, D4.
  repeat split; try assumption; try apply V0; try apply V4; congruence.
Qed.

End Construction.

(* ================================================================== *)
(** ** Exits that are not emulated, and entries that fail *)

Section ExitsAndEntries.

Context `{Platform}.

(** X15.  An exit for WRMSR, or for any reason the handler has no arm
    for, is not emulated: the handler returns NOT_SUPPORTED and changes
    nothing, so the guest RIP is not advanced. *)
Theorem vmexit_handler_not_supported (s : State) :
  let reason := ExitReason_of (wrap32 (s.(vmcs) (F32 VmcsField32.EXIT_REASON))) in
  reason = ExitReason.WRMSR \/ reason = ExitReason.OTHER ->
  vmexit_handler s = Some (ERR_NOT_SUPPORTED, s).
Proof.
  cbv zeta. intros Hr. unfold vmexit_handler. unfold bind at 1.
  destruct (ExitInfo_ctor_reads s) as (exit_info & -> & R & _).
  cbv beta iota. rewrite R. destruct Hr as [-> | ->]; reflexivity.
Qed.

(** X16.  An exit for an external interrupt is handled by opening the
    interrupt window: with interrupts disabled, as the trampoline leaves
    them, the handler enables them, disables them again and returns
    success, and nothing else changes: no VMCS field is written, so the
    guest resumes at the instruction it was interrupted at.  With
    interrupts enabled its assertion fails. *)
Theorem vmexit_handler_external_interrupt (s : State) :
  ExitReason_of (wrap32 (s.(vmcs) (F32 VmcsField32.EXIT_REASON)))
    = ExitReason.EXTERNAL_INTERRUPT ->
  if s.(ints_disabled) then
    exists s',
      vmexit_handler s = Some (NO_ERROR, s') /\
      s'.(ints_disabled) = true /\
      s'.(trace) = EvDisableInts :: EvEnableInts :: s.(trace) /\
      s'.(vmcs) = s.(vmcs) /\
      s'.(vmx_state_) = s.(vmx_state_) /\
      s'.(serial_fifo) = s.(serial_fifo) /\
      s'.(do_resume_) = s.(do_resume_)
  else vmexit_handler s = None.
Proof.
  intros Hr.
  assert (Hh : vmexit_handler s =
               (disabled <- arch_ints_disabled;;
                DEBUG_ASSERT disabled;;
                arch_enable_ints;;
                arch_disable_ints;;
                ret NO_ERROR) s).
  { unfold vmexit_handler. unfold bind at 1.
    destruct (ExitInfo_ctor_reads s) as (exit_info & -> & R & _).
    cbv beta iota. rewrite R, Hr. reflexivity. }
  rewrite Hh. clear Hh.
  unfold bind, arch_ints_disabled, gets, DEBUG_ASSERT, arch_enable_ints,
    arch_disable_ints, modify, ret.
  destruct (ints_disabled s); [ | reflexivity ].
  eexists. split; [ reflexivity | ]. cbn. repeat split.
Qed.

(** The advance of the guest RIP writes that field only. *)
Lemma next_rip_other_fields (exit_info : ExitInfo) (f : Field) :
  f <> FXX VmcsFieldXX.GUEST_RIP ->
  preserves (fun s => vmcs s f) (next_rip exit_info).
Proof.
  intros Hf. unfold next_rip, vmcs_writeXX, vmwrite.
  apply preserves_modify. intros s. cbn.
  destruct (Field_eq_dec f (FXX VmcsFieldXX.GUEST_RIP)); [ contradiction | reflexivity ].
Qed.

(** X17.  Whatever the exit, the handler leaves the host alone: when it
    returns, the MSRs, CR0, CR3, CR4, the VMX flag, the launch flag, the MSR
    bitmaps and the two MSR lists are as they were, and GUEST_RIP is the
    only VMCS field it may have written. *)
Theorem vmexit_handler_leaves (s s' : State) (status : status_t) :
  vmexit_handler s = Some (status, s') ->
  (s'.(msrs), s'.(cr0), s'.(cr3), s'.(cr4), s'.(is_on_), s'.(do_resume_)) =
    (s.(msrs), s.(cr0), s.(cr3), s.(cr4), s.(is_on_), s.(do_resume_)) /\
  (s'.(msr_bitmaps), s'.(host_msr_list), s'.(guest_msr_list)) =
    (s.(msr_bitmaps), s.(host_msr_list), s.(guest_msr_list)) /\
  forall f, f <> FXX VmcsFieldXX.GUEST_RIP -> s'.(vmcs) f = s.(vmcs) f.
Proof.
  intros E. split; [ | split ].
  - revert s status s' E.
    change (preserves (fun s => (s.(msrs), s.(cr0), s.(cr3), s.(cr4), s.(is_on_),
                                 s.(do_resume_))) vmexit_handler).
    frame_run.
  - revert s status s' E.
    change (preserves (fun s => (s.(msr_bitmaps), s.(host_msr_list),
                                 s.(guest_msr_list))) vmexit_handler).
    frame_run.
  - intros f Hf. revert s status s' E.
    change (preserves (fun s => vmcs s f) vmexit_handler).
    unfold vmexit_handler, handle_cpuid, ExitInfo_ctor, vmcs_read32, vmcs_read64,
      vmcs_readXX, vmread, arch_ints_disabled, arch_enable_ints, arch_disable_ints,
      modify_guest_state.
    repeat first [ apply (next_rip_other_fields _ _ Hf) | frame_step ].
Qed.

(** [Enter], lines 870 to 878, by the status of the entry. *)
Lemma Enter_run_cases (s : State) :
  Enter_run s =
    let '(entry_status, w, st, v) :=
      asm_vmx_enter s.(world) s.(vmx_state_) s.(vmcs) s.(do_resume_) in
    let s1 := add_event (EvVmxEnter s.(do_resume_) entry_status)
                (set_vmcs v (set_vmx_state_ st (set_world w s))) in
    if status_eqb entry_status NO_ERROR
    then vmexit_handler (set_do_resume_ true s1)
    else Some (entry_status, s1).
Proof.
  unfold Enter_run. unfold bind at 1. unfold gets at 1. unfold bind at 1.
  unfold vmx_enter.
  destruct (asm_vmx_enter _ _ _ _) as [[[entry_status w] st] v].
  destruct (status_eqb entry_status NO_ERROR); reflexivity.
Qed.

(** A call of [Enter] that returns has loaded the VMCS, prepared the
    entry, entered, and enabled interrupts. *)
Lemma Enter_stages (context : VmcsContext) (s s' : State) (status : status_t) :
  Enter context s = Some (status, s') ->
  exists s1 s2 s3,
    AutoVmcsLoad_ctor s.(page_) s = Some (tt, s1) /\
    Enter_prepare context s1 = Some (tt, s2) /\
    Enter_run s2 = Some (status, s3) /\
    AutoVmcsLoad_dtor s3 = Some (tt, s').
Proof.
  intros E. unfold Enter in E.
  apply bind_returns in E. destruct E as (page & s0 & Eg & E).
  unfold gets in Eg. injection Eg as <- <-.
  destruct (AutoVmcsLoad_stages _ _ _ _ _ E) as (s1 & s3 & E1 & Eb & E3).
  apply bind_returns in Eb. destruct Eb as ([] & s2 & E2 & Eb).
  exists s1, s2, s3. exact (conj E1 (conj E2 (conj Eb E3))).
Qed.

(** X18.  When the entry itself fails, [Enter] returns the status of
    VMLAUNCH or VMRESUME and the exit handler is not run: nothing happens
    between the failed entry and the enabling of interrupts, the FIFO is
    untouched, and [do_resume_] keeps its value, so that a launch that failed
    is followed by a launch again. *)
Theorem Enter_entry_fails (context : VmcsContext) (s s' : State) (status : status_t) :
  Enter context s = Some (status, s') ->
  exists s1 s2 entry_status,
    AutoVmcsLoad_ctor s.(page_) s = Some (tt, s1) /\
    Enter_prepare context s1 = Some (tt, s2) /\
    entry_status =
      fst (fst (fst (asm_vmx_enter s2.(world) s2.(vmx_state_) s2.(vmcs) s.(do_resume_)))) /\
    (entry_status <> NO_ERROR ->
     status = entry_status /\
     s'.(do_resume_) = s.(do_resume_) /\
     s'.(serial_fifo) = s.(serial_fifo) /\
     s'.(trace) = EvEnableInts :: EvVmxEnter s.(do_resume_) entry_status :: s2.(trace)).
Proof.
  intros E.
  destruct (Enter_stages _ _ _ _ E) as (s1 & s2 & s3 & E1 & E2 & E3 & E4).
  assert (P1 : preserves (fun s => (s.(do_resume_), s.(serial_fifo)))
                 (AutoVmcsLoad_ctor s.(page_))) by frame_run.
  assert (P2 : preserves (fun s => (s.(do_resume_), s.(serial_fifo)))
                 (Enter_prepare context)) by frame_run.
  pose proof (P1 _ _ _ E1) as K1. pose proof (P2 _ _ _ E2) as K2.
  cbv beta in K1, K2. rewrite K1 in K2. injection K2 as R2 F2.
  exists s1, s2. eexists. split; [ exact E1 | ]. split; [ exact E2 | ].
  rewrite <- R2. split; [ reflexivity | ].
  rewrite Enter_run_cases in E3.
  destruct (asm_vmx_enter _ _ _ _) as [[[entry_status w] st] v].
  cbn [fst]. intros Hne.
  destruct (status_eqb entry_status NO_ERROR) eqn:Es;
    [ apply status_eqb_eq in Es; contradiction | ].
  injection E3 as <- <-.
  revert E4. unfold AutoVmcsLoad_dtor, bind, arch_ints_disabled, gets, DEBUG_ASSERT,
    arch_enable_ints, modify.
  cbn. destruct (ints_disabled s2); [ | discriminate ].
  intros E4. injection E4 as <-. cbn. rewrite F2. repeat split.
Qed.

(** What [Enter] programs before every entry. *)
Lemma Enter_prepare_host (context : VmcsContext) (s s' : State) :
  Enter_prepare context s = Some (tt, s') ->
  s'.(host_msr_list) 3 =
    mkMsrListEntry (msr_number X86_MSR_IA32_KERNEL_GS_BASE)
      (s.(host_msr_list) 3).(reserved) (s.(msrs) X86_MSR_IA32_KERNEL_GS_BASE) /\
  (forall i, i <> 3 -> s'.(host_msr_list) i = s.(host_msr_list) i) /\
  s'.(vmcs) (FXX VmcsFieldXX.HOST_FS_BASE) = wrap64 (s.(msrs) X86_MSR_IA32_FS_BASE) /\
  s'.(vmcs) (FXX VmcsFieldXX.HOST_CR3) = wrap64 s.(cr3) /\
  s'.(vmcs) (F32 VmcsField32.EXIT_MSR_LOAD_COUNT) =
    s.(vmcs) (F32 VmcsField32.EXIT_MSR_LOAD_COUNT) /\
  s'.(vmcs) (F64 VmcsField64.EXIT_MSR_LOAD_ADDRESS) =
    s.(vmcs) (F64 VmcsField64.EXIT_MSR_LOAD_ADDRESS).
Proof.
  intros E. parts s. unfold Enter_prepare in E.
  destruct dr; run E; injection E as <-;
    cbv beta iota delta [msrs cr3 vmcs host_msr_list];
    (split; [ reflexivity | ]);
    (split; [ intros i Hi; destruct (Z.eqb_spec i 3); [ contradiction | reflexivity ] | ]);
    repeat split.
Qed.

(** X19.  [Setup] and [Enter] fill the VM-exit load area between them.
    At the first entry, the one made by [Enter] on the state that a
    successful [Setup] returned, the count is 4, the area is the host MSR
    page, and its four entries are IA32_STAR, IA32_LSTAR and IA32_FMASK,
    stored by [Setup], and IA32_KERNEL_GS_BASE, stored by [Enter] just
    before the entry, each with the value the MSR holds; [Enter] has also
    stored FS base and CR3 of the thread as HOST_FS_BASE and HOST_CR3.
    Later entries are not covered. *)
Theorem Setup_Enter_host_msr_list (pml4_address : Z) (context : VmcsContext)
    (s s1 s' : State) (status : status_t) :
  Setup pml4_address s = Some (NO_ERROR, s1) ->
  Enter context s1 = Some (status, s') ->
  exists s2 s3,
    AutoVmcsLoad_ctor s1.(page_) s1 = Some (tt, s2) /\
    Enter_prepare context s2 = Some (tt, s3) /\
    s3.(vmcs) (F32 VmcsField32.EXIT_MSR_LOAD_COUNT) = 4 /\
    s3.(vmcs) (F64 VmcsField64.EXIT_MSR_LOAD_ADDRESS) = wrap64 s.(host_msr_page_).(pa_) /\
    map (fun i => (msr (s3.(host_msr_list) i), value (s3.(host_msr_list) i))) [0; 1; 2; 3] =
      map (fun m => (msr_number m, s.(msrs) m))
        [X86_MSR_IA32_STAR; X86_MSR_IA32_LSTAR; X86_MSR_IA32_FMASK;
         X86_MSR_IA32_KERNEL_GS_BASE] /\
    s3.(vmcs) (FXX VmcsFieldXX.HOST_FS_BASE) = wrap64 (s.(msrs) X86_MSR_IA32_FS_BASE) /\
    s3.(vmcs) (FXX VmcsFieldXX.HOST_CR3) = wrap64 s.(cr3).
Proof.
  intros Es Ee.
  destruct (Enter_stages _ _ _ _ Ee) as (s2 & s3 & s4 & E1 & E2 & _).
  exists s2, s3. split; [ exact E1 | ]. split; [ exact E2 | ].
  destruct (Setup_msr_areas_returns _ _ _ Es)
    as (_ & _ & _ & A1 & A2 & L0 & L1 & L2 & _).
  pose proof (Setup_preserves_outside pml4_address _ _ _ Es) as Ho.
  unfold outside_vmcs in Ho. injection Ho as Hm _ H3 _ _ _ _ _.
  assert (P1 : preserves (fun s => (s.(msrs), s.(cr3), s.(host_msr_list),
                                    s.(vmcs) (F32 VmcsField32.EXIT_MSR_LOAD_COUNT),
                                    s.(vmcs) (F64 VmcsField64.EXIT_MSR_LOAD_ADDRESS)))
                 (AutoVmcsLoad_ctor s1.(page_))) by frame_run.
  pose proof (P1 _ _ _ E1) as K1. cbv beta in K1.
  injection K1 as Km Kc Kl K4 Ka.
  destruct (Enter_prepare_host _ _ _ E2) as (N3 & No & F1 & F2 & F3 & F4).
  rewrite F3, F4, K4, Ka, A1, A2, F1, F2, Km, Kc, Hm, H3.
  cbn [map]. rewrite N3, !No by lia. rewrite Kl, L0, L1, L2, Km, Hm.
  repeat split.
Qed.

End ExitsAndEntries.

(* ================================================================== *)
(** ** The callers: contexts and the per-CPU thread *)

(** X23.  The two settings of a context do not depend on each other: each
    is checked against the size of the guest memory only, a rejected call
    leaves the context as it was, an accepted one changes its own field
    only, and so the two calls give the same statuses and the same context
    in either order. *)
Theorem set_cr3_set_entry_commute (c : VmcsContext) (guest_cr3 guest_entry : Z) :
  let c1 := snd (set_cr3 guest_cr3 c) in
  let c2 := snd (set_entry guest_entry c) in
  fst (set_cr3 guest_cr3 c2) = fst (set_cr3 guest_cr3 c) /\
  fst (set_entry guest_entry c1) = fst (set_entry guest_entry c) /\
  snd (set_entry guest_entry c1) = snd (set_cr3 guest_cr3 c2) /\
  gpas_size (snd (set_entry guest_entry c1)) = gpas_size c /\
  (fst (set_cr3 guest_cr3 c) <> NO_ERROR -> c1 = c) /\
  (fst (set_entry guest_entry c) <> NO_ERROR -> c2 = c) /\
  (fst (set_cr3 guest_cr3 c) = NO_ERROR -> entry_ c1 = entry_ c) /\
  (fst (set_entry guest_entry c) = NO_ERROR -> cr3_ c2 = cr3_ c).
Proof.
  cbv zeta. unfold set_cr3, set_entry.
  destruct (wrap64 (gpas_size c - PAGE_SIZE) <=? guest_cr3) eqn:E1;
    destruct (gpas_size c <=? guest_entry) eqn:E2;
    cbn [fst snd gpas_size cr3_ entry_]; rewrite ?E1, ?E2;
    cbn [fst snd gpas_size cr3_ entry_];
    repeat split; intros; congruence.
Qed.

Section GuestEnter.

Context `{Platform} `{!Threads}.

(** X20.  [arch_guest_enter] refuses a context whose CR3 or entry point
    is still UINTPTR_MAX, the mark of a field never set: it returns
    BAD_STATE without creating a thread and without touching the machine.
    Otherwise it runs [Enter] on the per-CPU thread. *)
Theorem VmcsContext_Enter_guard (context : VmcsContext) (s : State) :
  (context.(cr3_) = UINTPTR_MAX \/ context.(entry_) = UINTPTR_MAX ->
   arch_guest_enter context s = Some (ERR_BAD_STATE, s)) /\
  (context.(cr3_) <> UINTPTR_MAX -> context.(entry_) <> UINTPTR_MAX ->
   arch_guest_enter context s = percpu_exec (Enter context) s).
Proof.
  unfold arch_guest_enter, VmcsContext_Enter, vmcs_launch, ret. split.
  - intros [-> | ->].
    + rewrite Z.eqb_refl. reflexivity.
    + destruct (cr3_ context =? UINTPTR_MAX); [ reflexivity | ].
      rewrite Z.eqb_refl. reflexivity.
  - intros H3 He. apply Z.eqb_neq in H3, He. rewrite H3, He. reflexivity.
Qed.

(** X21.  A context whose CR3 and entry point were accepted by [set_cr3]
    and [set_entry] holds the two values, neither of them UINTPTR_MAX, and
    passes the guard of [arch_guest_enter]. *)
Theorem set_cr3_set_entry_enter (c c1 c2 : VmcsContext) (guest_cr3 guest_entry : Z) :
  is_u64 c.(gpas_size) ->
  set_cr3 guest_cr3 c = (NO_ERROR, c1) ->
  set_entry guest_entry c1 = (NO_ERROR, c2) ->
  c2.(cr3_) = guest_cr3 /\ c2.(entry_) = guest_entry /\
  guest_cr3 < UINTPTR_MAX /\ guest_entry < UINTPTR_MAX /\
  forall s, arch_guest_enter c2 s = percpu_exec (Enter c2) s.
Proof.
  intros Ug E1 E2. unfold set_cr3 in E1. unfold set_entry in E2.
  destruct (Z.leb_spec (wrap64 (gpas_size c - PAGE_SIZE)) guest_cr3) as [ | L1];
    [ discriminate E1 | ].
  injection E1 as <-. cbn [gpas_size cr3_ entry_] in E2.
  destruct (Z.leb_spec (gpas_size c) guest_entry) as [ | L2]; [ discriminate E2 | ].
  injection E2 as <-. cbn [cr3_ entry_].
  pose proof (wrap64_is_u64 (gpas_size c - PAGE_SIZE)) as Uw.
  unfold is_u64 in Ug, Uw. unfold UINTPTR_MAX. change mask64 with (2 ^ 64 - 1).
  assert (H3 : guest_cr3 < 2 ^ 64 - 1) by lia.
  assert (He : guest_entry < 2 ^ 64 - 1) by lia.
  repeat split; try assumption.
  intros s. unfold arch_guest_enter, VmcsContext_Enter, vmcs_launch. cbn [cr3_ entry_].
  unfold UINTPTR_MAX. change mask64 with (2 ^ 64 - 1).
  destruct (Z.eqb_spec guest_cr3 (2 ^ 64 - 1)); [ lia | ].
  destruct (Z.eqb_spec guest_entry (2 ^ 64 - 1)); [ lia | ].
  reflexivity.
Qed.

(** The per-CPU thread, by what its three primitives report. *)
Lemma percpu_exec_returns (entry : M status_t) (s s' : State) (status : status_t) :
  percpu_exec entry s = Some (status, s') ->
  (exists w, s' = set_world w s /\ status <> NO_ERROR) \/
  (exists wc w0 retcode s1 w1 joined,
     thread_create s.(world) = (true, wc) /\
     thread_resume wc = (NO_ERROR, w0) /\
     entry (set_world w0 s) = Some (retcode, s1) /\
     thread_join s1.(world) = (joined, w1) /\
     s' = set_world w1 s1 /\
     status = (if negb (status_eqb joined NO_ERROR) then joined else retcode)).
Proof.
  unfold percpu_exec, bind, thread_create_call, thread_resume_call,
    thread_join_call, ret.
  destruct (thread_create (world s)) as [t w0] eqn:Ec.
  destruct t; cbn [negb].
  2: { intros E. injection E as <- <-. left. exists w0. split; [ reflexivity | discriminate ]. }
  cbn [world set_world].
  destruct (thread_resume w0) as [resumed w1] eqn:Er0.
  destruct (status_eqb resumed NO_ERROR) eqn:Er; cbn [negb].
  2: { intros E. injection E as <- <-. left. exists w1. split; [ reflexivity | ].
       intros ->. discriminate Er. }
  apply status_eqb_eq in Er. subst resumed.
  change (set_world w1 (set_world w0 s)) with (set_world w1 s).
  destruct (entry (set_world w1 s)) as [[retcode s1] | ] eqn:Ee; [ | discriminate ].
  destruct (thread_join (world s1)) as [joined w2] eqn:Ej.
  intros E. injection E as <- <-. right.
  exists w0, w1, retcode, s1, w2, joined.
  exact (conj eq_refl (conj Er0 (conj Ee (conj Ej (conj eq_refl eq_refl))))).
Qed.

(** X22.  A guest entry that reports success has entered the guest: when
    [arch_guest_enter] returns NO_ERROR the context had both fields set, the
    per-CPU thread was created, resumed and joined with success, [Enter]
    ran on it and returned NO_ERROR, and [do_resume_] is true afterwards.
    Nothing but the thread primitives touches the machine outside
    [Enter]. *)
Theorem arch_guest_enter_success (context : VmcsContext) (s s' : State) :
  arch_guest_enter context s = Some (NO_ERROR, s') ->
  context.(cr3_) <> UINTPTR_MAX /\ context.(entry_) <> UINTPTR_MAX /\
  exists wc w0 s1 w1,
    thread_create s.(world) = (true, wc) /\
    thread_resume wc = (NO_ERROR, w0) /\
    Enter context (set_world w0 s) = Some (NO_ERROR, s1) /\
    thread_join s1.(world) = (NO_ERROR, w1) /\
    s' = set_world w1 s1 /\
    s'.(do_resume_) = true.
Proof.
  unfold arch_guest_enter, VmcsContext_Enter, vmcs_launch, ret.
  destruct (Z.eqb_spec (cr3_ context) UINTPTR_MAX) as [ | H3]; [ discriminate | ].
  destruct (Z.eqb_spec (entry_ context) UINTPTR_MAX) as [ | He]; [ discriminate | ].
  intros E. split; [ exact H3 | ]. split; [ exact He | ].
  destruct (percpu_exec_returns _ _ _ _ E)
    as [(w & _ & N) |
        (wc & w0 & retcode & s1 & w1 & joined & Ec & Er & Ee & Ej & -> & Hs)];
    [ contradiction | ].
  assert (Hj : joined = NO_ERROR /\ retcode = NO_ERROR).
  { destruct (status_eqb joined NO_ERROR) eqn:Eb; cbn [negb] in Hs.
    - apply status_eqb_eq in Eb. split; congruence.
    - subst joined. discriminate Eb. }
  destruct Hj as [-> ->].
  exists wc, w0, s1, w1.
  split; [ exact Ec | ]. split; [ exact Er | ]. split; [ exact Ee | ].
  split; [ exact Ej | ]. split; [ reflexivity | ].
  destruct (Enter_returns _ _ _ _ Ee)
    as (sa & sb & entry_status & evs_p & evs_h & _ & _ & _ & _ & _ & _ & R & _ & _ & Hok).
  cbn [do_resume_ set_world]. rewrite R, (Hok eq_refl). apply orb_true_r.
Qed.

End GuestEnter.

(* ================================================================== *)
(** ** The capability MSRs, decoded *)

Section Capabilities.

Context `{Platform}.

(** X24.  What the three decoders read from their MSRs: the revision
    identifier is bits 30:0 and the region size bits 44:32 of
    IA32_VMX_BASIC, write-back is a memory type (bits 53:50) equal to
    VMX_MEMORY_TYPE_WRITE_BACK, and the flags are single bits.  The limit of
    an MSR list is 512 times one more than bits 27:25 of IA32_VMX_MISC: a
    multiple of 512 from 512 to 4096, so never below the 512 bytes that
    [edit_msr_list] allows itself. *)
Theorem capability_decode (basic_info misc_info ept_info : Z) :
  let vmx_info := VmxInfo.decode basic_info in
  let misc := MiscInfo.decode misc_info in
  let ept := EptInfo.decode ept_info in
  VmxInfo.revision_id vmx_info = basic_info mod 2 ^ 31 /\
  VmxInfo.region_size vmx_info = (basic_info / 2 ^ 32) mod 2 ^ 13 /\
  VmxInfo.write_back vmx_info =
    ((basic_info / 2 ^ 50) mod 16 =? VMX_MEMORY_TYPE_WRITE_BACK) /\
  VmxInfo.io_exit_info vmx_info = Z.testbit basic_info 54 /\
  VmxInfo.vmx_controls vmx_info = Z.testbit basic_info 55 /\
  MiscInfo.wait_for_sipi misc = Z.testbit misc_info 8 /\
  MiscInfo.msr_list_limit misc = 512 * ((misc_info / 2 ^ 25) mod 8 + 1) /\
  512 <= MiscInfo.msr_list_limit misc <= 4096 /\
  EptInfo.page_walk_4 ept = Z.testbit ept_info 6 /\
  EptInfo.write_back ept = Z.testbit ept_info 14 /\
  EptInfo.pde_2mb_page ept = Z.testbit ept_info 16 /\
  EptInfo.pdpe_1gb_page ept = Z.testbit ept_info 17 /\
  EptInfo.ept_flags ept = Z.testbit ept_info 21 /\
  EptInfo.exit_info ept = Z.testbit ept_info 22 /\
  EptInfo.invept ept =
    Z.testbit ept_info 20 && Z.testbit ept_info 25 && Z.testbit ept_info 26.
Proof.
  cbv zeta. unfold VmxInfo.decode, MiscInfo.decode, EptInfo.decode.
  cbn [VmxInfo.revision_id VmxInfo.region_size VmxInfo.write_back
       VmxInfo.io_exit_info VmxInfo.vmx_controls MiscInfo.wait_for_sipi
       MiscInfo.msr_list_limit EptInfo.page_walk_4 EptInfo.write_back
       EptInfo.pde_2mb_page EptInfo.pdpe_1gb_page EptInfo.ept_flags
       EptInfo.exit_info EptInfo.invept].
  rewrite !BIT_SHIFT_testbit by lia.
  rewrite !BITS_SHIFT_div by lia.
  change (44 - 32 + 1) with 13. change (53 - 50 + 1) with 4. change (27 - 25 + 1) with 3.
  change (2 ^ 4) with 16. change (2 ^ 3) with 8.
  pose proof (Z.mod_pos_bound basic_info (2 ^ 31) ltac:(lia)) as B1.
  pose proof (Z.mod_pos_bound (basic_info / 2 ^ 32) (2 ^ 13) ltac:(lia)) as B2.
  pose proof (Z.mod_pos_bound (misc_info / 2 ^ 25) 8 ltac:(lia)) as B3.
  assert (R : wrap32 (BITS basic_info 30 0) = basic_info mod 2 ^ 31).
  { unfold BITS. change (Z.land (Z.ones (30 + 1)) (Z.lnot (Z.ones 0))) with (Z.ones 31).
    rewrite Z.land_ones by lia. apply wrap32_id. unfold is_u32. lia. }
  assert (S : wrap16 ((basic_info / 2 ^ 32) mod 2 ^ 13) = (basic_info / 2 ^ 32) mod 2 ^ 13).
  { rewrite wrap16_mod. apply Z.mod_small. lia. }
  assert (L : wrap32 (wrap32 ((misc_info / 2 ^ 25) mod 8 + 1) * 512)
              = 512 * ((misc_info / 2 ^ 25) mod 8 + 1)).
  { rewrite (wrap32_id ((misc_info / 2 ^ 25) mod 8 + 1)) by (unfold is_u32; lia).
    rewrite wrap32_id by (unfold is_u32; lia). lia. }
  rewrite R, S, L.
  repeat split; lia.
Qed.

End Capabilities.

(* ================================================================== *)
(** ** The sample platform at work *)

#[local] Existing Instance Sample.platform.

(** OUT 0x3F8 of two bytes: qualification 0x03F80001. *)
Lemma IoInfo_decode_witness :
  is_u64 0x03F80001 /\
  IoInfo.bytes (IoInfo.IoInfo 0x03F80001) = 0x03F80001 mod 8 + 1 /\
  1 <= IoInfo.bytes (IoInfo.IoInfo 0x03F80001) <= 8.
Proof.
  assert (Hq : is_u64 0x03F80001) by (unfold is_u64; lia).
  destruct (IoInfo_decode 0x03F80001 Hq) as (A & B & _).
  exact (conj Hq (conj A B)).
Defined.

(** A qualification whose bits [2:0] are 7 decodes to 8 bytes, outside
    1..4. *)
Lemma IoInfo_bytes_outside_1_4 :
  is_u64 7 /\ ~ (1 <= IoInfo.bytes (IoInfo.IoInfo 7) <= 4).
Proof.
  split; [ unfold is_u64; lia | ].
  change (IoInfo.bytes (IoInfo.IoInfo 7)) with 8. lia.
Qed.

(** The primary processor-based controls of the sample CPU. *)
Lemma set_vmcs_control_value_witness :
  let s := Sample.machine 5 [] 16 in
  let s' :=
    Sample.after (set_vmcs_control VmcsField32.PROCBASED_CTLS
                    0xfff9fffe04006172 0xfff9fffe0401e172 0x91000000 0x18000) s in
  is_u64 0xfff9fffe04006172 /\ is_u32 0x91000000 /\ is_u32 0x18000 /\
  set_vmcs_control VmcsField32.PROCBASED_CTLS
    0xfff9fffe04006172 0xfff9fffe0401e172 0x91000000 0x18000 s = Some (NO_ERROR, s') /\
  s'.(vmcs) (F32 VmcsField32.PROCBASED_CTLS) = 0x95006172.
Proof.
  cbv zeta.
  assert (Ht : is_u64 0xfff9fffe04006172) by (unfold is_u64; lia).
  assert (Hs : is_u32 0x91000000) by (unfold is_u32; lia).
  assert (Hc : is_u32 0x18000) by (unfold is_u32; lia).
  assert (E : set_vmcs_control VmcsField32.PROCBASED_CTLS
                0xfff9fffe04006172 0xfff9fffe0401e172 0x91000000 0x18000
                (Sample.machine 5 [] 16) =
              Some (NO_ERROR,
                    Sample.after (set_vmcs_control VmcsField32.PROCBASED_CTLS
                      0xfff9fffe04006172 0xfff9fffe0401e172 0x91000000 0x18000)
                      (Sample.machine 5 [] 16)))
    by (vm_compute; reflexivity).
  destruct (set_vmcs_control_value _ _ 0xfff9fffe0401e172 _ _ _ _ Ht Hs Hc E)
    as (_ & V & _).
  exact (conj Ht (conj Hs (conj Hc (conj E V)))).
Defined.

(** A true MSR whose allowed_0 has bit 0 and whose allowed_1 is empty: the
    helper succeeds and writes bit 0, which is outside allowed_1. *)
Lemma set_vmcs_control_bit_outside_allowed_1 :
  let s := Sample.machine 5 [] 16 in
  let s' := Sample.after (set_vmcs_control VmcsField32.PINBASED_CTLS 1 0 0 0) s in
  let allowed_1 := 1 / 2 ^ 32 in
  is_u64 1 /\ is_u32 0 /\
  set_vmcs_control VmcsField32.PINBASED_CTLS 1 0 0 0 s = Some (NO_ERROR, s') /\
  s'.(vmcs) (F32 VmcsField32.PINBASED_CTLS) = 1 /\
  Z.land (s'.(vmcs) (F32 VmcsField32.PINBASED_CTLS)) (not32 allowed_1) <> 0.
Proof.
  cbv zeta. unfold is_u64, is_u32.
  split; [ lia | ]. split; [ lia | ].
  split; [ vm_compute; reflexivity | ].
  split; [ vm_compute; reflexivity | ].
  vm_compute. discriminate.
Qed.

(** A flexible bit asked for in both masks. *)
Lemma set_vmcs_control_overlap_witness :
  let s := Sample.machine 5 [] 16 in
  is_u64 0x100000000 /\ is_u32 1 /\ Z.land 1 1 <> 0 /\
  set_vmcs_control VmcsField32.PINBASED_CTLS 0x100000000 0 1 1 s =
    Some (ERR_INVALID_ARGS, s).
Proof.
  cbv zeta.
  assert (Ht : is_u64 0x100000000) by (unfold is_u64; lia).
  assert (Hs : is_u32 1) by (unfold is_u32; lia).
  assert (Ho : Z.land 1 1 <> 0) by (cbn; lia).
  exact (conj Ht (conj Hs (conj Ho
    (set_vmcs_control_overlap VmcsField32.PINBASED_CTLS 0x100000000 0 1 1
       (Sample.machine 5 [] 16) Ht Hs Hs Ho)))).
Defined.

(** Overlapping masks on a bit the CPU does not allow to be set: the
    capability check comes first and the status is NOT_SUPPORTED. *)
Lemma set_vmcs_control_overlap_not_supported :
  let s := Sample.machine 5 [] 16 in
  is_u64 0 /\ is_u32 1 /\ Z.land 1 1 <> 0 /\
  set_vmcs_control VmcsField32.PINBASED_CTLS 0 0 1 1 s = Some (ERR_NOT_SUPPORTED, s) /\
  ERR_NOT_SUPPORTED <> ERR_INVALID_ARGS.
Proof.
  cbv zeta. unfold is_u64, is_u32.
  split; [ lia | ]. split; [ lia | ]. split; [ cbn; lia | ].
  split; [ reflexivity | discriminate ].
Qed.

(** 1 MiB of guest memory. *)
Lemma set_cr3_set_entry_bounds_witness :
  let c := Sample.context in
  is_u64 c.(gpas_size) /\ is_u64 0xff000 /\ is_u64 0xfffff /\
  PAGE_SIZE <= c.(gpas_size) /\
  set_cr3 0xff000 c = (ERR_INVALID_ARGS, c) /\
  set_entry 0xfffff c = (NO_ERROR, mkVmcsContext 0x100000 0x3000 0xfffff).
Proof.
  cbv zeta.
  assert (Hs : is_u64 (gpas_size Sample.context)) by (unfold is_u64; cbn; lia).
  assert (Hc : is_u64 0xff000) by (unfold is_u64; lia).
  assert (He : is_u64 0xfffff) by (unfold is_u64; lia).
  assert (Hp : PAGE_SIZE <= gpas_size Sample.context) by (unfold PAGE_SIZE; cbn; lia).
  destruct (set_cr3_set_entry_bounds Sample.context 0xff000 0xfffff Hs Hc He)
    as (A & _ & B & _).
  destruct (A Hp) as (A1 & _).
  exact (conj Hs (conj Hc (conj He (conj Hp
    (conj (A1 ltac:(cbn; lia)) (B ltac:(cbn; lia))))))).
Defined.

(** An empty guest memory: cr3 = 0 is accepted although
    0 >= guest_memory_size - PAGE_SIZE, and the entry guest_memory_size - 1,
    in 64 bits the largest address there is, is rejected. *)
Lemma set_cr3_set_entry_empty_memory :
  let c := mkVmcsContext 0 mask64 mask64 in
  is_u64 c.(gpas_size) /\ is_u64 0 /\
  0 >= c.(gpas_size) - PAGE_SIZE /\
  set_cr3 0 c = (NO_ERROR, mkVmcsContext 0 0 mask64) /\
  fst (set_cr3 0 c) <> ERR_INVALID_ARGS /\
  set_entry (wrap64 (c.(gpas_size) - 1)) c = (ERR_INVALID_ARGS, c) /\
  fst (set_entry (wrap64 (c.(gpas_size) - 1)) c) <> NO_ERROR.
Proof.
  cbv zeta. unfold is_u64, PAGE_SIZE. cbn.
  repeat split; try lia; discriminate.
Qed.

(** The three feature-control values on the sample CPU: unlocked (0), locked
    by the firmware without VMXON (1), locked with VMXON (5). *)
Lemma vmx_enable_feature_control_msr_witness :
  (exists s1,
     write_msr X86_MSR_IA32_FEATURE_CONTROL 5 (Sample.machine 0 [] 16) = Some (tt, s1) /\
     vmx_enable (Sample.machine 0 [] 16) = vmx_enable_control_registers s1) /\
  vmx_enable (Sample.machine 1 [] 16) = Some (ERR_NOT_SUPPORTED, Sample.machine 1 [] 16) /\
  vmx_enable (Sample.machine 5 [] 16) =
    vmx_enable_control_registers (Sample.machine 5 [] 16).
Proof.
  destruct (vmx_enable_feature_control_msr (Sample.machine 0 [] 16)) as (A & _).
  destruct (vmx_enable_feature_control_msr (Sample.machine 1 [] 16)) as (_ & B & _).
  destruct (vmx_enable_feature_control_msr (Sample.machine 5 [] 16)) as (_ & _ & C & _).
  split.
  - destruct (A eq_refl eq_refl) as (s1 & W & _ & _ & _ & E).
    exists s1. exact (conj W E).
  - exact (conj (B eq_refl eq_refl) (C eq_refl eq_refl eq_refl)).
Defined.

(** CPUID with rax = 0 on the sample host. *)
Lemma vmexit_handler_cpuid_witness :
  let s := Sample.exited (Sample.cpuid_exit (mkGuestState 0 1 2 3)) 16 in
  let s' := Sample.after vmexit_handler s in
  ExitReason_of (wrap32 (s.(vmcs) (F32 VmcsField32.EXIT_REASON))) = ExitReason.CPUID /\
  s.(vmx_state_).(guest_state).(rax) = 0 /\
  vmexit_handler s = Some (NO_ERROR, s') /\
  s'.(vmcs) (FXX VmcsFieldXX.GUEST_RIP) = 0x1002 /\
  s'.(vmx_state_).(guest_state) = mkGuestState 0 0x756e6547 0x6c65746e 0x49656e69.
Proof.
  cbv zeta.
  destruct (vmexit_handler_cpuid
              (Sample.exited (Sample.cpuid_exit (mkGuestState 0 1 2 3)) 16)
              0x16 0x756e6547 0x6c65746e 0x49656e69 eq_refl eq_refl) as (A & _).
  destruct (A eq_refl) as (s' & E & R & _ & G).
  unfold Sample.after. rewrite E.
  exact (conj eq_refl (conj eq_refl (conj eq_refl (conj R G)))).
Defined.

(** CPUID with rax = 1: NOT_SUPPORTED, and guest RIP stays at 0x1000, not
    advanced by the instruction length, 2. *)
Lemma vmexit_handler_cpuid_rip_not_advanced :
  let s := Sample.exited (Sample.cpuid_exit (mkGuestState 1 0 0 0)) 16 in
  let s' := Sample.after vmexit_handler s in
  ExitReason_of (wrap32 (s.(vmcs) (F32 VmcsField32.EXIT_REASON))) = ExitReason.CPUID /\
  vmexit_handler s = Some (ERR_NOT_SUPPORTED, s') /\
  s'.(vmcs) (FXX VmcsFieldXX.GUEST_RIP) = 0x1000 /\
  s'.(vmcs) (FXX VmcsFieldXX.GUEST_RIP) <>
    s.(vmcs) (FXX VmcsFieldXX.GUEST_RIP)
    + wrap32 (s.(vmcs) (F32 VmcsField32.INSTRUCTION_LENGTH)).
Proof.
  cbv zeta.
  split; [ reflexivity | ].
  split; [ vm_compute; reflexivity | ].
  split; [ vm_compute; reflexivity | ].
  vm_compute. discriminate.
Qed.

(** The upper halves of rbx, rcx and rdx across a CPUID exit. *)
Lemma handle_cpuid_halves_witness :
  let g := mkGuestState 0 0xaaaaaaaa00000001 0xbbbbbbbb00000002 0xcccccccc00000003 in
  let e := Sample.cpuid_exit g in
  let s := Sample.exited e 16 in
  let exit_info := mkExitInfo ExitReason.CPUID 0 0 0 2 0 0 0 0 0x1000 in
  let s' := Sample.after (handle_cpuid exit_info) s in
  s.(vmx_state_).(guest_state).(rax) = 0 /\
  is_u64 g.(rbx) /\ is_u64 g.(rcx) /\ is_u64 g.(rdx) /\
  handle_cpuid exit_info s = Some (NO_ERROR, s') /\
  s'.(vmx_state_).(guest_state) =
    mkGuestState 0 0xaaaaaaaa756e6547 0xbbbbbbbb6c65746e 0xcccccccc49656e69.
Proof.
  cbv zeta.
  assert (Hb : is_u64 0xaaaaaaaa00000001) by (unfold is_u64; lia).
  assert (Hc : is_u64 0xbbbbbbbb00000002) by (unfold is_u64; lia).
  assert (Hd : is_u64 0xcccccccc00000003) by (unfold is_u64; lia).
  destruct (handle_cpuid_halves
              (mkExitInfo ExitReason.CPUID 0 0 0 2 0 0 0 0 0x1000)
              (Sample.exited (Sample.cpuid_exit
                 (mkGuestState 0 0xaaaaaaaa00000001 0xbbbbbbbb00000002
                    0xcccccccc00000003)) 16)
              0x16 0x756e6547 0x6c65746e 0x49656e69 eq_refl eq_refl Hb Hc Hd)
    as (s' & E & _).
  unfold Sample.after. rewrite E.
  refine (conj eq_refl (conj Hb (conj Hc (conj Hd (conj eq_refl _))))).
  revert E. vm_compute. intros E. injection E as <-. reflexivity.
Defined.

(** OUT 0x3F8, AL with AL = 0x41: the FIFO takes the byte, or, when it is
    full, its rejection is what the handler returns.  IN AL, 0x60 leaves the
    FIFO alone. *)
Lemma vmexit_handler_io_witness :
  let s := Sample.exited (Sample.io_exit 0x03F80000 0x41) 16 in
  let s' := Sample.after vmexit_handler s in
  let full := Sample.exited (Sample.io_exit 0x03F80000 0x41) 0 in
  let spurious := Sample.exited (Sample.io_exit 0x00600008 0) 16 in
  WITH_LIB_MAGENTA = true /\
  ExitReason_of (wrap32 (s.(vmcs) (F32 VmcsField32.EXIT_REASON))) =
    ExitReason.IO_INSTRUCTION /\
  vmexit_handler s = Some (NO_ERROR, s') /\
  s'.(serial_fifo).(Sample.held) = [0x41] /\
  s'.(vmcs) (FXX VmcsFieldXX.GUEST_RIP) = 0x2001 /\
  option_map fst (vmexit_handler full) = Some ERR_BAD_STATE /\
  option_map fst (vmexit_handler spurious) = Some NO_ERROR /\
  (Sample.after vmexit_handler spurious).(serial_fifo) = spurious.(serial_fifo).
Proof.
  cbv zeta.
  destruct (vmexit_handler_io (Sample.exited (Sample.io_exit 0x03F80000 0x41) 16)
              eq_refl eq_refl) as (s1 & W & _ & B).
  destruct (B eq_refl eq_refl eq_refl eq_refl) as (E & _).
  destruct (vmexit_handler_io (Sample.exited (Sample.io_exit 0x03F80000 0x41) 0)
              eq_refl eq_refl) as (f1 & _ & _ & F).
  destruct (F eq_refl eq_refl eq_refl eq_refl) as (Ef & _).
  destruct (vmexit_handler_io (Sample.exited (Sample.io_exit 0x00600008 0) 16)
              eq_refl eq_refl) as (p1 & _ & P & _).
  destruct (P (or_introl eq_refl)) as (Ep & Fp).
  unfold Sample.after. rewrite E, Ef, Ep.
  refine (conj eq_refl (conj eq_refl (conj _ (conj _ (conj _
            (conj eq_refl (conj eq_refl Fp))))))).
  - vm_compute. reflexivity.
  - revert W. vm_compute. intros W. injection W as <-. reflexivity.
  - revert W. vm_compute. intros W. injection W as <-. reflexivity.
Defined.

(** The first entry on the sample machine, the guest executing CPUID. *)
Lemma Enter_do_resume_witness :
  let s := Sample.machine 5 [Sample.cpuid_exit (mkGuestState 0 0 0 0)] 16 in
  let s' := Sample.after (Enter Sample.context) s in
  s.(do_resume_) = false /\
  Enter Sample.context s = Some (NO_ERROR, s') /\
  s'.(do_resume_) = true.
Proof.
  cbv zeta.
  assert (Hst : option_map fst
                  (Enter Sample.context
                     (Sample.machine 5 [Sample.cpuid_exit (mkGuestState 0 0 0 0)] 16)) =
                Some NO_ERROR)
    by (vm_compute; reflexivity).
  unfold Sample.after.
  destruct (Enter Sample.context
              (Sample.machine 5 [Sample.cpuid_exit (mkGuestState 0 0 0 0)] 16))
    as [[status s'] | ] eqn:E; [ | discriminate Hst ].
  injection Hst as ->.
  destruct (Enter_do_resume _ _ _ _ E)
    as (s1 & s2 & entry_status & evs & _ & _ & _ & _ & _ & _ & _ & R & _).
  exact (conj eq_refl (conj eq_refl (R eq_refl))).
Defined.

(** VMCS construction and the first entry on the sample machine. *)
Lemma AutoVmcsLoad_interrupts_witness :
  let s := Sample.machine 5 [Sample.cpuid_exit (mkGuestState 0 0 0 0)] 16 in
  let s1 := Sample.after (Setup 0x20000) s in
  let s2 := Sample.after (Enter Sample.context) s in
  (forall w pa, fst (insn_vmptrld w pa) = false) /\
  ready s /\
  IS_PAGE_ALIGNED 0x20000 = true /\
  Setup 0x20000 s = Some (NO_ERROR, s1) /\
  s1.(ints_disabled) = false /\
  Enter Sample.context s = Some (NO_ERROR, s2) /\
  s2.(ints_disabled) = false /\
  AutoVmcsLoad_ctor s.(page_) (set_ints_disabled true s) = None /\
  fst (insn_vmclear s.(world) s.(page_).(pa_)) = false /\
  In (EvVmptrld 0x11000 true) s1.(trace) /\
  In (EvVmptrld 0x11000 true) s2.(trace).
Proof.
  cbv zeta.
  assert (Hv : forall w pa, fst (insn_vmptrld w pa) = false) by reflexivity.
  assert (Hr : ready (Sample.machine 5 [Sample.cpuid_exit (mkGuestState 0 0 0 0)] 16)).
  { unfold ready. cbn. repeat split; discriminate. }
  destruct (AutoVmcsLoad_interrupts 0x20000 Sample.context (mkVmxPage 0x11000)
              (Sample.machine 5 [Sample.cpuid_exit (mkGuestState 0 0 0 0)] 16))
    as (_ & _ & _ & TS & TE & T).
  destruct (T Hv Hr) as (T1 & T2).
  destruct (AutoVmcsLoad_interrupts 0x20000 Sample.context (mkVmxPage 0x11000)
              (set_ints_disabled true
                 (Sample.machine 5 [Sample.cpuid_exit (mkGuestState 0 0 0 0)] 16)))
    as (C & _).
  assert (H1 : option_map fst
                 (Setup 0x20000
                    (Sample.machine 5 [Sample.cpuid_exit (mkGuestState 0 0 0 0)] 16)) =
               Some NO_ERROR)
    by (vm_compute; reflexivity).
  assert (H2 : option_map fst
                 (Enter Sample.context
                    (Sample.machine 5 [Sample.cpuid_exit (mkGuestState 0 0 0 0)] 16)) =
               Some NO_ERROR)
    by (vm_compute; reflexivity).
  unfold Sample.after.
  destruct (T1 eq_refl) as (st1 & s1 & E1 & I1).
  destruct T2 as (st2 & s2 & E2 & I2).
  rewrite E1 in H1 |- *. rewrite E2 in H2 |- *.
  injection H1 as ->. injection H2 as ->.
  destruct (TS _ _ E1) as (_ & evs1 & L1 & _ & S1 & _).
  destruct (S1 eq_refl) as (_ & In1).
  destruct (TE _ _ E2) as (_ & _ & evs2 & L2 & _ & In2).
  assert (M1 : In (EvVmptrld 0x11000 true) (trace s1))
    by (rewrite L1; apply in_or_app; left; exact In1).
  assert (M2 : In (EvVmptrld 0x11000 true) (trace s2))
    by (rewrite L2; apply in_or_app; left; exact In2).
  exact (conj Hv (conj Hr (conj eq_refl (conj eq_refl (conj I1
           (conj eq_refl (conj I2 (conj (C eq_refl)
             (conj eq_refl (conj M1 M2)))))))))).
Defined.

(* ================================================================== *)
(** ** The sample platform at work, continued *)

#[local] Existing Instance SampleThreads.threads.

(** A computation whose status is known returns in the state [after]
    names. *)
Lemma returns_after {A : Type} (m : M A) (s : State) (a : A) :
  option_map fst (m s) = Some a -> m s = Some (a, Sample.after m s).
Proof.
  unfold Sample.after. destruct (m s) as [[a' s'] | ]; cbn; intros E.
  - injection E as ->. reflexivity.
  - discriminate E.
Qed.

Lemma sample_msrs_u64 (feature_control : Z) (m : Msr) :
  is_u64 feature_control -> is_u64 (Sample.msr_of feature_control m).
Proof.
  intros Hf. destruct m; try exact Hf; vm_compute; split; congruence.
Qed.

(** CR0 of the sample machine against its fixed-bit MSRs. *)
Lemma cr_is_invalid_fixed_bits_witness :
  let s := Sample.machine 5 [] 0 in
  exists invalid,
    cr_is_invalid s.(cr0) X86_MSR_IA32_VMX_CR0_FIXED0 X86_MSR_IA32_VMX_CR0_FIXED1 s
      = Some (invalid, s) /\
    (invalid = false <->
     fixed_bits_ok s.(cr0) (s.(msrs) X86_MSR_IA32_VMX_CR0_FIXED0)
       (s.(msrs) X86_MSR_IA32_VMX_CR0_FIXED1)).
Proof.
  cbv zeta. apply cr_is_invalid_fixed_bits; vm_compute; split; congruence.
Defined.

(** A CPU without any capability, and the sample CPU. *)
Lemma vmx_enable_required_capabilities_witness :
  let s := Sample.machine 5 [] 0 in
  let bare := set_msrs (fun _ => 0) s in
  vmx_enable bare = Some (ERR_NOT_SUPPORTED, bare) /\
  vmx_enable s = vmx_enable_feature_control s.
Proof.
  cbv zeta. split.
  - apply (proj1 (vmx_enable_required_capabilities
                    (set_msrs (fun _ => 0) (Sample.machine 5 [] 0)))).
    exists X86_MSR_IA32_VMX_BASIC, 54. split; [ simpl; auto | reflexivity ].
  - apply (proj2 (vmx_enable_required_capabilities (Sample.machine 5 [] 0))).
    intros m b Hin. simpl in Hin.
    repeat (destruct Hin as [Hin | Hin]; [ injection Hin as <- <-; reflexivity | ]).
    contradiction.
Defined.

(** Bring-up of the sample machine. *)
Lemma vmx_enable_success_witness :
  let s := Sample.machine 5 [] 0 in
  let s' := Sample.after vmx_enable s in
  registers_u64 s /\
  vmx_enable s = Some (NO_ERROR, s') /\
  s'.(cr4) = Z.lor s.(cr4) X86_CR4_VMXE /\
  s'.(is_on_) = true.
Proof.
  cbv zeta.
  assert (U : registers_u64 (Sample.machine 5 [] 0)).
  { split; [ vm_compute; split; congruence | ].
    split; [ vm_compute; split; congruence | ].
    intros m. apply sample_msrs_u64. vm_compute; split; congruence. }
  assert (V : is_u64 X86_CR4_VMXE) by (vm_compute; split; congruence).
  pose proof (returns_after vmx_enable (Sample.machine 5 [] 0) NO_ERROR
                ltac:(vm_compute; reflexivity)) as E.
  destruct (vmx_enable_success _ _ U V E) as (_ & _ & _ & C & O & _).
  exact (conj U (conj E (conj C O))).
Defined.

Lemma vmx_enable_failure_witness :
  let s := Sample.machine 5 [] 0 in
  s.(vmxon_page_).(pa_) <> 0 /\
  exists status s' evs,
    vmx_enable s = Some (status, s') /\ s'.(trace) = evs ++ s.(trace).
Proof.
  cbv zeta.
  assert (P : pa_ (vmxon_page_ (Sample.machine 5 [] 0)) <> 0) by (vm_compute; congruence).
  destruct (vmx_enable_failure (Sample.machine 5 [] 0) P) as (status & s' & evs & E & T & _).
  split; [ exact P | ]. exists status, s', evs. split; assumption.
Defined.

(** Bring-up and tear-down of the sample machine. *)
Lemma vmx_enable_disable_cr4_witness :
  let s := Sample.machine 5 [] 0 in
  let s1 := Sample.after vmx_enable s in
  let s2 := Sample.after vmx_disable s1 in
  Z.land s.(cr4) X86_CR4_VMXE = 0 /\
  vmx_enable s = Some (NO_ERROR, s1) /\
  vmx_disable s1 = Some (NO_ERROR, s2) /\
  s2.(cr4) = s.(cr4).
Proof.
  cbv zeta.
  pose proof (returns_after vmx_enable (Sample.machine 5 [] 0) NO_ERROR
                ltac:(vm_compute; reflexivity)) as E1.
  pose proof (returns_after vmx_disable (Sample.after vmx_enable (Sample.machine 5 [] 0))
                NO_ERROR ltac:(vm_compute; reflexivity)) as E2.
  assert (U : is_u64 (cr4 (Sample.machine 5 [] 0))) by (vm_compute; split; congruence).
  assert (C : Z.land (cr4 (Sample.machine 5 [] 0)) X86_CR4_VMXE = 0) by reflexivity.
  destruct (vmx_enable_disable_cr4 _ _ _ U C E1 E2) as (_ & R & _).
  exact (conj C (conj E1 (conj E2 R))).
Defined.

(** The EPT pointer of a PML4 at 0x20000 with write-back type 6. *)
Lemma ept_pointer_layout_witness :
  let s := Sample.machine 5 [] 0 in
  IS_PAGE_ALIGNED 0x20000 = true /\
  exists eptp, ept_pointer 0x20000 s = Some (eptp, s) /\ eptp = 0x2005e.
Proof.
  cbv zeta.
  pose proof (ept_pointer_layout 0x20000 (Sample.machine 5 [] 0)
                ltac:(vm_compute; split; congruence)) as L.
  change (IS_PAGE_ALIGNED 0x20000) with true in L. cbv iota in L.
  destruct L as (eptp & E & V & _).
  split; [ reflexivity | ]. exists eptp. split; [ exact E | exact V ].
Defined.

(** IA32_GS_BASE in the bitmaps page of the sample machine. *)
Lemma ignore_msr_bits_witness :
  let s := Sample.machine 5 [] 0 in
  ignore_msr (mkVmxPage 0) 0xc0000101 s = None /\
  exists bitmaps,
    ignore_msr s.(msr_bitmaps_page_) 0xc0000101 s = Some (tt, set_msr_bitmaps bitmaps s) /\
    Z.testbit (bitmaps (msr_bitmap_byte false 0xc0000101)) (msr_bitmap_bit 0xc0000101) = false /\
    Z.testbit (bitmaps (msr_bitmap_byte true 0xc0000101)) (msr_bitmap_bit 0xc0000101) = false.
Proof.
  cbv zeta. split.
  - apply (proj1 (ignore_msr_bits (mkVmxPage 0) 0xc0000101 (Sample.machine 5 [] 0))).
    reflexivity.
  - destruct (proj2 (ignore_msr_bits (mkVmxPage 0x12000) 0xc0000101 (Sample.machine 5 [] 0))
                ltac:(vm_compute; congruence))
      as (bitmaps & E & C & _).
    exists bitmaps. split; [ exact E | ].
    split; [ apply (C false) | apply (C true) ].
Defined.

(** Entry 3 of the host MSR list of the sample machine. *)
Lemma edit_msr_list_entry_witness :
  let s := Sample.machine 5 [] 0 in
  edit_msr_list HostMsrPage 32 0xc0000102 7 s = None /\
  exists entries,
    edit_msr_list HostMsrPage 3 0xc0000102 7 s = Some (tt, set_host_msr_list entries s) /\
    entries 3 = mkMsrListEntry 0xc0000102 0 7.
Proof.
  cbv zeta. split.
  - apply (proj1 (edit_msr_list_entry 32 0xc0000102 7 (Sample.machine 5 [] 0))). lia.
  - destruct (proj1 (proj2 (proj2 (edit_msr_list_entry 3 0xc0000102 7 (Sample.machine 5 [] 0))))
                ltac:(lia) ltac:(vm_compute; congruence))
      as (entries & E & V & _).
    exists entries. split; [ exact E | exact V ].
Defined.

(** VMCLEAR succeeds on the sample machine: [Setup] goes on. *)
Lemma Setup_clears_first_witness :
  let s := Sample.machine 5 [] 0 in
  let s0 := add_event (EvVmclear 0x11000) s in
  s.(page_).(pa_) <> 0 /\
  Setup 0x20000 s = AutoVmcsLoad s.(page_) (Setup_body 0x20000) s0.
Proof.
  cbv zeta. split; [ vm_compute; congruence | ].
  pose proof (proj2 (Setup_clears_first 0x20000 (Sample.machine 5 [] 0))
                ltac:(vm_compute; congruence)) as P.
  change (fst (insn_vmclear (world (Sample.machine 5 [] 0))
                 (pa_ (page_ (Sample.machine 5 [] 0))))) with false in P.
  cbv iota in P. exact P.
Defined.

(** VMCS construction on the sample machine. *)
Lemma Setup_leaves_witness :
  let s := Sample.machine 5 [] 0 in
  let s' := Sample.after (Setup 0x20000) s in
  Setup 0x20000 s = Some (NO_ERROR, s') /\
  outside_vmcs s' = outside_vmcs s /\
  s'.(vmcs) (FXX VmcsFieldXX.GUEST_RIP) = 0.
Proof.
  cbv zeta.
  pose proof (returns_after (Setup 0x20000) (Sample.machine 5 [] 0) NO_ERROR
                ltac:(vm_compute; reflexivity)) as E.
  destruct (Setup_leaves _ _ _ _ E) as (O & F).
  split; [ exact E | ]. split; [ exact O | ].
  rewrite (F (FXX VmcsFieldXX.GUEST_RIP)) by (simpl; auto). reflexivity.
Defined.

Lemma Setup_control_fields_witness :
  let s := Sample.machine 5 [] 0 in
  let s' := Sample.after (Setup 0x20000) s in
  (forall m, is_u64 (s.(msrs) m)) /\
  Setup 0x20000 s = Some (NO_ERROR, s') /\
  Forall (control_programmed s s') control_calls.
Proof.
  cbv zeta.
  assert (U : forall m, is_u64 (msrs (Sample.machine 5 [] 0) m)).
  { intros m. apply sample_msrs_u64. vm_compute; split; congruence. }
  pose proof (returns_after (Setup 0x20000) (Sample.machine 5 [] 0) NO_ERROR
                ltac:(vm_compute; reflexivity)) as E.
  exact (conj U (conj E (Setup_control_fields _ _ _ U E))).
Defined.

Lemma Setup_msr_areas_witness :
  let s := Sample.machine 5 [] 0 in
  let s' := Sample.after (Setup 0x20000) s in
  Setup 0x20000 s = Some (NO_ERROR, s') /\
  s'.(vmcs) (F32 VmcsField32.EXIT_MSR_LOAD_COUNT) = 4 /\
  s'.(vmcs) (F64 VmcsField64.EXIT_MSR_LOAD_ADDRESS) = 0x13000 /\
  msr (s'.(host_msr_list) 1) = 0xc0000082.
Proof.
  cbv zeta.
  pose proof (returns_after (Setup 0x20000) (Sample.machine 5 [] 0) NO_ERROR
                ltac:(vm_compute; reflexivity)) as E.
  destruct (Setup_msr_areas _ _ _ E) as (_ & _ & _ & A & C & _ & L1 & _).
  split; [ exact E | ]. split; [ exact C | ]. split; [ exact A | ].
  rewrite L1. reflexivity.
Defined.

Lemma Setup_host_guest_state_witness :
  let s := Sample.machine 5 [] 0 in
  let s' := Sample.after (Setup 0x20000) s in
  Setup 0x20000 s = Some (NO_ERROR, s') /\
  s'.(vmcs) (FXX VmcsFieldXX.GUEST_CR0) = 0x80000021 /\
  s'.(vmcs) (FXX VmcsFieldXX.GUEST_CR4) = 0x2020 /\
  s'.(vmcs) (FXX VmcsFieldXX.HOST_CR0) = 0x80050033.
Proof.
  cbv zeta.
  assert (U : forall m, is_u64 (msrs (Sample.machine 5 [] 0) m)).
  { intros m. apply sample_msrs_u64. vm_compute; split; congruence. }
  pose proof (returns_after (Setup 0x20000) (Sample.machine 5 [] 0) NO_ERROR
                ltac:(vm_compute; reflexivity)) as E.
  assert (U0 : is_u64 (Z.lor (Z.lor X86_CR0_PE X86_CR0_PG) X86_CR0_NE))
    by (vm_compute; split; congruence).
  assert (U4 : is_u64 (Z.lor X86_CR4_PAE X86_CR4_VMXE))
    by (vm_compute; split; congruence).
  pose proof (Setup_host_guest_state 0x20000 _ _ U0 U4 U E) as P.
  cbv zeta in P.
  destruct P as (H0 & _ & _ & _ & _ & _ & _ & G0 & _ & G4 & _).
  split; [ exact E | ].
  split; [ rewrite G0; reflexivity | ].
  split; [ rewrite G4; reflexivity | rewrite H0; reflexivity ].
Defined.

(** WRMSR in the guest of the sample machine: exit reason 32. *)
Lemma vmexit_handler_not_supported_witness :
  let s := Sample.exited (Sample.mkExit NO_ERROR (mkGuestState 0 0 0 0) 32 0 2 0x1000) 16 in
  vmexit_handler s = Some (ERR_NOT_SUPPORTED, s).
Proof.
  cbv zeta. apply vmexit_handler_not_supported. left. reflexivity.
Defined.

(** An external interrupt while the guest runs: exit reason 1. *)
Lemma vmexit_handler_external_interrupt_witness :
  let s := Sample.exited (Sample.mkExit NO_ERROR (mkGuestState 0 0 0 0) 1 0 0 0x1000) 16 in
  exists s',
    vmexit_handler s = Some (NO_ERROR, s') /\
    s'.(ints_disabled) = true /\
    s'.(trace) = [EvDisableInts; EvEnableInts] /\
    s'.(vmcs) (FXX VmcsFieldXX.GUEST_RIP) = 0x1000.
Proof.
  cbv zeta.
  pose proof (vmexit_handler_external_interrupt
                (Sample.exited (Sample.mkExit NO_ERROR (mkGuestState 0 0 0 0) 1 0 0 0x1000) 16)
                eq_refl) as P.
  change (ints_disabled
            (Sample.exited (Sample.mkExit NO_ERROR (mkGuestState 0 0 0 0) 1 0 0 0x1000) 16))
    with true in P.
  cbv iota in P. destruct P as (s' & E & I & T & V & _).
  exists s'. split; [ exact E | ]. split; [ exact I | ]. split; [ exact T | ].
  rewrite V. reflexivity.
Defined.

(** CPUID in the guest of the sample machine. *)
Lemma vmexit_handler_leaves_witness :
  let s := Sample.exited (Sample.cpuid_exit (mkGuestState 0 0 0 0)) 16 in
  let s' := Sample.after vmexit_handler s in
  vmexit_handler s = Some (NO_ERROR, s') /\
  s'.(vmcs) (F32 VmcsField32.EXIT_REASON) = 10.
Proof.
  cbv zeta.
  pose proof (returns_after vmexit_handler
                (Sample.exited (Sample.cpuid_exit (mkGuestState 0 0 0 0)) 16) NO_ERROR
                ltac:(vm_compute; reflexivity)) as E.
  destruct (vmexit_handler_leaves _ _ _ E) as (_ & _ & F).
  split; [ exact E | ].
  rewrite (F (F32 VmcsField32.EXIT_REASON)) by discriminate. reflexivity.
Defined.

(** An entry that fails: the script of the sample guest is empty. *)
Lemma Enter_entry_fails_witness :
  let s := Sample.machine 5 [] 16 in
  let s' := Sample.after (Enter Sample.context) s in
  Enter Sample.context s = Some (ERR_INTERNAL, s') /\
  exists s1 s2 entry_status,
    AutoVmcsLoad_ctor s.(page_) s = Some (tt, s1) /\
    Enter_prepare Sample.context s1 = Some (tt, s2) /\
    (entry_status <> NO_ERROR ->
     s'.(do_resume_) = s.(do_resume_) /\ s'.(serial_fifo) = s.(serial_fifo)).
Proof.
  cbv zeta.
  pose proof (returns_after (Enter Sample.context) (Sample.machine 5 [] 16) ERR_INTERNAL
                ltac:(vm_compute; reflexivity)) as E.
  destruct (Enter_entry_fails _ _ _ _ E) as (s1 & s2 & entry_status & E1 & E2 & _ & F).
  split; [ exact E | ]. exists s1, s2, entry_status.
  split; [ exact E1 | ]. split; [ exact E2 | ].
  intros N. destruct (F N) as (_ & R & Q & _). exact (conj R Q).
Defined.

(** VMCS construction and the first entry on the sample machine. *)
Lemma Setup_Enter_host_msr_list_witness :
  let s := Sample.machine 5 [Sample.cpuid_exit (mkGuestState 0 0 0 0)] 16 in
  let s1 := Sample.after (Setup 0x20000) s in
  let s' := Sample.after (Enter Sample.context) s1 in
  Setup 0x20000 s = Some (NO_ERROR, s1) /\
  Enter Sample.context s1 = Some (NO_ERROR, s') /\
  exists s3,
    s3.(vmcs) (F32 VmcsField32.EXIT_MSR_LOAD_COUNT) = 4 /\
    map (fun i => msr (s3.(host_msr_list) i)) [0; 1; 2; 3] =
      [0xc0000081; 0xc0000082; 0xc0000084; 0xc0000102].
Proof.
  cbv zeta.
  pose proof (returns_after (Setup 0x20000)
                (Sample.machine 5 [Sample.cpuid_exit (mkGuestState 0 0 0 0)] 16) NO_ERROR
                ltac:(vm_compute; reflexivity)) as E1.
  pose proof (returns_after (Enter Sample.context)
                (Sample.after (Setup 0x20000)
                   (Sample.machine 5 [Sample.cpuid_exit (mkGuestState 0 0 0 0)] 16))
                NO_ERROR ltac:(vm_compute; reflexivity)) as E2.
  destruct (Setup_Enter_host_msr_list _ _ _ _ _ _ E1 E2)
    as (s2 & s3 & _ & _ & C & _ & L & _).
  split; [ exact E1 | ]. split; [ exact E2 | ].
  exists s3. split; [ exact C | ].
  injection L as L0 _ L1 _ L2 _ L3 _.
  simpl map. rewrite L0, L1, L2, L3. reflexivity.
Defined.

(** A context that was never programmed, and the sample context. *)
Lemma VmcsContext_Enter_guard_witness :
  let s := Sample.machine 5 [] 16 in
  arch_guest_enter (mkVmcsContext 0x100000 UINTPTR_MAX 0x8000) s = Some (ERR_BAD_STATE, s) /\
  arch_guest_enter Sample.context s = percpu_exec (Enter Sample.context) s.
Proof.
  cbv zeta. split.
  - apply (proj1 (VmcsContext_Enter_guard (mkVmcsContext 0x100000 UINTPTR_MAX 0x8000)
                    (Sample.machine 5 [] 16))).
    left. reflexivity.
  - apply (proj2 (VmcsContext_Enter_guard Sample.context (Sample.machine 5 [] 16)));
      vm_compute; congruence.
Defined.

(** Programming a fresh context over 1 MiB of guest memory. *)
Lemma set_cr3_set_entry_enter_witness :
  let c := mkVmcsContext 0x100000 UINTPTR_MAX UINTPTR_MAX in
  is_u64 c.(gpas_size) /\
  set_cr3 0x3000 c = (NO_ERROR, mkVmcsContext 0x100000 0x3000 UINTPTR_MAX) /\
  set_entry 0x8000 (mkVmcsContext 0x100000 0x3000 UINTPTR_MAX) = (NO_ERROR, Sample.context) /\
  forall s, arch_guest_enter Sample.context s = percpu_exec (Enter Sample.context) s.
Proof.
  cbv zeta.
  assert (U : is_u64 (gpas_size (mkVmcsContext 0x100000 UINTPTR_MAX UINTPTR_MAX)))
    by (vm_compute; split; congruence).
  destruct (set_cr3_set_entry_enter (mkVmcsContext 0x100000 UINTPTR_MAX UINTPTR_MAX)
              (mkVmcsContext 0x100000 0x3000 UINTPTR_MAX) Sample.context 0x3000 0x8000
              U eq_refl eq_refl) as (_ & _ & _ & _ & G).
  exact (conj U (conj eq_refl (conj eq_refl G))).
Defined.

(** A guest entry through every layer on the sample machine. *)
Lemma arch_guest_enter_success_witness :
  let s := Sample.machine 5 [Sample.cpuid_exit (mkGuestState 0 0 0 0)] 16 in
  let s' := Sample.after (arch_guest_enter Sample.context) s in
  arch_guest_enter Sample.context s = Some (NO_ERROR, s') /\
  s'.(do_resume_) = true.
Proof.
  cbv zeta.
  assert (Hst : option_map fst
                  (arch_guest_enter Sample.context
                     (Sample.machine 5 [Sample.cpuid_exit (mkGuestState 0 0 0 0)] 16)) =
                Some NO_ERROR)
    by (vm_compute; reflexivity).
  pose proof (returns_after _ _ _ Hst) as E.
  pose proof (arch_guest_enter_success _ _ _ E) as P.
  destruct P as (_ & _ & wc & w0 & s1 & w1 & _ & _ & _ & _ & _ & R).
  exact (conj E R).
Defined.

(** The two settings of the sample context in either order. *)
Lemma set_cr3_set_entry_commute_witness :
  let c := mkVmcsContext 0x100000 UINTPTR_MAX UINTPTR_MAX in
  snd (set_entry 0x8000 (snd (set_cr3 0x3000 c))) = Sample.context /\
  snd (set_cr3 0x3000 (snd (set_entry 0x8000 c))) = Sample.context.
Proof.
  cbv zeta.
  destruct (set_cr3_set_entry_commute (mkVmcsContext 0x100000 UINTPTR_MAX UINTPTR_MAX)
              0x3000 0x8000) as (_ & _ & C & _).
  cbv zeta in C. rewrite <- C. split; reflexivity.
Defined.
